(** * Dealer ordering backend ([backend/server.py]): cart, checkout, OTP login
      and dashboard handlers, embedded over an explicit document store.

    Every handler of the source is an [async] function that talks to a MongoDB
    database through the module-level handle [db].  Here a handler is a function
    from the store to a result and the store it leaves behind: an exception
    keeps whatever had been written before it was raised, exactly as the source
    (which opens no transaction) does.

    Conventions of the embedding:
    - a collection is the list of its documents in natural order; [find_one]
      and [update_one] act on the first match, [insert_one] appends; the
      store keeps every value as it was written;
    - Python [float] is IEEE-754 binary64, i.e. Rocq's primitive [float];
      Python [int] is [Z]; an int that a route hands to the driver must fit
      eight bytes;
    - [datetime] values are integers (microseconds since the epoch); a datetime
      written with [isoformat()] and read back with [fromisoformat] is the same
      integer;
    - values the source draws from outside ([uuid.uuid4()], [secrets],
      [datetime.now]) are read from a [World] argument. *)

From Stdlib Require Import ZArith List String Bool Lia QArith Qabs Floats.
From Stdlib Require Import Ascii.
Import ListNotations.

Local Open Scope Z_scope.
Local Open Scope string_scope.

(** ** Python numbers *)

Module Py.

(** [float(n)] for a Python int: correctly rounded (ties to even);
    [None] stands for [OverflowError: int too large to convert to float]. *)
Definition float_of_int (n : Z) : option float :=
  match binary_normalize prec emax n 0 false with
  | S754_infinity _ => None
  | sf => Some (SF2Prim sf)
  end.

(** [x * n] with [x] a float and [n] an int: the int is converted first. *)
Definition mul_float_int (x : float) (n : Z) : option float :=
  match float_of_int n with
  | Some y => Some (x * y)%float
  | None => None
  end.

(** [a > b] on floats. *)
Definition gt (a b : float) : bool := (b <? a)%float.

(** Interpreter generations that differ on the built-in [sum] over floats. *)
Inductive version := Py311 | Py312.

(** One step of the compensated loop of [sum] (CPython 3.12 and later):
    the running sum [f] and the compensation [c]. *)
Definition neumaier_step (st : float * float) (x : float) : float * float :=
  let '(f, c) := st in
  let t := (f + x)%float in
  let c' := if (abs x <=? abs f)%float
            then (c + ((f - t) + x))%float
            else (c + ((x - t) + f))%float in
  (t, c').

Definition neumaier_finish (st : float * float) : float :=
  let '(f, c) := st in
  if negb (c =? 0)%float && is_finite c then (f + c)%float else f.

(** The built-in [sum(xs)] over a sequence of floats, started from the int 0.
    Up to 3.11 it is the left-to-right sum; from 3.12 the first addition
    [0 + x] turns the accumulator into a float and the rest is summed with
    Neumaier compensation. *)
Definition sum (v : version) (xs : list float) : float :=
  match v with
  | Py311 => fold_left add xs 0%float
  | Py312 =>
      match xs with
      | [] => 0%float
      | x :: rest =>
          neumaier_finish (fold_left neumaier_step rest ((0 + x)%float, 0%float))
      end
  end.

(** The rational number a finite float stands for, in lowest terms. *)
Definition Q_of_float (x : float) : option Q :=
  match Prim2SF x with
  | S754_zero _ => Some 0%Q
  | S754_finite s m e =>
      let z := if s then Z.neg m else Z.pos m in
      Some (if (0 <=? e)%Z then inject_Z (z * 2 ^ e)
            else Qred (Qmake z (Z.to_pos (2 ^ (- e)))))
  | _ => None
  end.

End Py.

(** ** Enums *)

Module OrderStatus.
Inductive t := PENDING | CONFIRMED | PROCESSING | SHIPPED | DELIVERED | CANCELLED.
Definition eqb (a b : t) : bool :=
  match a, b with
  | PENDING, PENDING | CONFIRMED, CONFIRMED | PROCESSING, PROCESSING
  | SHIPPED, SHIPPED | DELIVERED, DELIVERED | CANCELLED, CANCELLED => true
  | _, _ => false
  end.
End OrderStatus.

Module PaymentMethod.
Inductive t := COD | ACCOUNT.
Definition eqb (a b : t) : bool :=
  match a, b with
  | COD, COD | ACCOUNT, ACCOUNT => true
  | _, _ => false
  end.
End PaymentMethod.

Module PaymentStatus.
Inductive t := PENDING | COMPLETED | FAILED.
End PaymentStatus.

(** ** Models *)

Definition datetime := Z.

Module Dealer.
Record t := mk {
  id : string;
  name : string;
  phone : string;
  email : string;
  business_name : string;
  address : string;
  gst_number : option string;
  credit_limit : float;
  outstanding_balance : float;
  auth_token : option string;
  otp : option string;
  otp_expires_at : option datetime;
  created_at : datetime
}.
End Dealer.

Module VerifyOTPRequest.
Record t := mk { phone : string; otp : string }.
End VerifyOTPRequest.

Module SendOTPRequest.
Record t := mk { phone : string }.
End SendOTPRequest.

Module AuthResponse.
Record t := mk { token : string; dealer : Dealer.t }.
End AuthResponse.

Module Product.
Record t := mk {
  id : string;
  name : string;
  description : string;
  category : string;
  grade : string;
  packaging : string;
  price : float;
  stock : Z;
  image_url : string;
  specifications : list (string * string);
  created_at : datetime
}.
End Product.

Module CartItemCreate.
Record t := mk { product_id : string; quantity : Z }.
End CartItemCreate.

Module CartItem.
Record t := mk {
  id : string;
  dealer_id : string;
  product_id : string;
  quantity : Z;
  created_at : datetime
}.
End CartItem.

Module CartItemWithProduct.
Record t := mk {
  id : string;
  product : Product.t;
  quantity : Z;
  subtotal : float
}.
End CartItemWithProduct.

Module OrderCreate.
Record t := mk {
  payment_method : PaymentMethod.t;
  delivery_address : string;
  notes : option string
}.
End OrderCreate.

Module OrderItem.
Record t := mk {
  product_id : string;
  product_name : string;
  quantity : Z;
  price : float;
  subtotal : float
}.
End OrderItem.

Module Order.
Record t := mk {
  id : string;
  order_number : string;
  dealer_id : string;
  items : list OrderItem.t;
  total_amount : float;
  payment_method : PaymentMethod.t;
  payment_status : PaymentStatus.t;
  order_status : OrderStatus.t;
  delivery_address : string;
  notes : option string;
  created_at : datetime;
  updated_at : datetime
}.
End Order.

Module DashboardStats.
Record t := mk {
  total_orders : Z;
  pending_orders : Z;
  delivered_orders : Z;
  total_spent : float;
  credit_available : float;
  outstanding_balance : float
}.
End DashboardStats.

(** ** Exceptions and results *)

(** The [detail] of an [HTTPException].  The insufficient-credit message is the
    f-string [Insufficient credit. Available: ..., Required: ...] that renders
    two floats with two decimals; the two floats are kept as they are. *)
Inductive Detail :=
| Msg (s : string)
| InsufficientCredit (available_credit total_amount : float).

Inductive Exception :=
| HTTPException (status_code : Z) (detail : Detail)
| OverflowError
| TypeError.

Inductive Result (A : Type) :=
| Return (a : A)
| Raise (e : Exception).
Arguments Return {A} a.
Arguments Raise {A} e.

(** ** The document store *)

Record DB := mkDB {
  dealers : list Dealer.t;
  products : list Product.t;
  cart_items : list CartItem.t;
  orders : list Order.t
}.

(** A collection of the store: how to read it and how to write it back. *)
Record Collection (A : Type) := mkCollection {
  docs : DB -> list A;
  put : list A -> DB -> DB
}.
Arguments docs {A} c db.
Arguments put {A} c l db.

Definition db_dealers : Collection Dealer.t :=
  mkCollection _ dealers
    (fun l db => mkDB l (products db) (cart_items db) (orders db)).
Definition db_products : Collection Product.t :=
  mkCollection _ products
    (fun l db => mkDB (dealers db) l (cart_items db) (orders db)).
Definition db_cart_items : Collection CartItem.t :=
  mkCollection _ cart_items
    (fun l db => mkDB (dealers db) (products db) l (orders db)).
Definition db_orders : Collection Order.t :=
  mkCollection _ orders
    (fun l db => mkDB (dealers db) (products db) (cart_items db) l).

(** Pure list counterparts of the driver's operations.  A query document is a
    boolean predicate, a [$set] update a function on documents. *)
Section Lists.
Context {A : Type}.

Fixpoint update_first (q : A -> bool) (f : A -> A) (l : list A) : list A :=
  match l with
  | [] => []
  | x :: r => if q x then f x :: r else x :: update_first q f r
  end.

Fixpoint delete_first (q : A -> bool) (l : list A) : list A :=
  match l with
  | [] => []
  | x :: r => if q x then r else x :: delete_first q r
  end.

Definition matched_count (q : A -> bool) (l : list A) : Z :=
  if existsb q l then 1 else 0.
End Lists.

(** ** Handlers: state and exceptions *)

Definition Handler (A : Type) : Type := DB -> Result A * DB.

Definition ret {A} (a : A) : Handler A := fun db => (Return a, db).
Definition raise {A} (e : Exception) : Handler A := fun db => (Raise e, db).
Definition bind {A B} (m : Handler A) (k : A -> Handler B) : Handler B :=
  fun db =>
    match m db with
    | (Return a, db') => k a db'
    | (Raise e, db') => (Raise e, db')
    end.

Declare Scope handler_scope.
Delimit Scope handler_scope with handler.
Notation "x <- m ;; k" := (bind m (fun x => k))
  (at level 100, m at next level, right associativity) : handler_scope.
Notation "m ;; k" := (bind m (fun _ => k))
  (at level 100, right associativity) : handler_scope.
Local Open Scope handler_scope.

Section Driver.
Context {A : Type} (c : Collection A).

(** [await db.c.find_one(q)] *)
Definition find_one (q : A -> bool) : Handler (option A) :=
  fun db => (Return (List.find q (docs c db)), db).

(** [await db.c.find(q).to_list(n)] *)
Definition find_to_list (q : A -> bool) (n : nat) : Handler (list A) :=
  fun db => (Return (firstn n (filter q (docs c db))), db).

(** [await db.c.insert_one(doc)] *)
Definition insert_one (doc : A) : Handler unit :=
  fun db => (Return tt, put c (docs c db ++ [doc]) db).

(** [await db.c.update_one(q, {"$set": ...})]; the result is [matched_count]. *)
Definition update_one (q : A -> bool) (f : A -> A) : Handler Z :=
  fun db => (Return (matched_count q (docs c db)),
             put c (update_first q f (docs c db)) db).

(** [await db.c.delete_one(q)]; the result is [deleted_count]. *)
Definition delete_one (q : A -> bool) : Handler Z :=
  fun db => (Return (matched_count q (docs c db)),
             put c (delete_first q (docs c db)) db).

(** [await db.c.delete_many(q)] *)
Definition delete_many (q : A -> bool) : Handler unit :=
  fun db => (Return tt, put c (filter (fun x => negb (q x)) (docs c db)) db).
End Driver.

(** The driver writes a Python int as a BSON integer of at most 8 bytes.
    Encoding a document that holds a larger one raises [OverflowError] before
    anything reaches the store. *)
Definition fits_int64 (n : Z) : bool :=
  (- 2 ^ 63 <=? n)%Z && (n <? 2 ^ 63)%Z.

Definition encode_int (n : Z) : Handler unit :=
  if fits_int64 n then ret tt else raise OverflowError.

(** What a request draws from outside the program. *)
Record World := mkWorld {
  uuid4 : string;            (* str(uuid.uuid4()) *)
  now : datetime;            (* datetime.now(timezone.utc) *)
  now_again : datetime;      (* the next reading of the same clock *)
  strftime_now : string;     (* datetime.now().strftime("%Y%m%d%H%M%S") *)
  token_hex3_upper : string; (* secrets.token_hex(3).upper() *)
  token_urlsafe32 : string;  (* secrets.token_urlsafe(32) *)
  randbelow10 : list Z       (* successive secrets.randbelow(10) *)
}.

(** ** [$set] updates and field assignments *)

Definition option_eqb {A} (eqb : A -> A -> bool) (a b : option A) : bool :=
  match a, b with
  | Some x, Some y => eqb x y
  | None, None => true
  | _, _ => false
  end.

Definition set_otp (otp : option string) (otp_expires_at : option datetime)
    (d : Dealer.t) : Dealer.t :=
  Dealer.mk (Dealer.id d) (Dealer.name d) (Dealer.phone d) (Dealer.email d)
    (Dealer.business_name d) (Dealer.address d) (Dealer.gst_number d)
    (Dealer.credit_limit d) (Dealer.outstanding_balance d) (Dealer.auth_token d)
    otp otp_expires_at (Dealer.created_at d).

Definition set_auth_token (auth_token : option string) (d : Dealer.t) : Dealer.t :=
  Dealer.mk (Dealer.id d) (Dealer.name d) (Dealer.phone d) (Dealer.email d)
    (Dealer.business_name d) (Dealer.address d) (Dealer.gst_number d)
    (Dealer.credit_limit d) (Dealer.outstanding_balance d) auth_token
    (Dealer.otp d) (Dealer.otp_expires_at d) (Dealer.created_at d).

Definition set_outstanding_balance (outstanding_balance : float) (d : Dealer.t)
    : Dealer.t :=
  Dealer.mk (Dealer.id d) (Dealer.name d) (Dealer.phone d) (Dealer.email d)
    (Dealer.business_name d) (Dealer.address d) (Dealer.gst_number d)
    (Dealer.credit_limit d) outstanding_balance (Dealer.auth_token d)
    (Dealer.otp d) (Dealer.otp_expires_at d) (Dealer.created_at d).

Definition set_quantity (quantity : Z) (c : CartItem.t) : CartItem.t :=
  CartItem.mk (CartItem.id c) (CartItem.dealer_id c) (CartItem.product_id c)
    quantity (CartItem.created_at c).

(** ** Helper functions *)

Definition str_digit (n : Z) : string :=
  match n with
  | 0 => "0" | 1 => "1" | 2 => "2" | 3 => "3" | 4 => "4"
  | 5 => "5" | 6 => "6" | 7 => "7" | 8 => "8" | _ => "9"
  end.

Definition generate_otp (w : World) : string :=
  String.concat "" (map str_digit (firstn 6 (randbelow10 w))).

Definition generate_token (w : World) : string := token_urlsafe32 w.

Definition generate_order_number (w : World) : string :=
  "ORD-" ++ strftime_now w ++ "-" ++ token_hex3_upper w.

(** ** Authentication routes *)

Definition send_otp (request : SendOTPRequest.t) (w : World) : Handler string :=
  dealer_doc <- find_one db_dealers
    (fun d => String.eqb (Dealer.phone d) (SendOTPRequest.phone request)) ;;
  match dealer_doc with
  | None => raise (HTTPException 404 (Msg "Phone number not registered"))
  | Some _ =>
      let otp := generate_otp w in
      let otp_expires_at := (now w + 5 * 60 * 1000000)%Z in
      update_one db_dealers
        (fun d => String.eqb (Dealer.phone d) (SendOTPRequest.phone request))
        (set_otp (Some otp) (Some otp_expires_at)) ;;
      ret otp
  end.

Definition verify_otp (request : VerifyOTPRequest.t) (w : World)
    : Handler AuthResponse.t :=
  dealer_doc <- find_one db_dealers
    (fun d => String.eqb (Dealer.phone d) (VerifyOTPRequest.phone request)) ;;
  match dealer_doc with
  | None => raise (HTTPException 404 (Msg "Phone number not registered"))
  | Some dealer_doc =>
      if negb (option_eqb String.eqb (Dealer.otp dealer_doc)
                 (Some (VerifyOTPRequest.otp request)))
      then raise (HTTPException 400 (Msg "Invalid OTP"))
      else
        match Dealer.otp_expires_at dealer_doc with
        | None => raise TypeError  (* datetime.fromisoformat(None) *)
        | Some otp_expires_at =>
            if (now w >? otp_expires_at)%Z
            then raise (HTTPException 400 (Msg "OTP expired"))
            else
              let token := generate_token w in
              update_one db_dealers
                (fun d => String.eqb (Dealer.phone d)
                            (VerifyOTPRequest.phone request))
                (fun d => set_otp None None (set_auth_token (Some token) d)) ;;
              let dealer := set_auth_token (Some token) dealer_doc in
              ret (AuthResponse.mk token dealer)
        end
  end.

(** ** Cart routes *)

(** The [for item in cart_items] loop of [get_cart]. *)
Fixpoint get_cart_loop (cart_items : list CartItem.t)
    (result : list CartItemWithProduct.t)
    : Handler (list CartItemWithProduct.t) :=
  match cart_items with
  | [] => ret result
  | item :: rest =>
      product <- find_one db_products
        (fun p => String.eqb (Product.id p) (CartItem.product_id item)) ;;
      match product with
      | Some product_obj =>
          match Py.mul_float_int (Product.price product_obj)
                  (CartItem.quantity item) with
          | None => raise OverflowError
          | Some subtotal =>
              get_cart_loop rest
                (result ++
                   [CartItemWithProduct.mk (CartItem.id item) product_obj
                      (CartItem.quantity item) subtotal])
          end
      | None => get_cart_loop rest result
      end
  end.

Definition get_cart (dealer : Dealer.t) : Handler (list CartItemWithProduct.t) :=
  cart_items <- find_to_list db_cart_items
    (fun c => String.eqb (CartItem.dealer_id c) (Dealer.id dealer)) 1000 ;;
  get_cart_loop cart_items [].

Definition add_to_cart (item_data : CartItemCreate.t) (dealer : Dealer.t)
    (w : World) : Handler CartItem.t :=
  product <- find_one db_products
    (fun p => String.eqb (Product.id p) (CartItemCreate.product_id item_data)) ;;
  match product with
  | None => raise (HTTPException 404 (Msg "Product not found"))
  | Some _ =>
      existing <- find_one db_cart_items
        (fun c => String.eqb (CartItem.dealer_id c) (Dealer.id dealer)
                  && String.eqb (CartItem.product_id c)
                       (CartItemCreate.product_id item_data)) ;;
      match existing with
      | Some existing =>
          let new_quantity :=
            (CartItem.quantity existing + CartItemCreate.quantity item_data)%Z in
          encode_int new_quantity ;;  (* the [$set] document of [update_one] *)
          update_one db_cart_items
            (fun c => String.eqb (CartItem.id c) (CartItem.id existing))
            (set_quantity new_quantity) ;;
          ret (set_quantity new_quantity existing)
      | None =>
          let cart_item :=
            CartItem.mk (uuid4 w) (Dealer.id dealer)
              (CartItemCreate.product_id item_data)
              (CartItemCreate.quantity item_data) (now w) in
          encode_int (CartItem.quantity cart_item) ;;  (* [doc] of [insert_one] *)
          insert_one db_cart_items cart_item ;;
          ret cart_item
      end
  end.

Definition update_cart_item (item_id : string) (quantity : Z) (dealer : Dealer.t)
    : Handler unit :=
  if (quantity <=? 0)%Z
  then raise (HTTPException 400 (Msg "Quantity must be greater than 0"))
  else
    encode_int quantity ;;  (* the [$set] document of [update_one] *)
    matched <- update_one db_cart_items
      (fun c => String.eqb (CartItem.id c) item_id
                && String.eqb (CartItem.dealer_id c) (Dealer.id dealer))
      (set_quantity quantity) ;;
    if (matched =? 0)%Z
    then raise (HTTPException 404 (Msg "Cart item not found"))
    else ret tt.

Definition remove_from_cart (item_id : string) (dealer : Dealer.t)
    : Handler unit :=
  deleted <- delete_one db_cart_items
    (fun c => String.eqb (CartItem.id c) item_id
              && String.eqb (CartItem.dealer_id c) (Dealer.id dealer)) ;;
  if (deleted =? 0)%Z
  then raise (HTTPException 404 (Msg "Cart item not found"))
  else ret tt.

Definition clear_cart (dealer : Dealer.t) : Handler unit :=
  delete_many db_cart_items
    (fun c => String.eqb (CartItem.dealer_id c) (Dealer.id dealer)).

(** ** Order routes *)

(** The [for item in cart_items] loop of [create_order], with its two
    accumulators. *)
Fixpoint create_order_loop (cart_items : list CartItem.t)
    (order_items : list OrderItem.t) (total_amount : float)
    : Handler (list OrderItem.t * float) :=
  match cart_items with
  | [] => ret (order_items, total_amount)
  | item :: rest =>
      product <- find_one db_products
        (fun p => String.eqb (Product.id p) (CartItem.product_id item)) ;;
      match product with
      | Some product =>
          match Py.mul_float_int (Product.price product) (CartItem.quantity item) with
          | None => raise OverflowError
          | Some subtotal =>
              create_order_loop rest
                (order_items ++
                   [OrderItem.mk (Product.id product) (Product.name product)
                      (CartItem.quantity item) (Product.price product) subtotal])
                (total_amount + subtotal)%float
          end
      | None => create_order_loop rest order_items total_amount
      end
  end.

Definition create_order (order_data : OrderCreate.t) (dealer : Dealer.t)
    (w : World) : Handler Order.t :=
  cart_items <- find_to_list db_cart_items
    (fun c => String.eqb (CartItem.dealer_id c) (Dealer.id dealer)) 1000 ;;
  match cart_items with
  | [] => raise (HTTPException 400 (Msg "Cart is empty"))
  | _ :: _ =>
      built <- create_order_loop cart_items [] 0%float ;;
      let order_items := fst built in
      let total_amount := snd built in
      (if PaymentMethod.eqb (OrderCreate.payment_method order_data)
            PaymentMethod.ACCOUNT
       then
         let available_credit :=
           (Dealer.credit_limit dealer - Dealer.outstanding_balance dealer)%float in
         if Py.gt total_amount available_credit
         then raise (HTTPException 400
                       (InsufficientCredit available_credit total_amount))
         else ret tt
       else ret tt) ;;
      let order :=
        Order.mk (uuid4 w) (generate_order_number w) (Dealer.id dealer)
          order_items total_amount (OrderCreate.payment_method order_data)
          (if PaymentMethod.eqb (OrderCreate.payment_method order_data)
                PaymentMethod.COD
           then PaymentStatus.PENDING else PaymentStatus.COMPLETED)
          OrderStatus.PENDING
          (OrderCreate.delivery_address order_data) (OrderCreate.notes order_data)
          (now w) (now_again w) in
      insert_one db_orders order ;;
      (if PaymentMethod.eqb (OrderCreate.payment_method order_data)
            PaymentMethod.ACCOUNT
       then
         let new_balance :=
           (Dealer.outstanding_balance dealer + total_amount)%float in
         update_one db_dealers
           (fun d => String.eqb (Dealer.id d) (Dealer.id dealer))
           (set_outstanding_balance new_balance) ;;
         ret tt
       else ret tt) ;;
      delete_many db_cart_items
        (fun c => String.eqb (CartItem.dealer_id c) (Dealer.id dealer)) ;;
      ret order
  end.

(** ** Dashboard routes *)

Definition get_dashboard_stats (v : Py.version) (dealer : Dealer.t)
    : Handler DashboardStats.t :=
  orders <- find_to_list db_orders
    (fun o => String.eqb (Order.dealer_id o) (Dealer.id dealer)) 1000 ;;
  let total_orders := Z.of_nat (List.length orders) in
  let pending_orders :=
    Z.of_nat (List.length (filter
      (fun o => OrderStatus.eqb (Order.order_status o) OrderStatus.PENDING)
      orders)) in
  let delivered_orders :=
    Z.of_nat (List.length (filter
      (fun o => OrderStatus.eqb (Order.order_status o) OrderStatus.DELIVERED)
      orders)) in
  let total_spent := Py.sum v (map Order.total_amount orders) in
  let credit_available :=
    (Dealer.credit_limit dealer - Dealer.outstanding_balance dealer)%float in
  ret (DashboardStats.mk total_orders pending_orders delivered_orders
         total_spent credit_available (Dealer.outstanding_balance dealer)).

(** ** Vocabulary of the specification *)

(** The dealer's cart: the rows of [db.cart_items] owned by the dealer. *)
Definition cart_of (dealer : Dealer.t) (db : DB) : list CartItem.t :=
  filter (fun c => String.eqb (CartItem.dealer_id c) (Dealer.id dealer))
    (cart_items db).

(** The dealer's cart rows for one product. *)
Definition rows_for (dealer : Dealer.t) (product_id : string) (db : DB)
    : list CartItem.t :=
  filter (fun c => String.eqb (CartItem.dealer_id c) (Dealer.id dealer)
                   && String.eqb (CartItem.product_id c) product_id)
    (cart_items db).

(** The quantity [add_to_cart] has to store for a request: the quantity
    given when the dealer has no row for the product, else its sum with the
    quantity of the first such row. *)
Definition quantity_to_store (item_data : CartItemCreate.t) (dealer : Dealer.t)
    (db : DB) : Z :=
  match rows_for dealer (CartItemCreate.product_id item_data) db with
  | [] => CartItemCreate.quantity item_data
  | existing :: _ =>
      (CartItem.quantity existing + CartItemCreate.quantity item_data)%Z
  end.

(** The cart row stored under an id. *)
Definition row_with_id (id : string) (db : DB) : option CartItem.t :=
  List.find (fun c => String.eqb (CartItem.id c) id) (cart_items db).

(** The dealer's orders. *)
Definition orders_of (dealer : Dealer.t) (db : DB) : list Order.t :=
  filter (fun o => String.eqb (Order.dealer_id o) (Dealer.id dealer)) (orders db).

(** The orders the dashboard reads: the first 1000 of the dealer's. *)
Definition dashboard_orders (dealer : Dealer.t) (db : DB) : list Order.t :=
  firstn 1000 (orders_of dealer db).

(** The dealer document stored under an id. *)
Definition stored_dealer (dealer_id : string) (db : DB) : option Dealer.t :=
  List.find (fun d => String.eqb (Dealer.id d) dealer_id) (dealers db).

(** The dealer document stored under a phone number. *)
Definition dealer_by_phone (phone : string) (db : DB) : option Dealer.t :=
  List.find (fun d => String.eqb (Dealer.phone d) phone) (dealers db).

(** The catalog entry of a product id. *)
Definition catalog (product_id : string) (db : DB) : option Product.t :=
  List.find (fun p => String.eqb (Product.id p) product_id) (products db).

(** A cart row resolves when its product is still in the catalog. *)
Definition resolves (db : DB) (row : CartItem.t) : bool :=
  match catalog (CartItem.product_id row) db with
  | Some _ => true
  | None => false
  end.

(** [it] is the order-time snapshot of the cart row [row]. *)
Definition snapshot_of (db : DB) (row : CartItem.t) (it : OrderItem.t) : Prop :=
  exists p,
    catalog (CartItem.product_id row) db = Some p /\
    OrderItem.product_id it = CartItem.product_id row /\
    OrderItem.product_name it = Product.name p /\
    OrderItem.quantity it = CartItem.quantity row /\
    OrderItem.price it = Product.price p /\
    Py.mul_float_int (Product.price p) (CartItem.quantity row)
      = Some (OrderItem.subtotal it).

(** The items of an order match a cart row by row: same products, same
    quantities, same order. *)
Definition matches_cart (cart : list CartItem.t) (items : list OrderItem.t) : Prop :=
  Forall2 (fun row it =>
             OrderItem.product_id it = CartItem.product_id row /\
             OrderItem.quantity it = CartItem.quantity row)
    cart items.

(** The floating-point sum of the subtotals of a list of items, left to right
    from [0.0]. *)
Definition float_total (items : list OrderItem.t) : float :=
  fold_left add (map OrderItem.subtotal items) 0%float.

(** The exact (rational) total of a list of items: unit price times quantity,
    summed without rounding and kept in lowest terms.  [None] when a price is
    not a finite number. *)
Fixpoint exact_total (items : list OrderItem.t) : option Q :=
  match items with
  | [] => Some 0%Q
  | it :: rest =>
      match Py.Q_of_float (OrderItem.price it), exact_total rest with
      | Some p, Some t =>
          Some (Qred (p * inject_Z (OrderItem.quantity it) + t))%Q
      | _, _ => None
      end
  end.

(** The sum of the absolute values of the exact subtotals of a list of
    items, in lowest terms.  [None] when a price is not a finite number. *)
Fixpoint magnitude (items : list OrderItem.t) : option Q :=
  match items with
  | [] => Some 0%Q
  | it :: rest =>
      match Py.Q_of_float (OrderItem.price it), magnitude rest with
      | Some p, Some t =>
          Some (Qred (Qabs (p * inject_Z (OrderItem.quantity it)) + t))%Q
      | _, _ => None
      end
  end.

(** The currency's minor unit: one paisa. *)
Definition minor_unit : Q := 1 # 100.

(** ** Vocabulary of the rounding analysis *)

(** The round and sticky bits [r] and [s] of a shift by [k] bits say where
    the bits shifted out, [rho] out of [P = 2 ^ k], stand with respect to one
    half. *)
Definition loc_ok (P rho : Z) (r s : bool) : Prop :=
  match r, s with
  | false, false => rho = 0
  | false, true => 0 < rho /\ 2 * rho < P
  | true, false => 2 * rho = P
  | true, true => P < 2 * rho /\ rho < P
  end.

(** The value of a finite float in units of [2 ^ (- K)]. *)
Definition SFval (K : Z) (x : spec_float) : option Z :=
  match x with
  | S754_zero _ => Some 0
  | S754_finite s m e => Some (cond_Zopp s (Z.pos m) * 2 ^ (e + K))
  | _ => None
  end.

(** The value of a float in units of [2 ^ (- K)]; [None] for an infinity or
    a NaN. *)
Definition Fval (K : Z) (x : float) : option Z := SFval K (Prim2SF x).

(** The unit price, the exact total and the magnitude of a list of items in
    units of [2 ^ (- K)]. *)
Definition Zprice (K : Z) (it : OrderItem.t) : Z :=
  match Fval K (OrderItem.price it) with Some v => v | None => 0 end.

Definition Zexact (K : Z) (items : list OrderItem.t) : Z :=
  fold_right (fun it t => Zprice K it * OrderItem.quantity it + t) 0 items.

Definition Zmagnitude (K : Z) (items : list OrderItem.t) : Z :=
  fold_right (fun it t => Z.abs (Zprice K it * OrderItem.quantity it) + t) 0 items.

(** An item with a finite price, a quantity that converts to a float without
    rounding, and the subtotal that the checkout loop computes. *)
Definition priced (K : Z) (it : OrderItem.t) : Prop :=
  Fval K (OrderItem.price it) <> None
  /\ Z.abs (OrderItem.quantity it) < 2 ^ 53
  /\ Py.mul_float_int (OrderItem.price it) (OrderItem.quantity it)
     = Some (OrderItem.subtotal it).

(** [v] units of [2 ^ (- K)] as a rational number. *)
Definition units (K : Z) (v : Z) : Q := v # Z.to_pos (2 ^ K).

(** The number of orders of a list in a given status. *)
Fixpoint count_status (s : OrderStatus.t) (os : list Order.t) : Z :=
  match os with
  | [] => 0
  | o :: rest =>
      (if OrderStatus.eqb (Order.order_status o) s then 1 else 0)
      + count_status s rest
  end.

(** ** Sample data *)

Module Sample.

Definition dealer : Dealer.t :=
  Dealer.mk "d1" "Asha" "9000000001" "asha@example.com" "Asha Traders" "Pune"
    None 100000 0 (Some "tok") None None 0.

(** The same dealer close to the credit limit. *)
Definition dealer_99000 : Dealer.t := set_outstanding_balance 99000 dealer.

(** The same dealer with a pending one-time code. *)
Definition dealer_otp : Dealer.t := set_otp (Some "123456") (Some 5000) dealer.

Definition opc43 : Product.t :=
  Product.mk "p-opc43" "OPC 43 Grade Cement" "" "OPC" "43" "50kg bag"
    350 5000 "" [] 0.

Definition opc43_25kg : Product.t :=
  Product.mk "p-opc43-25" "OPC 43 Grade (25kg)" "" "OPC" "43" "25kg bag"
    185 3000 "" [] 0.

Definition world : World :=
  mkWorld "u1" 1000 1001 "20260101120000" "A1B2C3" "tok2" [1; 2; 3; 4; 5; 6].

Definition world2 : World :=
  mkWorld "u2" 2000 2001 "20260101120500" "D4E5F6" "tok3" [6; 5; 4; 3; 2; 1].

Definition by_account : OrderCreate.t :=
  OrderCreate.mk PaymentMethod.ACCOUNT "Pune" None.

Definition by_cod : OrderCreate.t :=
  OrderCreate.mk PaymentMethod.COD "Pune" None.

Definition row_opc43 : CartItem.t := CartItem.mk "c1" "d1" "p-opc43" 10 0.
Definition row_gone : CartItem.t := CartItem.mk "c0" "d1" "p-gone" 5 0.
Definition row_huge : CartItem.t :=
  CartItem.mk "c2" "d1" "p-opc43" 1000000000000000 0.
Definition row_25kg : CartItem.t := CartItem.mk "c3" "d1" "p-opc43-25" 1 0.

(** An empty cart over the two-product catalog. *)
Definition db_empty_cart : DB := mkDB [dealer] [opc43; opc43_25kg] [] [].

(** Cart = [(OPC43 @350, qty 10)], total 3500. *)
Definition db_3500 : DB := mkDB [dealer] [opc43; opc43_25kg] [row_opc43] [].

(** The same cart with 99000 already outstanding. *)
Definition db_99000 : DB :=
  mkDB [dealer_99000] [opc43; opc43_25kg] [row_opc43] [].

(** A cart whose first row names a product that is no longer in the catalog. *)
Definition db_one_gone : DB :=
  mkDB [dealer] [opc43; opc43_25kg] [row_gone; row_opc43] [].

(** A cart all of whose products are gone. *)
Definition db_all_gone : DB := mkDB [dealer] [opc43; opc43_25kg] [row_gone] [].

(** A cart with one very large and one small line. *)
Definition db_huge : DB :=
  mkDB [dealer] [opc43; opc43_25kg] [row_huge; row_25kg] [].

Definition item_opc43 : OrderItem.t :=
  OrderItem.mk "p-opc43" "OPC 43 Grade Cement" 10 350 3500.

Definition order (status : OrderStatus.t) (total_amount : float) : Order.t :=
  Order.mk "o" "ORD-20260101120000-A1B2C3" "d1" [item_opc43] total_amount
    PaymentMethod.COD PaymentStatus.PENDING status "Pune" None 0 0.

(** Three orders, one pending, one delivered, one cancelled, 5000 in all. *)
Definition db_three_orders : DB :=
  mkDB [dealer] [opc43; opc43_25kg] []
    [order OrderStatus.PENDING 3500; order OrderStatus.DELIVERED 1000;
     order OrderStatus.CANCELLED 500].

(** A dealer with 1001 orders. *)
Definition db_1001_orders : DB :=
  mkDB [dealer] [opc43; opc43_25kg] []
    (repeat (order OrderStatus.PENDING 3500) 1001).

(** What checkout makes of [db_3500] on account. *)
Definition order_3500 : Order.t :=
  Order.mk "u1" "ORD-20260101120000-A1B2C3" "d1" [item_opc43] 3500
    PaymentMethod.ACCOUNT PaymentStatus.COMPLETED OrderStatus.PENDING
    "Pune" None 1000 1001.

Definition db_3500_after : DB :=
  mkDB [set_outstanding_balance 3500 dealer] [opc43; opc43_25kg] []
    [order_3500].

(** What checkout makes of [db_3500] cash on delivery. *)
Definition order_3500_cod : Order.t :=
  Order.mk "u1" "ORD-20260101120000-A1B2C3" "d1" [item_opc43] 3500
    PaymentMethod.COD PaymentStatus.PENDING OrderStatus.PENDING
    "Pune" None 1000 1001.

Definition db_3500_after_cod : DB :=
  mkDB [dealer] [opc43; opc43_25kg] [] [order_3500_cod].

(** What checkout makes of [db_one_gone] on account. *)
Definition db_one_gone_after : DB :=
  mkDB [set_outstanding_balance 3500 dealer] [opc43; opc43_25kg] []
    [order_3500].

(** What checkout makes of [db_all_gone] cash on delivery. *)
Definition order_all_gone : Order.t :=
  Order.mk "u1" "ORD-20260101120000-A1B2C3" "d1" [] 0
    PaymentMethod.COD PaymentStatus.PENDING OrderStatus.PENDING
    "Pune" None 1000 1001.

Definition db_all_gone_after : DB :=
  mkDB [dealer] [opc43; opc43_25kg] [] [order_all_gone].

(** What checkout makes of [db_huge] cash on delivery. *)
Definition order_huge : Order.t :=
  Order.mk "u1" "ORD-20260101120000-A1B2C3" "d1"
    [OrderItem.mk "p-opc43" "OPC 43 Grade Cement" 1000000000000000 350
       350000000000000000;
     OrderItem.mk "p-opc43-25" "OPC 43 Grade (25kg)" 1 185 185]
    350000000000000192
    PaymentMethod.COD PaymentStatus.PENDING OrderStatus.PENDING
    "Pune" None 1000 1001.

Definition db_huge_after : DB :=
  mkDB [dealer] [opc43; opc43_25kg] [] [order_huge].

Definition otp_request : VerifyOTPRequest.t :=
  VerifyOTPRequest.mk "9000000001" "123456".

Definition db_otp : DB := mkDB [dealer_otp] [opc43; opc43_25kg] [] [].

(** A dealer who is owed 350000000000000320 (a negative balance), and a cart
    of one line: 350000000000100352 kg of sand at 1.0. *)
Definition dealer_owed : Dealer.t :=
  set_outstanding_balance (-350000000000000320) dealer.

Definition sand : Product.t :=
  Product.mk "p-sand" "River sand" "" "Sand" "" "kg" 1 0 "" [] 0.

Definition row_sand : CartItem.t :=
  CartItem.mk "c4" "d1" "p-sand" 350000000000100352 0.

Definition db_owed : DB := mkDB [dealer_owed] [opc43; sand] [row_sand] [].

(** A product priced at the float nearest to 365.35, and a cart of 10 bags at
    350 and 7 bags at that price: its total is rounded. *)
Definition ppc : Product.t :=
  Product.mk "p-ppc" "PPC Cement" "" "PPC" "" "50kg bag"
    0x1.6d5999999999ap+8 4000 "" [] 0.

Definition row_ppc : CartItem.t := CartItem.mk "c5" "d1" "p-ppc" 7 0.

Definition db_ppc : DB := mkDB [dealer] [opc43; ppc] [row_opc43; row_ppc] [].

(** What checkout makes of [db_ppc] cash on delivery. *)
Definition order_ppc : Order.t :=
  Order.mk "u1" "ORD-20260101120000-A1B2C3" "d1"
    [item_opc43;
     OrderItem.mk "p-ppc" "PPC Cement" 7 0x1.6d5999999999ap+8
       0x1.3fae666666667p+11]
    0x1.7a97333333334p+12
    PaymentMethod.COD PaymentStatus.PENDING OrderStatus.PENDING
    "Pune" None 1000 1001.

Definition db_ppc_after : DB := mkDB [dealer] [opc43; ppc] [] [order_ppc].

End Sample.

(** ** The remaining routes *)

(** Python strings. *)
Module Str.

(** [s.startswith(p)] *)
Definition startswith (s p : string) : bool := String.prefix p s.

(** The scan of [s.replace(old, new)] for a non-empty [old]: matches are
    taken from left to right and do not overlap; [skip] counts the characters
    of the current match that are still to be dropped. *)
Fixpoint replace_from (old new : string) (skip : nat) (s : string) : string :=
  match s with
  | EmptyString => EmptyString
  | String c r =>
      match skip with
      | S k => replace_from old new k r
      | O =>
          if String.prefix old s
          then (new ++ replace_from old new (String.length old - 1) r)%string
          else String c (replace_from old new 0 r)
      end
  end.

(** [s.replace(old, new)], [old] non-empty. *)
Definition replace (s old new : string) : string := replace_from old new 0 s.

(** No character of the string is a space. *)
Fixpoint no_space (s : string) : bool :=
  match s with
  | EmptyString => true
  | String c r => negb (Ascii.eqb c " "%char) && no_space r
  end.

End Str.

Module DealerCreate.
Record t := mk {
  name : string;
  phone : string;
  email : string;
  business_name : string;
  address : string;
  gst_number : option string
}.
End DealerCreate.

(** The dependency every protected route resolves first. *)
Definition get_current_dealer (authorization : option string) : Handler Dealer.t :=
  match authorization with
  | None => raise (HTTPException 401 (Msg "Not authenticated"))
  | Some authorization =>
      if String.eqb authorization ""
         || negb (Str.startswith authorization "Bearer ")
      then raise (HTTPException 401 (Msg "Not authenticated"))
      else
        let token := Str.replace authorization "Bearer " "" in
        dealer_doc <- find_one db_dealers
          (fun d => option_eqb String.eqb (Dealer.auth_token d) (Some token)) ;;
        match dealer_doc with
        | None => raise (HTTPException 401 (Msg "Invalid token"))
        | Some dealer_doc => ret dealer_doc
        end
  end.

Definition register_dealer (dealer_data : DealerCreate.t) (w : World)
    : Handler Dealer.t :=
  existing <- find_one db_dealers
    (fun d => String.eqb (Dealer.phone d) (DealerCreate.phone dealer_data)) ;;
  match existing with
  | Some _ => raise (HTTPException 400 (Msg "Phone number already registered"))
  | None =>
      let dealer :=
        Dealer.mk (uuid4 w) (DealerCreate.name dealer_data)
          (DealerCreate.phone dealer_data) (DealerCreate.email dealer_data)
          (DealerCreate.business_name dealer_data)
          (DealerCreate.address dealer_data)
          (DealerCreate.gst_number dealer_data)
          100000 0 None None None (now w) in
      insert_one db_dealers dealer ;;
      ret dealer
  end.

Definition get_products : Handler (list Product.t) :=
  find_to_list db_products (fun _ => true) 1000.

Definition get_product (product_id : string) : Handler Product.t :=
  product <- find_one db_products
    (fun p => String.eqb (Product.id p) product_id) ;;
  match product with
  | None => raise (HTTPException 404 (Msg "Product not found"))
  | Some product => ret product
  end.

Definition get_order (order_id : string) (dealer : Dealer.t) : Handler Order.t :=
  order <- find_one db_orders
    (fun o => String.eqb (Order.id o) order_id
              && String.eqb (Order.dealer_id o) (Dealer.id dealer)) ;;
  match order with
  | None => raise (HTTPException 404 (Msg "Order not found"))
  | Some order => ret order
  end.

(** [await db.products.insert_many(docs)] *)
Definition insert_many_products (new : list Product.t) : Handler unit :=
  fun db => (Return tt, put db_products (products db ++ new) db).

(** The six sample products of [seed_data]; each draws its own id and
    creation time. *)
Definition seed_products (w1 w2 w3 w4 w5 w6 : World) : list Product.t :=
  [ Product.mk (uuid4 w1) "OPC 43 Grade Cement"
      "Ordinary Portland Cement 43 Grade - Ideal for all types of construction work including RCC work, plastering, and masonry."
      "OPC" "43" "50kg bag" 350 5000
      "https://images.unsplash.com/photo-1590642916589-592bca10dfbf?w=400"
      [("compressive_strength", "43 MPa");
       ("setting_time", "30 min - 10 hours");
       ("fineness", "225 m2/kg")]
      (now w1);
    Product.mk (uuid4 w2) "OPC 53 Grade Cement"
      "Ordinary Portland Cement 53 Grade - High strength cement for high-rise buildings and heavy-duty construction."
      "OPC" "53" "50kg bag" 380 4500
      "https://images.unsplash.com/photo-1590642916589-592bca10dfbf?w=400"
      [("compressive_strength", "53 MPa");
       ("setting_time", "30 min - 10 hours");
       ("fineness", "225 m2/kg")]
      (now w2);
    Product.mk (uuid4 w3) "PPC Cement"
      "Portland Pozzolana Cement - Eco-friendly cement with improved workability and lower heat of hydration."
      "PPC" "PPC" "50kg bag" 340 6000
      "https://images.unsplash.com/photo-1590642916589-592bca10dfbf?w=400"
      [("compressive_strength", "33 MPa (28 days)");
       ("setting_time", "30 min - 10 hours");
       ("fineness", "300 m2/kg")]
      (now w3);
    Product.mk (uuid4 w4) "PSC Cement"
      "Portland Slag Cement - Durable cement with better resistance to chemicals and sulfates."
      "PSC" "PSC" "50kg bag" 345 3500
      "https://images.unsplash.com/photo-1590642916589-592bca10dfbf?w=400"
      [("compressive_strength", "33 MPa (28 days)");
       ("setting_time", "30 min - 10 hours");
       ("fineness", "325 m2/kg")]
      (now w4);
    Product.mk (uuid4 w5) "OPC 43 Grade (25kg)"
      "Ordinary Portland Cement 43 Grade in smaller 25kg packaging for small projects."
      "OPC" "43" "25kg bag" 185 3000
      "https://images.unsplash.com/photo-1590642916589-592bca10dfbf?w=400"
      [("compressive_strength", "43 MPa");
       ("setting_time", "30 min - 10 hours");
       ("fineness", "225 m2/kg")]
      (now w5);
    Product.mk (uuid4 w6) "OPC 53 Grade (25kg)"
      "Ordinary Portland Cement 53 Grade in smaller 25kg packaging."
      "OPC" "53" "25kg bag" 200 2500
      "https://images.unsplash.com/photo-1590642916589-592bca10dfbf?w=400"
      [("compressive_strength", "53 MPa");
       ("setting_time", "30 min - 10 hours");
       ("fineness", "225 m2/kg")]
      (now w6) ].

Definition seed_data (w1 w2 w3 w4 w5 w6 : World) : Handler string :=
  fun db =>
    let existing := Z.of_nat (List.length (products db)) in
    if (existing >? 0)%Z
    then ret "Products already exist" db
    else
      (insert_many_products (seed_products w1 w2 w3 w4 w5 w6) ;;
       ret "6 products added successfully") db.

(** ** Further vocabulary *)

(** The dealer document that holds a session token. *)
Definition dealer_by_token (token : string) (db : DB) : option Dealer.t :=
  List.find (fun d => option_eqb String.eqb (Dealer.auth_token d) (Some token))
    (dealers db).

(** No two dealers share a phone number. *)
Definition phones_unique (db : DB) : Prop :=
  NoDup (map Dealer.phone (dealers db)).

(** Every cart row has a quantity of at least one. *)
Definition quantities_positive (db : DB) : Prop :=
  Forall (fun c => (1 <= CartItem.quantity c)%Z) (cart_items db).

(** The order stored under an id for a dealer. *)
Definition order_of (order_id : string) (dealer : Dealer.t) (db : DB)
    : option Order.t :=
  List.find (fun o => String.eqb (Order.id o) order_id
                      && String.eqb (Order.dealer_id o) (Dealer.id dealer))
    (orders db).

(** The validity window of a one-time code, in microseconds. *)
Definition otp_window : Z := 5 * 60 * 1000000.

(** A line of the cart view and an order item describe the same purchase. *)
Definition same_line (line : CartItemWithProduct.t) (it : OrderItem.t) : Prop :=
  OrderItem.product_id it = Product.id (CartItemWithProduct.product line)
  /\ OrderItem.product_name it = Product.name (CartItemWithProduct.product line)
  /\ OrderItem.quantity it = CartItemWithProduct.quantity line
  /\ OrderItem.price it = Product.price (CartItemWithProduct.product line)
  /\ OrderItem.subtotal it = CartItemWithProduct.subtotal line.

(** The cart row a dealer addresses by its id: the first row with that id
    that belongs to the dealer. *)
Definition own_row (item_id : string) (dealer : Dealer.t) (db : DB)
    : option CartItem.t :=
  List.find (fun c => String.eqb (CartItem.id c) item_id
                      && String.eqb (CartItem.dealer_id c) (Dealer.id dealer))
    (cart_items db).

(** [line] is what the cart view shows for the cart row [row]. *)
Definition line_of (db : DB) (row : CartItem.t) (line : CartItemWithProduct.t)
    : Prop :=
  catalog (CartItem.product_id row) db = Some (CartItemWithProduct.product line)
  /\ CartItemWithProduct.id line = CartItem.id row
  /\ CartItemWithProduct.quantity line = CartItem.quantity row
  /\ Py.mul_float_int (Product.price (CartItemWithProduct.product line))
       (CartItem.quantity row)
     = Some (CartItemWithProduct.subtotal line).

(** ** The API as a whole *)

(** [GET /auth/me] *)
Definition get_current_user (dealer : Dealer.t) : Handler Dealer.t := ret dealer.

(** A protected route: the framework first resolves
    [Depends(get_current_dealer)] from the [Authorization] header, then calls
    the route with the dealer it got. *)
Definition protected {A} (authorization : option string)
    (route : Dealer.t -> Handler A) : Handler A :=
  dealer <- get_current_dealer authorization ;;
  route dealer.

(** The requests of the router, each with what it draws from outside.
    [GET /orders] and [POST /chat], which only read the store, are left out. *)
Inductive Request :=
| POST_auth_register (dealer_data : DealerCreate.t) (w : World)
| POST_auth_send_otp (request : SendOTPRequest.t) (w : World)
| POST_auth_verify_otp (request : VerifyOTPRequest.t) (w : World)
| GET_auth_me (authorization : option string)
| GET_products
| GET_product (product_id : string)
| GET_cart (authorization : option string)
| POST_cart (authorization : option string) (item_data : CartItemCreate.t)
    (w : World)
| PUT_cart (authorization : option string) (item_id : string) (quantity : Z)
| DELETE_cart_item (authorization : option string) (item_id : string)
| DELETE_cart (authorization : option string)
| POST_orders (authorization : option string) (order_data : OrderCreate.t)
    (w : World)
| GET_order (authorization : option string) (order_id : string)
| GET_dashboard_stats (authorization : option string)
| POST_seed_data (w1 w2 w3 w4 w5 w6 : World).

(** The store after a request has been served, under interpreter [v]. *)
Definition serve (v : Py.version) (r : Request) (db : DB) : DB :=
  match r with
  | POST_auth_register dealer_data w => snd (register_dealer dealer_data w db)
  | POST_auth_send_otp request w => snd (send_otp request w db)
  | POST_auth_verify_otp request w => snd (verify_otp request w db)
  | GET_auth_me authorization =>
      snd (protected authorization get_current_user db)
  | GET_products => snd (get_products db)
  | GET_product product_id => snd (get_product product_id db)
  | GET_cart authorization => snd (protected authorization get_cart db)
  | POST_cart authorization item_data w =>
      snd (protected authorization (fun d => add_to_cart item_data d w) db)
  | PUT_cart authorization item_id quantity =>
      snd (protected authorization (update_cart_item item_id quantity) db)
  | DELETE_cart_item authorization item_id =>
      snd (protected authorization (remove_from_cart item_id) db)
  | DELETE_cart authorization => snd (protected authorization clear_cart db)
  | POST_orders authorization order_data w =>
      snd (protected authorization (fun d => create_order order_data d w) db)
  | GET_order authorization order_id =>
      snd (protected authorization (get_order order_id) db)
  | GET_dashboard_stats authorization =>
      snd (protected authorization (get_dashboard_stats v) db)
  | POST_seed_data w1 w2 w3 w4 w5 w6 => snd (seed_data w1 w2 w3 w4 w5 w6 db)
  end.

(** The store after a sequence of requests, served one after the other. *)
Definition run (v : Py.version) (rs : list Request) (db : DB) : DB :=
  fold_left (fun db r => serve v r db) rs db.

(** What is fixed about a dealer at registration. *)
Definition registration (d : Dealer.t) :=
  (Dealer.id d, Dealer.name d, Dealer.phone d, Dealer.email d,
   Dealer.business_name d, Dealer.address d, Dealer.gst_number d,
   Dealer.credit_limit d, Dealer.created_at d).

(** The ids of the registered dealers. *)
Definition dealer_ids (db : DB) : list string := map Dealer.id (dealers db).

(** Every cart row and every order belongs to a registered dealer. *)
Definition owned (db : DB) : Prop :=
  Forall (fun c => In (CartItem.dealer_id c) (dealer_ids db)) (cart_items db)
  /\ Forall (fun o => In (Order.dealer_id o) (dealer_ids db)) (orders db).

(** One write of the driver, as the routes issue them. *)
Inductive write (db : DB) : DB -> Prop :=
| write_new_dealer d :
    dealer_by_phone (Dealer.phone d) db = None ->
    write db (put db_dealers (dealers db ++ [d]) db)
| write_dealer q f :
    (forall x, registration (f x) = registration x) ->
    write db (put db_dealers (update_first q f (dealers db)) db)
| write_new_row c :
    In (CartItem.dealer_id c) (dealer_ids db) ->
    write db (put db_cart_items (cart_items db ++ [c]) db)
| write_quantity q n :
    write db (put db_cart_items (update_first q (set_quantity n) (cart_items db)) db)
| write_delete_row q :
    write db (put db_cart_items (delete_first q (cart_items db)) db)
| write_delete_rows q :
    write db (put db_cart_items (filter q (cart_items db)) db)
| write_new_order o :
    In (Order.dealer_id o) (dealer_ids db) ->
    write db (put db_orders (orders db ++ [o]) db)
| write_catalog new :
    products db = [] ->
    write db (put db_products new db).

(** A sequence of writes. *)
Inductive writes : DB -> DB -> Prop :=
| writes_none db : writes db db
| writes_more db db1 db2 : write db db1 -> writes db1 db2 -> writes db db2.

(** More sample data. *)
Module Fixture.

Definition asha : DealerCreate.t :=
  DealerCreate.mk "Asha" "9000000001" "asha@example.com" "Asha Traders" "Pune"
    None.

(** A second dealer. *)
Definition ravi : Dealer.t :=
  Dealer.mk "d2" "Ravi" "9000000002" "ravi@example.com" "Ravi Cement" "Nashik"
    None 100000 0 (Some "tok-ravi") None None 0.

Definition row_ravi : CartItem.t := CartItem.mk "c9" "d2" "p-opc43" 4 0.

(** Two dealers, each with one cart row. *)
Definition db_two_dealers : DB :=
  mkDB [Sample.dealer; ravi] [Sample.opc43; Sample.opc43_25kg]
    [Sample.row_opc43; row_ravi] [].

(** A store with no dealer and no product. *)
Definition db_blank : DB := mkDB [] [] [] [].

(** A cart row of quantity 2^62 and the store that holds it. *)
Definition row_2p62 : CartItem.t :=
  CartItem.mk "u1" "d1" "p-opc43" (2 ^ 62) 1000.

Definition db_2p62 : DB :=
  mkDB [Sample.dealer] [Sample.opc43; Sample.opc43_25kg] [row_2p62] [].

Definition world3 : World :=
  mkWorld "u3" 3000 3001 "20260101121000" "0A1B2C" "tok4" [9; 8; 7; 6; 5; 4].

End Fixture.

(** ** Facts about the driver's list operations *)

Section ListFacts.
Context {A : Type}.
Implicit Types (q : A -> bool) (f : A -> A) (l : list A).

Lemma find_update_first q f l :
  (forall x, q x = true -> q (f x) = true) ->
  List.find q (update_first q f l) = option_map f (List.find q l).
Proof.
  intros Hq. induction l as [|x r IH]; simpl; [reflexivity|].
  destruct (q x) eqn:E; simpl.
  - rewrite (Hq x E). reflexivity.
  - rewrite E. exact IH.
Qed.

Lemma find_none_filter q l : List.find q l = None -> filter q l = [].
Proof.
  induction l as [|x r IH]; simpl; [reflexivity|].
  destruct (q x); [discriminate | exact IH].
Qed.

Lemma find_none_app q l x :
  List.find q l = None ->
  List.find q (l ++ [x]) = if q x then Some x else None.
Proof.
  induction l as [|y r IH]; simpl; [reflexivity|].
  destruct (q y); [discriminate | exact IH].
Qed.

Lemma update_first_none_app q f l r :
  List.find q l = None ->
  update_first q f (l ++ r) = (l ++ update_first q f r)%list.
Proof.
  induction l as [|y l' IH]; simpl; [reflexivity|].
  destruct (q y); [discriminate|]. intros H. now rewrite IH.
Qed.

Lemma filter_after_delete_many q l :
  filter q (filter (fun x => negb (q x)) l) = [].
Proof.
  induction l as [|x r IH]; simpl; [reflexivity|].
  destruct (q x) eqn:E; simpl; [exact IH|]. now rewrite E.
Qed.

Lemma firstn_all_le (n : nat) l : (List.length l <= n)%nat -> firstn n l = l.
Proof. intros H. now apply firstn_all2. Qed.
End ListFacts.

Lemma count_status_filter s os :
  count_status s os =
  Z.of_nat (List.length
    (filter (fun o => OrderStatus.eqb (Order.order_status o) s) os)).
Proof.
  induction os as [|o r IH]; [reflexivity|].
  cbn [count_status filter]. rewrite IH.
  destruct (OrderStatus.eqb (Order.order_status o) s); cbn [List.length]; lia.
Qed.

(** ** The checkout loop *)

(** The loop only reads the store. *)
Lemma create_order_loop_reads cart :
  forall acc t db r db',
    create_order_loop cart acc t db = (r, db') -> db' = db.
Proof.
  induction cart as [|item rest IH]; intros acc t db r db' H.
  - cbv [create_order_loop ret] in H. now inversion H.
  - cbn [create_order_loop] in H. unfold bind at 1 in H. cbn [find_one] in H.
    destruct (List.find _ (docs db_products db)) as [p|].
    + destruct (Py.mul_float_int _ _).
      * now apply IH in H.
      * cbv [raise] in H. now inversion H.
    + now apply IH in H.
Qed.

(** What the loop returns: the accumulated items followed by one snapshot per
    resolving row, in cart order, and the running total extended by their
    subtotals from left to right. *)
Lemma create_order_loop_returns cart :
  forall acc t db items total db',
    create_order_loop cart acc t db = (Return (items, total), db') ->
    exists new,
      items = (acc ++ new)%list /\
      Forall2 (snapshot_of db) (filter (resolves db) cart) new /\
      total = fold_left add (map OrderItem.subtotal new) t.
Proof.
  induction cart as [|item rest IH]; intros acc t db items total db' H.
  - cbv [create_order_loop ret] in H. inversion H; subst.
    exists []. rewrite app_nil_r. repeat split. constructor.
  - cbn [create_order_loop] in H. unfold bind at 1 in H. cbn [find_one] in H.
    cbn [filter]. unfold resolves at 1, catalog.
    change (docs db_products db) with (products db) in H.
    destruct (List.find _ (products db)) as [p|] eqn:Hp.
    + destruct (Py.mul_float_int _ _) as [sub|] eqn:Hs.
      * apply IH in H. destruct H as (new & Hi & Hf & Ht).
        eexists (_ :: new). rewrite <- app_assoc in Hi. split; [exact Hi|].
        split; [|exact Ht].
        constructor; [|exact Hf].
        exists p. unfold catalog. rewrite Hp. cbn.
        apply find_some in Hp. destruct Hp as [_ Hp].
        apply String.eqb_eq in Hp. repeat split; assumption.
      * cbv [raise] in H. discriminate.
    + apply IH in H. exact H.
Qed.

(** The loop returns unless a quantity is too large for a float. *)
Lemma create_order_loop_total cart :
  forall acc t db,
    Forall (fun row => forall p,
              catalog (CartItem.product_id row) db = Some p ->
              Py.mul_float_int (Product.price p) (CartItem.quantity row) <> None)
      cart ->
    exists items total,
      create_order_loop cart acc t db = (Return (items, total), db).
Proof.
  induction cart as [|item rest IH]; intros acc t db Hall.
  - now exists acc, t.
  - inversion Hall as [|? ? Hitem Hrest]; subst.
    cbn [create_order_loop]. unfold bind at 1. cbn [find_one].
    change (docs db_products db) with (products db).
    change (List.find _ (products db))
      with (catalog (CartItem.product_id item) db).
    destruct (catalog (CartItem.product_id item) db) as [p|] eqn:Hp.
    + specialize (Hitem p eq_refl).
      destruct (Py.mul_float_int _ _); [|congruence].
      apply IH, Hrest.
    + apply IH, Hrest.
Qed.

(** ** Checkout *)

(** Run [create_order] up to the test on the rows read from the cart. *)
Ltac read_cart dealer db :=
  unfold create_order; unfold bind at 1; cbn [find_to_list];
  change (filter _ (docs db_cart_items db)) with (cart_of dealer db).

(** Everything a successful [create_order] did, read off its result. *)
Lemma create_order_Return order_data dealer w db o db' :
  create_order order_data dealer w db = (Return o, db') ->
  exists items total,
    firstn 1000 (cart_of dealer db) <> [] /\
    create_order_loop (firstn 1000 (cart_of dealer db)) [] 0%float db
      = (Return (items, total), db) /\
    (OrderCreate.payment_method order_data = PaymentMethod.ACCOUNT ->
     Py.gt total
       (Dealer.credit_limit dealer - Dealer.outstanding_balance dealer)%float
     = false) /\
    o = Order.mk (uuid4 w) (generate_order_number w) (Dealer.id dealer)
          items total (OrderCreate.payment_method order_data)
          (match OrderCreate.payment_method order_data with
           | PaymentMethod.COD => PaymentStatus.PENDING
           | PaymentMethod.ACCOUNT => PaymentStatus.COMPLETED
           end)
          OrderStatus.PENDING (OrderCreate.delivery_address order_data)
          (OrderCreate.notes order_data) (now w) (now_again w) /\
    dealers db' =
      match OrderCreate.payment_method order_data with
      | PaymentMethod.COD => dealers db
      | PaymentMethod.ACCOUNT =>
          update_first (fun d => String.eqb (Dealer.id d) (Dealer.id dealer))
            (set_outstanding_balance
               (Dealer.outstanding_balance dealer + total)%float)
            (dealers db)
      end /\
    products db' = products db /\
    cart_items db' =
      filter (fun c => negb (String.eqb (CartItem.dealer_id c) (Dealer.id dealer)))
        (cart_items db) /\
    orders db' = (orders db ++ [o])%list.
Proof.
  read_cart dealer db.
  destruct (firstn 1000 (cart_of dealer db)) as [|c rest] eqn:Hcart.
  - cbv [raise]. discriminate.
  - unfold bind at 1.
    destruct (create_order_loop (c :: rest) [] 0%float db) as [[[items total]|e] db1]
      eqn:Hloop; [|discriminate].
    pose proof (create_order_loop_reads _ _ _ _ _ _ Hloop) as ->.
    cbn [fst snd]. intros H. exists items, total.
    split; [discriminate|]. split; [reflexivity|].
    destruct (OrderCreate.payment_method order_data); cbn -[Py.gt] in H.
    + inversion H; subst; clear H. cbn.
      split; [intros E; discriminate E|]. repeat (split; [reflexivity|]). reflexivity.
    + unfold bind in H; cbn -[Py.gt] in H.
      destruct (Py.gt total _) eqn:Hgt; cbn in H; [discriminate|].
      inversion H; subst; clear H. cbn.
      split; [reflexivity|]. repeat (split; [reflexivity|]). reflexivity.
Qed.

(** When [create_order] returns: a non-empty cart whose subtotals can all be
    computed and, on account, a total within the available credit. *)
Lemma create_order_returns order_data dealer w db items total :
  firstn 1000 (cart_of dealer db) <> [] ->
  create_order_loop (firstn 1000 (cart_of dealer db)) [] 0%float db
    = (Return (items, total), db) ->
  (OrderCreate.payment_method order_data = PaymentMethod.ACCOUNT ->
   Py.gt total
     (Dealer.credit_limit dealer - Dealer.outstanding_balance dealer)%float
   = false) ->
  exists o db', create_order order_data dealer w db = (Return o, db').
Proof.
  intros Hne Hloop Hcredit. read_cart dealer db.
  destruct (firstn 1000 (cart_of dealer db)) as [|c rest] eqn:Hcart;
    [congruence|].
  unfold bind at 1. rewrite Hloop. cbn [fst snd].
  destruct (OrderCreate.payment_method order_data); unfold bind; cbn -[Py.gt].
  - do 2 eexists; reflexivity.
  - rewrite (Hcredit eq_refl). cbn. do 2 eexists; reflexivity.
Qed.

(** Checkout goes through for a non-empty cart, cash on delivery, as soon as
    every subtotal can be computed. *)
Lemma create_order_cod_succeeds order_data dealer w db :
  OrderCreate.payment_method order_data = PaymentMethod.COD ->
  cart_of dealer db <> [] ->
  Forall (fun row => forall p,
            catalog (CartItem.product_id row) db = Some p ->
            Py.mul_float_int (Product.price p) (CartItem.quantity row) <> None)
    (firstn 1000 (cart_of dealer db)) ->
  exists o db', create_order order_data dealer w db = (Return o, db').
Proof.
  intros Hcod Hne Hall.
  destruct (create_order_loop_total _ [] 0%float db Hall) as (items & total & H).
  apply (create_order_returns _ _ _ _ items total).
  - destruct (cart_of dealer db); [congruence | discriminate].
  - exact H.
  - rewrite Hcod. discriminate.
Qed.

Lemma firstn_nil_inv {A} (n : nat) (l : list A) :
  firstn (S n) l = [] -> l = [].
Proof. destruct l; [reflexivity | discriminate]. Qed.

Lemma snapshot_matches db cart items :
  Forall2 (snapshot_of db) cart items -> matches_cart cart items.
Proof.
  unfold matches_cart. induction 1 as [|row it cart items Hs _ IH]; constructor.
  - destruct Hs as (p & _ & Hid & _ & Hq & _). now split.
  - exact IH.
Qed.

Lemma filter_resolving db cart :
  forallb (resolves db) cart = true -> filter (resolves db) cart = cart.
Proof.
  induction cart as [|row rest IH]; cbn; [reflexivity|].
  destruct (resolves db row); cbn; [|discriminate].
  intros H. now rewrite IH.
Qed.

(** The spec's scenario: credit limit 100000, nothing outstanding, cart
    [(OPC43 @350, qty 10)]; the order on account goes through, 3500 is
    outstanding afterwards and the cart is empty. *)
Example create_order_scenario_3500 :
  create_order Sample.by_account Sample.dealer Sample.world Sample.db_3500
  = (Return Sample.order_3500, Sample.db_3500_after).
Proof. vm_compute. reflexivity. Qed.

(** C1, as stated, fails: with a cart of two rows whose first product has left
    the catalog, the order on account succeeds with a single item, so the
    items do not match the cart row by row. *)
Lemma create_order_on_account_drops_rows :
  create_order Sample.by_account Sample.dealer Sample.world Sample.db_one_gone
  = (Return Sample.order_3500, Sample.db_one_gone_after)
  /\ cart_of Sample.dealer Sample.db_one_gone
     = [Sample.row_gone; Sample.row_opc43]
  /\ Order.items Sample.order_3500 = [Sample.item_opc43]
  /\ ~ matches_cart (cart_of Sample.dealer Sample.db_one_gone)
         (Order.items Sample.order_3500).
Proof.
  split; [vm_compute; reflexivity|].
  split; [reflexivity|]. split; [reflexivity|].
  intros H. inversion H as [|? ? ? ? [Hid _] _]; subst. discriminate Hid.
Qed.

(** C1, amended: when an order on account succeeds for the stored dealer, the
    stored outstanding balance becomes the old balance plus the order total
    (float addition), the dealer's cart is empty, exactly one order is
    appended, and its items are, in order, the snapshots of those among the
    first 1000 cart rows whose product is still in the catalog; if the cart
    has at most 1000 rows and every product exists, the items match the cart
    row by row. *)
Theorem create_order_on_account order_data dealer w db o db' :
  OrderCreate.payment_method order_data = PaymentMethod.ACCOUNT ->
  stored_dealer (Dealer.id dealer) db = Some dealer ->
  create_order order_data dealer w db = (Return o, db') ->
  stored_dealer (Dealer.id dealer) db'
    = Some (set_outstanding_balance
              (Dealer.outstanding_balance dealer + Order.total_amount o)%float
              dealer)
  /\ cart_of dealer db' = []
  /\ orders db' = (orders db ++ [o])%list
  /\ Forall2 (snapshot_of db)
       (filter (resolves db) (firstn 1000 (cart_of dealer db))) (Order.items o)
  /\ ((List.length (cart_of dealer db) <= 1000)%nat ->
      forallb (resolves db) (cart_of dealer db) = true ->
      matches_cart (cart_of dealer db) (Order.items o)).
Proof.
  intros Hacc Hstored H.
  apply create_order_Return in H.
  destruct H as (items & total & _ & Hloop & _ & Ho & Hd & _ & Hc & Hos).
  rewrite Hacc in Hd.
  apply create_order_loop_returns in Hloop.
  destruct Hloop as (new & Hi & Hsnap & _). cbn [app] in Hi. subst new.
  assert (Hitems : Order.items o = items) by now rewrite Ho.
  assert (Htotal : Order.total_amount o = total) by now rewrite Ho.
  rewrite Hitems, Htotal.
  split.
  { unfold stored_dealer in *. rewrite Hd, find_update_first.
    - now rewrite Hstored.
    - intros x Hx. exact Hx. }
  split.
  { unfold cart_of. rewrite Hc. apply filter_after_delete_many. }
  split; [exact Hos|].
  split; [exact Hsnap|].
  intros Hlen Hall. apply (snapshot_matches db).
  rewrite (firstn_all_le _ _ Hlen), (filter_resolving _ _ Hall) in Hsnap.
  exact Hsnap.
Qed.

Lemma create_order_on_account_witness :
  OrderCreate.payment_method Sample.by_account = PaymentMethod.ACCOUNT
  /\ stored_dealer (Dealer.id Sample.dealer) Sample.db_3500 = Some Sample.dealer
  /\ create_order Sample.by_account Sample.dealer Sample.world Sample.db_3500
     = (Return Sample.order_3500, Sample.db_3500_after)
  /\ stored_dealer (Dealer.id Sample.dealer) Sample.db_3500_after
     = Some (set_outstanding_balance
               (Dealer.outstanding_balance Sample.dealer
                + Order.total_amount Sample.order_3500)%float Sample.dealer)
  /\ cart_of Sample.dealer Sample.db_3500_after = []
  /\ orders Sample.db_3500_after
     = (orders Sample.db_3500 ++ [Sample.order_3500])%list
  /\ Forall2 (snapshot_of Sample.db_3500)
       (filter (resolves Sample.db_3500)
          (firstn 1000 (cart_of Sample.dealer Sample.db_3500)))
       (Order.items Sample.order_3500)
  /\ ((List.length (cart_of Sample.dealer Sample.db_3500) <= 1000)%nat ->
      forallb (resolves Sample.db_3500) (cart_of Sample.dealer Sample.db_3500)
      = true ->
      matches_cart (cart_of Sample.dealer Sample.db_3500)
        (Order.items Sample.order_3500)).
Proof.
  assert (H1 : OrderCreate.payment_method Sample.by_account
               = PaymentMethod.ACCOUNT) by reflexivity.
  assert (H2 : stored_dealer (Dealer.id Sample.dealer) Sample.db_3500
               = Some Sample.dealer) by reflexivity.
  assert (H3 : create_order Sample.by_account Sample.dealer Sample.world
                 Sample.db_3500
               = (Return Sample.order_3500, Sample.db_3500_after))
    by (vm_compute; reflexivity).
  split; [exact H1|]. split; [exact H2|]. split; [exact H3|].
  exact (create_order_on_account _ _ _ _ _ _ H1 H2 H3).
Defined.

(** C2, as stated, fails: the dealer has a credit limit of 100000 and a
    balance of -350000000000000320, so the credit limit minus the balance is
    350000000000100320, and the cart's total, 350000000000100352, exceeds it.
    The code compares the total with the float difference, which rounds to
    350000000000100352 as well: the order on account is accepted, and the
    balance becomes 100032, above the credit limit. *)
Lemma create_order_over_credit_accepted :
  OrderCreate.payment_method Sample.by_account = PaymentMethod.ACCOUNT
  /\ Py.Q_of_float (Dealer.credit_limit Sample.dealer_owed)
     = Some (100000 # 1)
  /\ Py.Q_of_float (Dealer.outstanding_balance Sample.dealer_owed)
     = Some (-350000000000000320 # 1)
  /\ exists o db',
       create_order Sample.by_account Sample.dealer_owed Sample.world
         Sample.db_owed = (Return o, db')
       /\ Py.Q_of_float (Order.total_amount o)
          = Some (350000000000100352 # 1)
       /\ exact_total (Order.items o) = Some (350000000000100352 # 1)
       /\ ((100000 # 1) - (-350000000000000320 # 1)
           < 350000000000100352 # 1)%Q
       /\ Py.Q_of_float (Dealer.credit_limit Sample.dealer_owed
                         - Dealer.outstanding_balance Sample.dealer_owed)%float
          = Some (350000000000100352 # 1)
       /\ orders db' = [o]
       /\ cart_of Sample.dealer_owed db' = []
       /\ exists d,
            stored_dealer (Dealer.id Sample.dealer_owed) db' = Some d
            /\ Py.Q_of_float (Dealer.outstanding_balance d)
               = Some (100032 # 1).
Proof.
  split; [reflexivity|].
  split; [vm_compute; reflexivity|]. split; [vm_compute; reflexivity|].
  do 2 eexists. split; [vm_compute; reflexivity|].
  split; [vm_compute; reflexivity|]. split; [vm_compute; reflexivity|].
  split; [vm_compute; reflexivity|]. split; [vm_compute; reflexivity|].
  split; [reflexivity|]. split; [reflexivity|].
  eexists. split; [vm_compute; reflexivity|]. vm_compute. reflexivity.
Qed.

(** C2, amended: on account, with a non-empty cart whose total exceeds the
    float difference of the credit limit and the outstanding balance, as the
    code computes it, [create_order] raises the 400 that carries the available
    credit and the required total, and the store is left as it was: no order,
    no balance change, the cart untouched. *)
Theorem create_order_insufficient_credit order_data dealer w db items total :
  OrderCreate.payment_method order_data = PaymentMethod.ACCOUNT ->
  cart_of dealer db <> [] ->
  create_order_loop (firstn 1000 (cart_of dealer db)) [] 0%float db
    = (Return (items, total), db) ->
  Py.gt total
    (Dealer.credit_limit dealer - Dealer.outstanding_balance dealer)%float
  = true ->
  create_order order_data dealer w db
  = (Raise (HTTPException 400
              (InsufficientCredit
                 (Dealer.credit_limit dealer
                  - Dealer.outstanding_balance dealer)%float
                 total)),
     db).
Proof.
  intros Hacc Hne Hloop Hgt. read_cart dealer db.
  destruct (firstn 1000 (cart_of dealer db)) as [|c rest] eqn:Hcart.
  { apply firstn_nil_inv in Hcart. contradiction. }
  unfold bind at 1. rewrite Hloop. cbn [fst snd].
  rewrite Hacc. unfold bind; cbn -[Py.gt]. rewrite Hgt. reflexivity.
Qed.

(** The spec's scenario: 99000 outstanding of 100000, cart total 3500. *)
Lemma create_order_insufficient_credit_witness :
  OrderCreate.payment_method Sample.by_account = PaymentMethod.ACCOUNT
  /\ cart_of Sample.dealer_99000 Sample.db_99000 <> []
  /\ create_order_loop (firstn 1000 (cart_of Sample.dealer_99000 Sample.db_99000))
       [] 0%float Sample.db_99000
     = (Return ([Sample.item_opc43], 3500%float), Sample.db_99000)
  /\ Py.gt 3500 (Dealer.credit_limit Sample.dealer_99000
                 - Dealer.outstanding_balance Sample.dealer_99000)%float = true
  /\ create_order Sample.by_account Sample.dealer_99000 Sample.world
       Sample.db_99000
     = (Raise (HTTPException 400
                 (InsufficientCredit
                    (Dealer.credit_limit Sample.dealer_99000
                     - Dealer.outstanding_balance Sample.dealer_99000)%float
                    3500)),
        Sample.db_99000).
Proof.
  assert (H1 : OrderCreate.payment_method Sample.by_account
               = PaymentMethod.ACCOUNT) by reflexivity.
  assert (H2 : cart_of Sample.dealer_99000 Sample.db_99000 <> [])
    by (vm_compute; discriminate).
  assert (H3 : create_order_loop
                 (firstn 1000 (cart_of Sample.dealer_99000 Sample.db_99000))
                 [] 0%float Sample.db_99000
               = (Return ([Sample.item_opc43], 3500%float), Sample.db_99000))
    by (vm_compute; reflexivity).
  assert (H4 : Py.gt 3500 (Dealer.credit_limit Sample.dealer_99000
                 - Dealer.outstanding_balance Sample.dealer_99000)%float = true)
    by (vm_compute; reflexivity).
  split; [exact H1|]. split; [exact H2|]. split; [exact H3|].
  split; [exact H4|].
  exact (create_order_insufficient_credit _ _ Sample.world _ _ _ H1 H2 H3 H4).
Defined.

(** The available credit reported in that scenario is 1000. *)
Example create_order_scenario_99000 :
  create_order Sample.by_account Sample.dealer_99000 Sample.world Sample.db_99000
  = (Raise (HTTPException 400 (InsufficientCredit 1000 3500)), Sample.db_99000).
Proof. vm_compute. reflexivity. Qed.

(** C3: for a dealer whose cart has no rows, [create_order] raises the 400
    [Cart is empty] and leaves the store as it was. *)
Theorem create_order_empty_cart order_data dealer w db :
  cart_of dealer db = [] ->
  create_order order_data dealer w db
  = (Raise (HTTPException 400 (Msg "Cart is empty")), db).
Proof.
  intros Hempty. read_cart dealer db.
  rewrite Hempty. reflexivity.
Qed.

Lemma create_order_empty_cart_witness :
  cart_of Sample.dealer Sample.db_empty_cart = []
  /\ create_order Sample.by_cod Sample.dealer Sample.world Sample.db_empty_cart
     = (Raise (HTTPException 400 (Msg "Cart is empty")), Sample.db_empty_cart).
Proof.
  assert (H1 : cart_of Sample.dealer Sample.db_empty_cart = []) by reflexivity.
  split; [exact H1|].
  exact (create_order_empty_cart Sample.by_cod _ Sample.world _ H1).
Defined.

(** An order has no items exactly when none of the rows read from the cart
    resolves. *)
Lemma create_order_items_empty order_data dealer w db o db' :
  create_order order_data dealer w db = (Return o, db') ->
  Order.items o = [] <->
  filter (resolves db) (firstn 1000 (cart_of dealer db)) = [].
Proof.
  intros H. apply create_order_Return in H.
  destruct H as (items & total & _ & Hloop & _ & Ho & _).
  apply create_order_loop_returns in Hloop.
  destruct Hloop as (new & Hi & Hsnap & _). cbn [app] in Hi. subst new.
  replace (Order.items o) with items by now rewrite Ho.
  apply Forall2_length in Hsnap.
  split; intros E; rewrite E in Hsnap; apply length_zero_iff_nil;
    cbn [List.length] in Hsnap; congruence.
Qed.

(** With a cart whose only product has left the catalog, the cart route shows
    the dealer an empty cart. *)
Example get_cart_all_products_gone :
  get_cart Sample.dealer Sample.db_all_gone = (Return [], Sample.db_all_gone).
Proof. reflexivity. Qed.

(** C4, at the failing input: the cart holds one row whose product has left
    the catalog; the order, cash on delivery, is accepted and persisted with
    no items and a total of 0.0, and the cart is cleared. *)
Theorem create_order_all_products_gone :
  cart_of Sample.dealer Sample.db_all_gone = [Sample.row_gone]
  /\ catalog (CartItem.product_id Sample.row_gone) Sample.db_all_gone = None
  /\ create_order Sample.by_cod Sample.dealer Sample.world Sample.db_all_gone
     = (Return Sample.order_all_gone, Sample.db_all_gone_after)
  /\ Order.items Sample.order_all_gone = []
  /\ Order.total_amount Sample.order_all_gone = 0%float
  /\ orders Sample.db_all_gone_after = [Sample.order_all_gone]
  /\ cart_items Sample.db_all_gone_after = [].
Proof.
  split; [reflexivity|]. split; [reflexivity|].
  split; [vm_compute; reflexivity|].
  repeat split; reflexivity.
Qed.

(** C6, as stated, fails: for the cart [(OPC43 @350, qty 10^15);
    (OPC43 25kg @185, qty 1)] the exact total is 350000000000000185 while the
    order's total is 350000000000000192, seven rupees away. *)
Lemma create_order_total_rounds :
  create_order Sample.by_cod Sample.dealer Sample.world Sample.db_huge
  = (Return Sample.order_huge, Sample.db_huge_after)
  /\ exact_total (Order.items Sample.order_huge)
     = Some (350000000000000185 # 1)
  /\ Py.Q_of_float (Order.total_amount Sample.order_huge)
     = Some (350000000000000192 # 1)
  /\ ~ (Qabs ((350000000000000192 # 1) - (350000000000000185 # 1))
        <= minor_unit)%Q.
Proof.
  split; [vm_compute; reflexivity|].
  split; [vm_compute; reflexivity|].
  split; [vm_compute; reflexivity|].
  intros H. vm_compute in H. apply H. reflexivity.
Qed.

(** In the spec's scenario nothing is rounded: the total 3500 is exact. *)
Example create_order_total_exact_3500 :
  exact_total (Order.items Sample.order_3500) = Some (3500 # 1)
  /\ Py.Q_of_float (Order.total_amount Sample.order_3500) = Some (3500 # 1).
Proof. split; vm_compute; reflexivity. Qed.

(** ** Rounding of the float operations

    From the IEEE-754 specification of the primitive floats: a product or a
    sum is the exact result moved by at most half a unit in the last place,
    and so is the total of an order. *)

Lemma digits2_pos_size p : digits2_pos p = Pos.size p.
Proof. induction p; cbn; congruence. Qed.

Lemma Zdigits2_log2 m : 0 < m -> Zdigits2 m = Z.log2 m + 1.
Proof.
  destruct m as [|p|p]; try lia. intros _. cbn [Zdigits2].
  rewrite digits2_pos_size. destruct p; cbn; lia.
Qed.

Lemma Zdigits2_bounds m :
  0 < m -> 2 ^ (Zdigits2 m - 1) <= m < 2 ^ Zdigits2 m.
Proof.
  intros H. rewrite (Zdigits2_log2 m H).
  replace (Z.log2 m + 1 - 1) with (Z.log2 m) by lia.
  replace (Z.log2 m + 1) with (Z.succ (Z.log2 m)) by lia.
  now apply Z.log2_spec.
Qed.

Lemma Zdigits2_pos m : 0 < m -> 0 < Zdigits2 m.
Proof.
  intros H. rewrite (Zdigits2_log2 m H). pose proof (Z.log2_nonneg m). lia.
Qed.

(** [m < 2 ^ d] bounds the number of digits by [d]. *)
Lemma Zdigits2_le m d : 0 < m -> 0 <= d -> m < 2 ^ d -> Zdigits2 m <= d.
Proof.
  intros Hm Hd H. rewrite (Zdigits2_log2 m Hm).
  assert (Z.log2 m < d); [|lia].
  apply Z.log2_lt_pow2; assumption.
Qed.

Lemma shr_1_nonneg m r s :
  0 <= m ->
  shr_1 (Build_shr_record m r s) = Build_shr_record (m / 2) (Z.odd m) (r || s).
Proof.
  intros H. rewrite <- Z.div2_div.
  destruct m as [|[p|p|]|]; try reflexivity. lia.
Qed.

Lemma iter_pos_nat {A} (f : A -> A) p x :
  iter_pos f p x = Nat.iter (Pos.to_nat p) f x.
Proof.
  revert x. induction p as [p IH|p IH|]; intros x; cbn [iter_pos].
  - rewrite !IH, Pos2Nat.inj_xI.
    replace (S (2 * Pos.to_nat p))%nat with (Pos.to_nat p + S (Pos.to_nat p))%nat by lia.
    rewrite Nat.iter_add, Nat.iter_succ_r. reflexivity.
  - rewrite !IH, Pos2Nat.inj_xO.
    replace (2 * Pos.to_nat p)%nat with (Pos.to_nat p + Pos.to_nat p)%nat by lia.
    rewrite Nat.iter_add. reflexivity.
  - reflexivity.
Qed.


Lemma shr_iter M (k : nat) :
  0 <= M ->
  0 <= shr_m (Nat.iter k shr_1 (Build_shr_record M false false))
  /\ loc_ok (2 ^ Z.of_nat k)
       (M - shr_m (Nat.iter k shr_1 (Build_shr_record M false false))
            * 2 ^ Z.of_nat k)
       (shr_r (Nat.iter k shr_1 (Build_shr_record M false false)))
       (shr_s (Nat.iter k shr_1 (Build_shr_record M false false))).
Proof.
  intros HM. induction k as [|k IH].
  - cbn. split; [exact HM|]. lia.
  - change (Nat.iter (S k) shr_1 (Build_shr_record M false false))
      with (shr_1 (Nat.iter k shr_1 (Build_shr_record M false false))).
    destruct (Nat.iter k shr_1 _) as [m r s]. cbn [shr_m shr_r shr_s] in IH.
    destruct IH as [Hm Hloc].
    rewrite (shr_1_nonneg _ _ _ Hm). cbn [shr_m shr_r shr_s].
    rewrite Nat2Z.inj_succ, Z.pow_succ_r by lia.
    set (P := 2 ^ Z.of_nat k) in *.
    assert (HP : 0 < P) by (apply Z.pow_pos_nonneg; lia).
    pose proof (Z.div_mod m 2 ltac:(lia)) as Hdm.
    pose proof (Z.mod_pos_bound m 2 ltac:(lia)) as Hb.
    rewrite Zodd_mod.
    split; [apply Z.div_pos; lia|].
    set (h := m / 2) in *. set (b := m mod 2) in *.
    assert (Hor : r || s = negb (M - m * P =? 0)%Z).
    { destruct (Z.eqb_spec (M - m * P) 0); destruct r, s;
        unfold loc_ok in Hloc; cbn [orb negb]; try reflexivity; exfalso; lia. }
    rewrite Hor.
    assert (Hrho : 0 <= M - m * P < P).
    { destruct r, s; unfold loc_ok in Hloc; lia. }
    assert (E : M - h * (2 * P) = (M - m * P) + b * P) by (rewrite Hdm; ring).
    rewrite E. set (rho := M - m * P) in *.
    destruct (Z.eqb_spec b 1) as [Hb1|Hb1];
      destruct (Z.eqb_spec rho 0) as [Hr0|Hr0]; unfold loc_ok; cbn [negb];
      nia.
Qed.
Lemma rne_spec P M m r s :
  0 < P -> 0 <= m -> loc_ok P (M - m * P) r s ->
  (round_nearest_even m (loc_of_shr_record (Build_shr_record m r s)) = m
   \/ round_nearest_even m (loc_of_shr_record (Build_shr_record m r s)) = m + 1)
  /\ 2 * Z.abs (round_nearest_even m
                  (loc_of_shr_record (Build_shr_record m r s)) * P - M) <= P.
Proof.
  intros HP Hm Hloc.
  destruct r, s; unfold loc_ok in Hloc;
    cbn [loc_of_shr_record round_nearest_even];
    try destruct (Z.even m); split; try (now left); try (now right); nia.
Qed.

Lemma fexp_eq x : fexp prec emax x = Z.max (x - 53) (-1074).
Proof. reflexivity. Qed.

Lemma fexp_mono x y : x <= y -> fexp prec emax x <= fexp prec emax y.
Proof. rewrite !fexp_eq. lia. Qed.

Lemma cond_Zopp_mul s a b : cond_Zopp s a * b = cond_Zopp s (a * b).
Proof. destruct s; cbn [cond_Zopp]; ring. Qed.


Lemma pow2_pos n : 0 <= n -> 0 < 2 ^ n.
Proof. intros. apply Z.pow_pos_nonneg; lia. Qed.

Lemma pow2_le a b : 0 <= a <= b -> 2 ^ a <= 2 ^ b.
Proof. intros. apply Z.pow_le_mono_r; lia. Qed.

Lemma pow2_split a b : 0 <= a -> 0 <= b -> 2 ^ (a + b) = 2 ^ a * 2 ^ b.
Proof. intros. apply Z.pow_add_r; assumption. Qed.

Lemma bra_spec K B s M E :
  0 < M -> 0 <= E + K -> 1074 <= K -> B <= 971 ->
  M * 2 ^ (E + K) < 2 ^ (B + K) ->
  exists V',
    SFval K (binary_round_aux prec emax s M E loc_Exact)
    = Some (cond_Zopp s V')
    /\ 0 <= V'
    /\ 2 * Z.abs (V' - M * 2 ^ (E + K)) <= 2 ^ (Z.max (B - 53) (-1074) + K)
    /\ (fexp prec emax (Zdigits2 M + E) <= E -> V' = M * 2 ^ (E + K)).
Proof.
  intros HM HEK HK HB Hlt.
  pose proof (Zdigits2_bounds M HM) as [HDlo HDhi].
  pose proof (Zdigits2_pos M HM) as HD.
  set (D := Zdigits2 M) in *.
  assert (HDE : D + E <= B).
  { assert (H : 2 ^ (D - 1 + (E + K)) < 2 ^ (B + K)).
    { rewrite pow2_split by lia.
      pose proof (pow2_pos (E + K) HEK). nia. }
    apply Z.pow_lt_mono_r_iff in H; try lia.
    destruct (Z.le_gt_cases 0 (B + K)) as [|Hneg]; [assumption|].
    rewrite (Z.pow_neg_r 2 (B + K)) in Hlt by lia.
    pose proof (pow2_pos (E + K) HEK). nia. }
  assert (HEB : E < B) by lia.
  pose proof (pow2_pos (E + K) HEK) as HPE.
  unfold binary_round_aux, shr_fexp. fold D.
  cbn [shr_record_of_loc].
  set (e := fexp prec emax (D + E)).
  assert (He : e = Z.max (D + E - 53) (-1074)) by apply fexp_eq.
  assert (HeB : e <= Z.max (B - 53) (-1074)) by lia.
  destruct (e - E) as [|p|p] eqn:Hsh; unfold shr at 1.
  1, 3:
    cbn [shr_m loc_of_shr_record round_nearest_even]; fold D; fold e;
    rewrite Hsh; unfold shr; cbn [shr_m];
    destruct M as [|m|m]; try lia;
    replace (E <=? emax - prec)%Z with true
      by (symmetry; apply Z.leb_le; change (emax - prec) with 971; lia);
    exists (Z.pos m * 2 ^ (E + K)); cbn [SFval];
    rewrite cond_Zopp_mul;
    (split; [reflexivity|]); (split; [lia|]);
    (split; [|reflexivity]);
    replace (Z.pos m * 2 ^ (E + K) - Z.pos m * 2 ^ (E + K)) with 0 by ring;
    pose proof (pow2_pos (Z.max (B - 53) (-1074) + K) ltac:(lia)); cbn; lia.
  (* a shift by [p] bits *)
  rewrite iter_pos_nat.
  pose proof (shr_iter M (Pos.to_nat p) ltac:(lia)) as Hit.
  rewrite positive_nat_Z in Hit.
  destruct (Nat.iter (Pos.to_nat p) shr_1 _) as [m r s0].
  cbn [shr_m shr_r shr_s] in Hit |- *. destruct Hit as [Hm Hloc].
  set (P := 2 ^ Z.pos p) in *.
  assert (HP : 0 < P) by (apply pow2_pos; lia).
  destruct (rne_spec P M m r s0 HP Hm Hloc) as [Hm1 Herr].
  set (m1 := round_nearest_even m _) in *.
  assert (HeE : e + K = Z.pos p + (E + K)) by lia.
  assert (Hval : 2 * Z.abs (m1 * 2 ^ (e + K) - M * 2 ^ (E + K))
                 <= 2 ^ (Z.max (B - 53) (-1074) + K)).
  { rewrite HeE, pow2_split by lia. fold P.
    replace (m1 * (P * 2 ^ (E + K)) - M * 2 ^ (E + K))
      with ((m1 * P - M) * 2 ^ (E + K)) by ring.
    rewrite Z.abs_mul, (Z.abs_eq (2 ^ (E + K))) by lia.
    apply Z.le_trans with (P * 2 ^ (E + K)); [nia|].
    unfold P. rewrite <- pow2_split by lia. apply pow2_le. lia. }
  assert (Hrho : 0 <= M - m * P < P).
  { destruct r, s0; unfold loc_ok in Hloc; lia. }
  exists (m1 * 2 ^ (e + K)).
  assert (Hm1' : 0 <= m1) by lia.
  split; [|split; [pose proof (pow2_pos (e + K) ltac:(lia)); nia|
                   split; [exact Hval|lia]]].
  (* the second normalisation *)
  destruct (Z.eq_dec m1 0) as [Hz|Hnz].
  { rewrite Hz. cbn [Zdigits2]. rewrite Z.add_0_l.
    assert (Hs2 : fexp prec emax (E + Z.pos p) - (E + Z.pos p) <= 0)
      by (rewrite fexp_eq; lia).
    destruct (fexp prec emax (E + Z.pos p) - (E + Z.pos p)) as [|q|q];
      try lia; unfold shr; cbn [shr_m SFval]; destruct s; reflexivity. }
  assert (Hpos1 : 0 < m1) by lia.
  pose proof (Zdigits2_bounds m1 Hpos1) as [Hd1lo Hd1hi].
  pose proof (Zdigits2_pos m1 Hpos1) as Hd1.
  set (d1 := Zdigits2 m1) in *.
  replace (E + Z.pos p) with e by lia.
  assert (Hs2 : fexp prec emax (d1 + e) - e <= 0
                \/ (fexp prec emax (d1 + e) - e = 1 /\ m1 = 2 * (m1 / 2)
                    /\ 0 < m1 / 2)).
  { destruct (Z.le_gt_cases (D - Z.pos p) 0) as [HL|HL].
    - (* everything was shifted out *)
      assert (HMP : M < P).
      { apply Z.lt_le_trans with (2 ^ D); [exact HDhi|].
        unfold P. apply pow2_le. lia. }
      assert (m = 0) by nia.
      assert (m1 = 1) by lia.
      left. assert (d1 = 1).
      { unfold d1. replace m1 with 1 by lia. reflexivity. }
      rewrite fexp_eq. lia.
    - set (L := D - Z.pos p) in *.
      assert (HDL : 2 ^ D = 2 ^ L * P).
      { unfold P. rewrite <- pow2_split by lia. f_equal. lia. }
      assert (HmL : m < 2 ^ L) by nia.
      destruct (Z.eq_dec m1 (2 ^ L)) as [Heq|Hne].
      + assert (Hd1L : d1 <= L + 1).
        { apply Zdigits2_le; try lia.
          rewrite Heq. apply Z.pow_lt_mono_r; lia. }
        assert (Hf : fexp prec emax (d1 + e) <= e + 1).
        { rewrite fexp_eq. lia. }
        destruct (Z.le_gt_cases (fexp prec emax (d1 + e) - e) 0);
          [now left|right].
        split; [lia|].
        assert (HL2 : 2 ^ L = 2 * 2 ^ (L - 1)).
        { rewrite <- Z.pow_succ_r by lia. f_equal. lia. }
        pose proof (pow2_pos (L - 1) ltac:(lia)).
        rewrite Heq, HL2.
        rewrite (Z.mul_comm 2), Z.div_mul by lia. lia.
      + left. assert (Hd1L : d1 <= L).
        { apply Zdigits2_le; lia. }
        assert (fexp prec emax (d1 + e) <= fexp prec emax (D + E))
          by (apply fexp_mono; lia).
        fold e in H. lia. }
  assert (Hle : (e <=? emax - prec)%Z = true)
    by (apply Z.leb_le; change (emax - prec) with 971; lia).
  assert (Hle' : (e + 1 <=? emax - prec)%Z = true)
    by (apply Z.leb_le; change (emax - prec) with 971; lia).
  destruct Hs2 as [Hs2|(Hs2 & Heven & Hhalf)].
  - destruct (fexp prec emax (d1 + e) - e) as [|q|q]; try lia;
      unfold shr; cbn [shr_m]; destruct m1 as [|q1|q1]; try lia;
      rewrite Hle; cbn [SFval]; now rewrite cond_Zopp_mul.
  - rewrite Hs2. unfold shr. cbn [iter_pos].
    rewrite (shr_1_nonneg m1 false false Hm1'). cbn [shr_m].
    destruct (m1 / 2) as [|q1|q1] eqn:Hq; try lia.
    replace (e + 1 <=? emax - prec)%Z with true. cbn [SFval].
    rewrite cond_Zopp_mul. do 2 f_equal.
    rewrite Heven.
    replace (e + 1 + K) with (Z.succ (e + K)) by lia.
    rewrite Z.pow_succ_r by lia. ring.
Qed.
Lemma Zdigits2_mul_pow2 m j :
  0 < m -> 0 <= j -> Zdigits2 (m * 2 ^ j) = Zdigits2 m + j.
Proof.
  intros Hm Hj. pose proof (pow2_pos j Hj).
  rewrite !Zdigits2_log2 by nia.
  rewrite Z.log2_mul_pow2 by lia. lia.
Qed.

Lemma iter_xO m d : Z.pos (Pos.iter xO m d) = Z.pos m * 2 ^ Z.pos d.
Proof.
  induction d as [|d IH] using Pos.peano_ind.
  - cbn [Pos.iter]. rewrite Pos2Z.inj_xO. change (2 ^ 1) with 2. ring.
  - rewrite Pos.iter_succ, Pos2Z.inj_xO, IH, Pos2Z.inj_succ, Z.pow_succ_r by lia.
    ring.
Qed.

(** [shl_align] keeps the value and never raises the exponent. *)
Lemma shl_align_spec m e e' :
  exists j, 0 <= j
    /\ Z.pos (fst (shl_align m e e')) = Z.pos m * 2 ^ j
    /\ snd (shl_align m e e') = e - j
    /\ (e' <= e -> snd (shl_align m e e') = e')
    /\ (e <= e' -> j = 0).
Proof.
  unfold shl_align. destruct (e' - e) as [|d|d] eqn:Hd; cbn [fst snd].
  - exists 0. rewrite Z.mul_1_r. repeat split; lia.
  - exists 0. rewrite Z.mul_1_r. repeat split; lia.
  - exists (Z.pos d). rewrite iter_xO. repeat split; lia.
Qed.

(** A mantissa that is already where it belongs is left alone. *)
Lemma bra_canonical s m e :
  fexp prec emax (Z.pos (digits2_pos m) + e) <= e -> e <= 971 ->
  binary_round_aux prec emax s (Z.pos m) e loc_Exact = S754_finite s m e.
Proof.
  intros Hc He. unfold binary_round_aux, shr_fexp. cbn [Zdigits2 shr_record_of_loc].
  destruct (fexp prec emax (Z.pos (digits2_pos m) + e) - e) as [|p|p] eqn:Hsh;
    try lia; unfold shr; cbn [shr_m loc_of_shr_record round_nearest_even Zdigits2];
    rewrite Hsh; cbn [shr_m];
    replace (e <=? emax - prec)%Z with true
      by (symmetry; apply Z.leb_le; change (emax - prec) with 971; lia);
    reflexivity.
Qed.

(** The float of an integer below [2 ^ 53]: its 53-bit form. *)
Lemma binary_normalize_int (q : Z) :
  Z.abs q < 2 ^ 53 ->
  SpecFloat.valid_binary prec emax (binary_normalize prec emax q 0 false) = true
  /\ forall K, 1074 <= K ->
       SFval K (binary_normalize prec emax q 0 false) = Some (q * 2 ^ K).
Proof.
  intros Hq.
  assert (Hpos : forall s m, Z.pos m < 2 ^ 53 ->
            SpecFloat.valid_binary prec emax (binary_round prec emax s m 0) = true
            /\ forall K, 1074 <= K ->
                 SFval K (binary_round prec emax s m 0)
                 = Some (cond_Zopp s (Z.pos m) * 2 ^ K)).
  { intros s m Hm. unfold binary_round. rewrite Z.add_0_r.
    change (Z.pos (digits2_pos m)) with (Zdigits2 (Z.pos m)).
    pose proof (Zdigits2_pos (Z.pos m) ltac:(lia)) as Hd.
    pose proof (Zdigits2_le (Z.pos m) 53 ltac:(lia) ltac:(lia) Hm) as Hd53.
    set (d := Zdigits2 (Z.pos m)) in *.
    assert (Hf : fexp prec emax d = d - 53) by (rewrite fexp_eq; lia).
    rewrite Hf.
    destruct (shl_align_spec m 0 (d - 53)) as (j & Hj & Hv & He & He' & _).
    destruct (shl_align m 0 (d - 53)) as [mz ez]. cbn [fst snd] in *.
    specialize (He' ltac:(lia)).
    assert (Hdz : Zdigits2 (Z.pos mz) = d + j).
    { rewrite Hv. apply Zdigits2_mul_pow2; lia. }
    cbn [Zdigits2] in Hdz.
    rewrite bra_canonical; [|rewrite Hdz, fexp_eq; lia|lia].
    split.
    - cbn [SpecFloat.valid_binary]. unfold bounded, canonical_mantissa.
      rewrite Hdz. apply andb_true_intro. split.
      + apply Z.eqb_eq. rewrite fexp_eq. lia.
      + apply Z.leb_le. change (emax - prec) with 971. lia.
    - intros K HK. cbn [SFval]. f_equal.
      destruct s; cbn [cond_Zopp]; rewrite Hv;
        replace K with (j + (ez + K)) at 2 by lia;
        rewrite (pow2_split j (ez + K)) by lia; ring. }
  destruct q as [|m|m]; cbn [binary_normalize].
  - split; [reflexivity|]. intros K _. reflexivity.
  - destruct (Hpos false m ltac:(lia)) as [Hv Hs]. split; [exact Hv|exact Hs].
  - destruct (Hpos true m ltac:(lia)) as [Hv Hs]. split; [exact Hv|exact Hs].
Qed.

Lemma cond_Zopp_abs_sub s a b :
  Z.abs (cond_Zopp s a - cond_Zopp s b) = Z.abs (a - b).
Proof. destruct s; cbn [cond_Zopp]; lia. Qed.

(** Normalising [n * 2 ^ E] moves it by at most half a unit in the last
    place. *)
Lemma binary_normalize_spec K B n E szero :
  0 <= E + K -> 1074 <= K -> B <= 971 ->
  Z.abs n * 2 ^ (E + K) < 2 ^ (B + K) ->
  exists V',
    SFval K (binary_normalize prec emax n E szero) = Some V'
    /\ 2 * Z.abs (V' - n * 2 ^ (E + K)) <= 2 ^ (Z.max (B - 53) (-1074) + K).
Proof.
  intros HEK HK HB Hlt.
  assert (Hpos : forall s m, Z.pos m * 2 ^ (E + K) < 2 ^ (B + K) ->
            exists V',
              SFval K (binary_round prec emax s m E) = Some (cond_Zopp s V')
              /\ 2 * Z.abs (V' - Z.pos m * 2 ^ (E + K))
                 <= 2 ^ (Z.max (B - 53) (-1074) + K)).
  { intros s m Hm. unfold binary_round.
    set (e' := fexp prec emax (Z.pos (digits2_pos m) + E)).
    assert (He'lo : -1074 <= e') by (unfold e'; rewrite fexp_eq; lia).
    destruct (shl_align_spec m E e') as (j & Hj & Hv & He & He1 & He2).
    destruct (shl_align m E e') as [mz ez]. cbn [fst snd] in *.
    assert (Hez : 0 <= ez + K).
    { destruct (Z.le_gt_cases e' E); [rewrite He1 by lia; lia|].
      rewrite He2 in He by lia. lia. }
    assert (Hsame : Z.pos mz * 2 ^ (ez + K) = Z.pos m * 2 ^ (E + K)).
    { rewrite Hv. replace (E + K) with (j + (ez + K)) by lia.
      rewrite (pow2_split j (ez + K)) by lia. ring. }
    destruct (bra_spec K B s (Z.pos mz) ez ltac:(lia) Hez HK HB
                ltac:(rewrite Hsame; exact Hm))
      as (V' & HV & _ & Herr & _).
    exists V'. split; [exact HV|]. rewrite <- Hsame. exact Herr. }
  destruct n as [|m|m]; cbn [binary_normalize].
  - exists 0. split; [reflexivity|].
    rewrite Z.mul_0_l. change (2 * Z.abs (0 - 0)) with 0.
    pose proof (pow2_pos (Z.max (B - 53) (-1074) + K) ltac:(lia)). lia.
  - destruct (Hpos false m Hlt) as (V' & HV & Herr).
    exists V'. split; [exact HV|exact Herr].
  - destruct (Hpos true m Hlt) as (V' & HV & Herr).
    exists (- V'). split; [exact HV|].
    replace (- V' - Z.neg m * 2 ^ (E + K))
      with (- (V' - Z.pos m * 2 ^ (E + K))) by (rewrite <- Pos2Z.opp_pos; ring).
    rewrite Z.abs_opp. exact Herr.
Qed.
(** ** Primitive floats *)


Lemma valid_exponent s m e :
  SpecFloat.valid_binary prec emax (S754_finite s m e) = true ->
  -1074 <= e <= 971.
Proof.
  cbn [SpecFloat.valid_binary]. unfold bounded, canonical_mantissa.
  intros H. apply andb_prop in H. destruct H as [Hc Hb].
  apply Z.eqb_eq in Hc. apply Z.leb_le in Hb.
  rewrite fexp_eq in Hc. change (emax - prec) with 971 in Hb. lia.
Qed.

Lemma SFval_scale K sf W :
  SpecFloat.valid_binary prec emax sf = true -> 1074 <= K ->
  SFval (K + K) sf = Some W ->
  exists v, SFval K sf = Some v /\ W = v * 2 ^ K.
Proof.
  intros Hv HK H. destruct sf as [s|s| |s m e]; cbn [SFval] in *;
    try discriminate.
  - exists 0. split; [reflexivity|]. now inversion H.
  - apply valid_exponent in Hv. eexists. split; [reflexivity|].
    inversion H. replace (e + (K + K)) with ((e + K) + K) by lia.
    rewrite (pow2_split (e + K) K) by lia. ring.
Qed.

Lemma cond_Zopp_xorb sx sy a b :
  cond_Zopp sx a * cond_Zopp sy b = cond_Zopp (xorb sx sy) (a * b).
Proof. destruct sx, sy; cbn [cond_Zopp xorb]; ring. Qed.

Lemma abs_cond_Zopp s a : Z.abs (cond_Zopp s a) = Z.abs a.
Proof. destruct s; cbn [cond_Zopp]; lia. Qed.

(** A product is the exact product, moved by at most half a unit in the last
    place. *)
Lemma mul_val K B x y vx vy :
  1074 <= K -> B <= 971 ->
  Fval K x = Some vx -> Fval K y = Some vy ->
  Z.abs (vx * vy) < 2 ^ (B + (K + K)) ->
  exists v,
    Fval K (x * y) = Some v
    /\ 2 * Z.abs (v * 2 ^ K - vx * vy)
       <= 2 ^ (Z.max (B - 53) (-1074) + (K + K)).
Proof.
  unfold Fval. intros HK HB Hx Hy Hlt.
  pose proof (Prim2SF_valid (x * y)) as Hvalid.
  pose proof (Prim2SF_valid x) as Hvx. pose proof (Prim2SF_valid y) as Hvy.
  rewrite mul_spec in Hvalid |- *. unfold SF64mul in *.
  pose proof (pow2_pos (Z.max (B - 53) (-1074) + (K + K)) ltac:(lia)) as Hp.
  destruct (Prim2SF x) as [sx|sx| |sx mx ex], (Prim2SF y) as [sy|sy| |sy my ey];
    cbn [SFval] in Hx, Hy; try discriminate;
    inversion Hx; inversion Hy; subst; clear Hx Hy;
    try (exists 0; split; [reflexivity|]; rewrite ?Z.mul_0_l, ?Z.mul_0_r;
         change (2 * Z.abs (0 - 0)) with 0; lia).
  apply valid_exponent in Hvx, Hvy.
  cbn [SFmul] in Hvalid |- *.
  rewrite Pos2Z.inj_mul in Hvalid |- *.
  assert (Hprod : cond_Zopp sx (Z.pos mx) * 2 ^ (ex + K)
                  * (cond_Zopp sy (Z.pos my) * 2 ^ (ey + K))
                  = cond_Zopp (xorb sx sy)
                      (Z.pos mx * Z.pos my * 2 ^ (ex + ey + (K + K)))).
  { rewrite <- cond_Zopp_mul, <- cond_Zopp_xorb.
    replace (ex + ey + (K + K)) with ((ex + K) + (ey + K)) by lia.
    rewrite (pow2_split (ex + K) (ey + K)) by lia. ring. }
  rewrite Hprod in Hlt |- *. rewrite abs_cond_Zopp in Hlt.
  pose proof (pow2_pos (ex + ey + (K + K)) ltac:(lia)).
  rewrite Z.abs_eq in Hlt by nia.
  destruct (bra_spec (K + K) B (xorb sx sy) (Z.pos mx * Z.pos my) (ex + ey)
              ltac:(lia) ltac:(lia) ltac:(lia) HB Hlt)
    as (V' & HV & _ & Herr & _).
  destruct (SFval_scale K _ _ Hvalid HK HV) as (v & Hv & HW).
  exists v. split; [exact Hv|].
  rewrite <- HW, cond_Zopp_abs_sub. exact Herr.
Qed.

(** A sum is the exact sum, moved by at most half a unit in the last place. *)
Lemma add_val K B x y vx vy :
  1074 <= K -> B <= 971 ->
  Fval K x = Some vx -> Fval K y = Some vy ->
  Z.abs (vx + vy) < 2 ^ (B + K) ->
  exists v,
    Fval K (x + y) = Some v
    /\ 2 * Z.abs (v - (vx + vy)) <= 2 ^ (Z.max (B - 53) (-1074) + K).
Proof.
  unfold Fval. intros HK HB Hx Hy Hlt.
  pose proof (Prim2SF_valid x) as Hvx. pose proof (Prim2SF_valid y) as Hvy.
  rewrite add_spec. unfold SF64add.
  pose proof (pow2_pos (Z.max (B - 53) (-1074) + K) ltac:(lia)) as Hp.
  destruct (Prim2SF x) as [sx|sx| |sx mx ex], (Prim2SF y) as [sy|sy| |sy my ey];
    cbn [SFval] in Hx, Hy; try discriminate;
    inversion Hx; inversion Hy; subst; clear Hx Hy.
  - exists 0. split; [destruct sx, sy; reflexivity|].
    change (2 * Z.abs (0 - (0 + 0))) with 0. lia.
  - eexists. split; [reflexivity|]. rewrite Z.add_0_l, Z.sub_diag.
    change (2 * Z.abs 0) with 0. lia.
  - eexists. split; [reflexivity|]. rewrite Z.add_0_r, Z.sub_diag.
    change (2 * Z.abs 0) with 0. lia.
  - apply valid_exponent in Hvx, Hvy. cbn [SFadd].
    set (ez := Z.min ex ey).
    destruct (shl_align_spec mx ex ez) as (jx & Hjx & Hmx & Hsx & Hex & _).
    destruct (shl_align_spec my ey ez) as (jy & Hjy & Hmy & Hsy & Hey & _).
    specialize (Hex ltac:(lia)). specialize (Hey ltac:(lia)).
    rewrite Hmx, Hmy.
    set (n := cond_Zopp sx (Z.pos mx * 2 ^ jx)
              + cond_Zopp sy (Z.pos my * 2 ^ jy)).
    assert (Hn : n * 2 ^ (ez + K)
                 = cond_Zopp sx (Z.pos mx) * 2 ^ (ex + K)
                   + cond_Zopp sy (Z.pos my) * 2 ^ (ey + K)).
    { unfold n. rewrite <- !cond_Zopp_mul.
      replace (ex + K) with (jx + (ez + K)) by lia.
      replace (ey + K) with (jy + (ez + K)) by lia.
      rewrite (pow2_split jx (ez + K)), (pow2_split jy (ez + K)) by lia.
      ring. }
    rewrite <- Hn in Hlt |- *.
    pose proof (pow2_pos (ez + K) ltac:(lia)).
    rewrite Z.abs_mul, (Z.abs_eq (2 ^ (ez + K))) in Hlt by lia.
    exact (binary_normalize_spec K B n ez false ltac:(lia) HK HB Hlt).
Qed.

(** The float of a Python int below [2 ^ 53] is that int. *)
Lemma float_of_int_val K q :
  1074 <= K -> Z.abs q < 2 ^ 53 ->
  exists y, Py.float_of_int q = Some y /\ Fval K y = Some (q * 2 ^ K).
Proof.
  intros HK Hq. destruct (binary_normalize_int q Hq) as [Hvalid Hval].
  specialize (Hval K HK). unfold Py.float_of_int, Fval.
  destruct (binary_normalize prec emax q 0 false) as [s|s| |s m e] eqn:Hn;
    cbn [SFval] in Hval; try discriminate;
    eexists; (split; [reflexivity|]);
    rewrite (Prim2SF_SF2Prim _ Hvalid); exact Hval.
Qed.
(** ** The total of a list of items *)

Section Accuracy.
Variable K : Z.
Hypothesis HK : 1074 <= K.


Lemma Zmagnitude_nonneg items : 0 <= Zmagnitude K items.
Proof. induction items as [|it rest IH]; cbn [Zmagnitude fold_right]; [lia|].
  fold (Zmagnitude K rest). lia.
Qed.

Lemma fold_accurate items :
  Forall (priced K) items ->
  forall acc va A n,
    Fval K acc = Some va -> 0 <= n ->
    Z.abs (va - A) <= n * 2 ^ (K - 17) ->
    Z.abs A + Zmagnitude K items <= 2 ^ (35 + K) ->
    n + Z.of_nat (List.length items) <= 1000 ->
    exists v,
      Fval K (fold_left add (map OrderItem.subtotal items) acc) = Some v
      /\ Z.abs (v - (A + Zexact K items))
         <= (n + Z.of_nat (List.length items)) * 2 ^ (K - 17).
Proof.
  set (U := 2 ^ (K - 17)).
  assert (HU : 0 < U) by (apply pow2_pos; lia).
  assert (H35 : 2 ^ (35 + K) = 4503599627370496 * U).
  { unfold U. replace (35 + K) with (52 + (K - 17)) by lia.
    rewrite (pow2_split 52 (K - 17)) by lia. reflexivity. }
  assert (H36 : 2 ^ (36 + K) = 9007199254740992 * U).
  { unfold U. replace (36 + K) with (53 + (K - 17)) by lia.
    rewrite (pow2_split 53 (K - 17)) by lia. reflexivity. }
  assert (HKp : 0 < 2 ^ K) by (apply pow2_pos; lia).
  induction 1 as [|it rest (Hfin & Hq & Hsub) _ IH];
    intros acc va A n Hacc Hn Herr Hmag Hlen.
  - cbn [map fold_left List.length Zexact fold_right] in *.
    exists va. split; [exact Hacc|].
    replace (A + 0) with A by lia. lia.
  - cbn [map fold_left]. cbn [Zmagnitude Zexact fold_right] in Hmag |- *.
    fold (Zmagnitude K rest) in Hmag. fold (Zexact K rest).
    cbn [List.length] in Hlen |- *. rewrite Nat2Z.inj_succ in Hlen |- *.
    pose proof (Zmagnitude_nonneg rest) as Hrest.
    unfold Zprice in *.
    destruct (Fval K (OrderItem.price it)) as [vp|] eqn:Hp; [|congruence].
    set (q := OrderItem.quantity it) in *.
    destruct (float_of_int_val K q HK Hq) as (y & Hy & Hyv).
    unfold Py.mul_float_int in Hsub. rewrite Hy in Hsub.
    assert (Hs : OrderItem.subtotal it = (OrderItem.price it * y)%float)
      by congruence.
    clear Hsub. rewrite Hs.
    (* the subtotal *)
    assert (Hlt : Z.abs (vp * (q * 2 ^ K)) < 2 ^ (36 + (K + K))).
    { replace (36 + (K + K)) with ((36 + K) + K) by lia.
      rewrite (pow2_split (36 + K) K), H36 by lia.
      replace (vp * (q * 2 ^ K)) with (vp * q * 2 ^ K) by ring.
      rewrite Z.abs_mul, (Z.abs_eq (2 ^ K)) by lia.
      apply Z.mul_lt_mono_pos_r; lia. }
    destruct (mul_val K 36 _ _ _ _ HK ltac:(lia) Hp Hyv Hlt)
      as (vs & Hvs & Hes).
    change (Z.max (36 - 53) (-1074)) with (-17) in Hes.
    assert (Hes' : 2 * Z.abs (vs - vp * q) <= U).
    { replace (-17 + (K + K)) with ((K - 17) + K) in Hes by lia.
      rewrite (pow2_split (K - 17) K) in Hes by lia. fold U in Hes.
      replace (vs * 2 ^ K - vp * (q * 2 ^ K))
        with ((vs - vp * q) * 2 ^ K) in Hes by ring.
      rewrite Z.abs_mul, (Z.abs_eq (2 ^ K)) in Hes by lia.
      nia. }
    (* the running total *)
    rewrite H35 in Hmag. fold U in Herr.
    assert (HnU : n * U <= 1000 * U) by nia.
    assert (Hlt2 : Z.abs (va + vs) < 2 ^ (36 + K)) by (rewrite H36; lia).
    destruct (add_val K 36 _ _ _ _ HK ltac:(lia) Hacc Hvs Hlt2)
      as (v1 & Hv1 & He1).
    change (Z.max (36 - 53) (-1074) + K) with (-17 + K) in He1.
    replace (-17 + K) with (K - 17) in He1 by lia. fold U in He1.
    destruct (IH (acc + OrderItem.price it * y)%float v1 (A + vp * q) (n + 1)
                Hv1 ltac:(lia) ltac:(fold U; lia) ltac:(rewrite H35; lia)
                ltac:(lia))
      as (v & Hv & He).
    exists v. split; [exact Hv|].
    replace (A + (vp * q + Zexact K rest)) with (A + vp * q + Zexact K rest) by ring.
    replace (n + Z.succ (Z.of_nat (List.length rest)))
      with (n + 1 + Z.of_nat (List.length rest)) by lia.
    exact He.
Qed.

End Accuracy.
(** ** Back to rational numbers *)

Section Rationals.
Variable K : Z.
Hypothesis HK : 1074 <= K.


Lemma units_den : Z.pos (Z.to_pos (2 ^ K)) = 2 ^ K.
Proof. apply Z2Pos.id, pow2_pos. lia. Qed.

Lemma Q_of_float_units x :
  match Py.Q_of_float x, Fval K x with
  | Some q, Some v => (q == units K v)%Q
  | None, None => True
  | _, _ => False
  end.
Proof.
  unfold Py.Q_of_float, Fval. pose proof (Prim2SF_valid x) as Hvalid.
  destruct (Prim2SF x) as [s|s| |s m e]; cbn [SFval]; try exact I.
  - reflexivity.
  - apply valid_exponent in Hvalid.
    replace (if s then Z.neg m else Z.pos m) with (cond_Zopp s (Z.pos m))
      by (destruct s; reflexivity).
    set (z := cond_Zopp s (Z.pos m)).
    destruct (Z.leb_spec 0 e) as [He|He].
    + unfold Qeq, units, inject_Z. cbn [Qnum Qden]. rewrite units_den.
      rewrite (pow2_split e K) by lia. ring.
    + rewrite Qred_correct. unfold Qeq, units. cbn [Qnum Qden].
      rewrite units_den, Z2Pos.id by (apply pow2_pos; lia).
      replace K with ((e + K) + - e) at 1 by lia.
      rewrite (pow2_split (e + K) (- e)) by lia. ring.
Qed.

Lemma units_plus a b : (units K a + units K b == units K (a + b))%Q.
Proof.
  unfold Qeq, units, Qplus. cbn [Qnum Qden]. rewrite Pos2Z.inj_mul. ring.
Qed.

Lemma units_mul_int a q : (units K a * inject_Z q == units K (a * q))%Q.
Proof.
  unfold Qeq, units, Qmult, inject_Z. cbn [Qnum Qden].
  rewrite Pos2Z.inj_mul. ring.
Qed.

Lemma units_abs a : Qabs (units K a) = units K (Z.abs a).
Proof. reflexivity. Qed.

Lemma Some_eq {A} (a b : A) : Some a = Some b -> a = b.
Proof. congruence. Qed.

Lemma exact_total_cons it rest :
  exact_total (it :: rest)
  = match Py.Q_of_float (OrderItem.price it), exact_total rest with
    | Some p, Some t =>
        Some (Qred (p * inject_Z (OrderItem.quantity it) + t))%Q
    | _, _ => None
    end.
Proof. reflexivity. Qed.

Lemma magnitude_cons it rest :
  magnitude (it :: rest)
  = match Py.Q_of_float (OrderItem.price it), magnitude rest with
    | Some p, Some t =>
        Some (Qred (Qabs (p * inject_Z (OrderItem.quantity it)) + t))%Q
    | _, _ => None
    end.
Proof. reflexivity. Qed.

Lemma exact_total_units items t :
  exact_total items = Some t ->
  Forall (fun it => Fval K (OrderItem.price it) <> None) items
  /\ (t == units K (Zexact K items))%Q.
Proof.
  revert t. induction items as [|it rest IH]; intros t H.
  - injection H as <-. split; [constructor|]. reflexivity.
  - rewrite exact_total_cons in H. pose proof (Q_of_float_units (OrderItem.price it)) as Hp.
    destruct (Py.Q_of_float (OrderItem.price it)) as [p|]; [|discriminate].
    destruct (exact_total rest) as [t0|]; [|discriminate].
    destruct (IH t0 eq_refl) as [Hall Ht0].
    apply Some_eq in H. subst t.
    cbn [Zexact fold_right]. fold (Zexact K rest). unfold Zprice.
    destruct (Fval K (OrderItem.price it)) as [vp|] eqn:Hv; [|contradiction].
    split; [constructor; [rewrite Hv; discriminate|exact Hall]|].
    rewrite Qred_correct, Hp, Ht0, units_mul_int, units_plus. reflexivity.
Qed.

Lemma magnitude_units items g :
  magnitude items = Some g ->
  (g == units K (Zmagnitude K items))%Q
  /\ exists t, exact_total items = Some t.
Proof.
  revert g. induction items as [|it rest IH]; intros g H.
  - injection H as <-. split; [reflexivity|]. now exists 0%Q.
  - rewrite magnitude_cons in H.
    pose proof (Q_of_float_units (OrderItem.price it)) as Hp.
    rewrite exact_total_cons.
    destruct (Py.Q_of_float (OrderItem.price it)) as [p|]; [|discriminate].
    destruct (magnitude rest) as [g0|]; [|discriminate].
    destruct (IH g0 eq_refl) as [Hg0 [t0 Ht0]]. rewrite Ht0.
    apply Some_eq in H. subst g.
    split; [|eexists; reflexivity].
    cbn [Zmagnitude fold_right]. fold (Zmagnitude K rest). unfold Zprice.
    destruct (Fval K (OrderItem.price it)) as [vp|] eqn:Hv; [|contradiction].
    rewrite Qred_correct, Hp, Hg0, units_mul_int, units_abs, units_plus.
    reflexivity.
Qed.

Lemma units_le a b : (units K a <= units K b)%Q <-> a <= b.
Proof.
  unfold Qle, units. cbn [Qnum Qden]. rewrite units_den.
  pose proof (pow2_pos K ltac:(lia)). split; intros H'; nia.
Qed.

Lemma units_int n : (inject_Z n == units K (n * 2 ^ K))%Q.
Proof.
  unfold Qeq, units, inject_Z. cbn [Qnum Qden]. rewrite units_den. ring.
Qed.

End Rationals.

(** For items whose quantities are below [2 ^ 53] and whose exact subtotals
    add up, in absolute value, to at most [2 ^ 35], the floating-point total
    is within one paisa of the exact total. *)
Lemma float_total_accurate items g :
  Forall (fun it =>
            Py.mul_float_int (OrderItem.price it) (OrderItem.quantity it)
            = Some (OrderItem.subtotal it)) items ->
  Forall (fun it => Z.abs (OrderItem.quantity it) < 2 ^ 53) items ->
  (List.length items <= 1000)%nat ->
  magnitude items = Some g -> (g <= inject_Z (2 ^ 35))%Q ->
  exists t t',
    exact_total items = Some t
    /\ Py.Q_of_float (float_total items) = Some t'
    /\ (Qabs (t' - t) <= minor_unit)%Q.
Proof.
  intros Hsub Hq Hlen Hg Hle.
  set (K := 1074). assert (HK : 1074 <= K) by (unfold K; lia).
  clearbody K.
  destruct (magnitude_units K HK items g Hg) as [Hgu [t Ht]].
  destruct (exact_total_units K HK items t Ht) as [Hfin Htu].
  assert (Hmag : Zmagnitude K items <= 2 ^ (35 + K)).
  { rewrite (pow2_split 35 K) by lia. apply (units_le K HK).
    rewrite <- Hgu, <- (units_int K HK). exact Hle. }
  assert (Hpriced : Forall (priced K) items).
  { rewrite Forall_forall in *. intros it Hin. unfold priced.
    split; [apply Hfin, Hin|]. split; [apply Hq, Hin|apply Hsub, Hin]. }
  assert (Hzero : Fval K 0%float = Some 0) by reflexivity.
  destruct (fold_accurate K HK items Hpriced 0%float 0 0 0 Hzero
              ltac:(lia) ltac:(rewrite Z.mul_0_l; reflexivity)
              ltac:(change (Z.abs 0) with 0; lia) ltac:(lia))
    as (v & Hv & Herr).
  fold (float_total items) in Hv.
  pose proof (Q_of_float_units K HK (float_total items)) as Ht'.
  rewrite Hv in Ht'.
  destruct (Py.Q_of_float (float_total items)) as [t'|]; [|contradiction].
  exists t, t'. split; [exact Ht|]. split; [reflexivity|].
  rewrite Ht', Htu.
  assert (E : (units K v - units K (Zexact K items)
               == units K (v - Zexact K items))%Q).
  { unfold Qeq, units, Qminus, Qplus, Qopp. cbn [Qnum Qden].
    rewrite Pos2Z.inj_mul. ring. }
  rewrite E, units_abs.
  unfold Qle, units, minor_unit. cbn [Qnum Qden]. rewrite (units_den K HK).
  replace (0 + Zexact K items) with (Zexact K items) in Herr by lia.
  assert (HKU : 2 ^ K = 131072 * 2 ^ (K - 17)).
  { replace K with (17 + (K - 17)) at 1 by lia.
    rewrite (pow2_split 17 (K - 17)) by lia. reflexivity. }
  pose proof (pow2_pos (K - 17) ltac:(lia)).
  assert (Hn : Z.of_nat (List.length items) <= 1000) by lia.
  rewrite HKU. nia.
Qed.

(** How the total is computed: it is the binary64 sum of the items'
    subtotals, accumulated from 0.0 in item order, and each subtotal is the
    binary64 product of the unit price and the quantity converted to a float;
    every one of these operations rounds to the nearest float. *)
Lemma create_order_total_is_float_sum order_data dealer w db o db' :
  create_order order_data dealer w db = (Return o, db') ->
  Order.total_amount o = float_total (Order.items o)
  /\ Forall (fun it =>
               Py.mul_float_int (OrderItem.price it) (OrderItem.quantity it)
               = Some (OrderItem.subtotal it))
       (Order.items o).
Proof.
  intros H. apply create_order_Return in H.
  destruct H as (items & total & _ & Hloop & _ & Ho & _).
  apply create_order_loop_returns in Hloop.
  destruct Hloop as (new & Hi & Hsnap & Ht). cbn [app] in Hi. subst new.
  replace (Order.items o) with items by now rewrite Ho.
  replace (Order.total_amount o) with total by now rewrite Ho.
  split; [exact Ht|].
  clear Ht Ho. induction Hsnap as [|row it rows its Hs _ IH]; constructor.
  - destruct Hs as (p & _ & _ & _ & Hq & Hp & Hsub). now rewrite Hq, Hp.
  - exact IH.
Qed.

(** An order has at most 1000 items. *)
Lemma create_order_items_length order_data dealer w db o db' :
  create_order order_data dealer w db = (Return o, db') ->
  (List.length (Order.items o) <= 1000)%nat.
Proof.
  intros H. apply create_order_Return in H.
  destruct H as (items & total & _ & Hloop & _ & Ho & _).
  apply create_order_loop_returns in Hloop.
  destruct Hloop as (new & Hi & Hsnap & _). cbn [app] in Hi. subst new.
  replace (Order.items o) with items by now rewrite Ho.
  apply Forall2_length in Hsnap. rewrite <- Hsnap.
  apply Nat.le_trans with (List.length (firstn 1000 (cart_of dealer db))).
  - apply filter_length_le.
  - apply firstn_le_length.
Qed.

(** C6, amended: the total of an order is the binary64 sum of its items'
    subtotals, accumulated from 0.0 in item order, each subtotal being the
    binary64 product of the unit price and the quantity converted to a float.
    When every quantity is below 2^53 in absolute value and the exact
    subtotals (unit price times quantity) add up, in absolute value, to at
    most 2^35 = 34359738368, the total differs from the exact sum of the
    subtotals by at most the minor unit, 0.01, whatever the number of items
    and whatever the prices. *)
Theorem create_order_total_accurate order_data dealer w db o db' g :
  create_order order_data dealer w db = (Return o, db') ->
  Forall (fun it => Z.abs (OrderItem.quantity it) < 2 ^ 53) (Order.items o) ->
  magnitude (Order.items o) = Some g ->
  (g <= inject_Z (2 ^ 35))%Q ->
  Order.total_amount o = float_total (Order.items o)
  /\ Forall (fun it =>
               Py.mul_float_int (OrderItem.price it) (OrderItem.quantity it)
               = Some (OrderItem.subtotal it))
       (Order.items o)
  /\ exists t t',
       exact_total (Order.items o) = Some t
       /\ Py.Q_of_float (Order.total_amount o) = Some t'
       /\ (Qabs (t' - t) <= minor_unit)%Q.
Proof.
  intros H Hq Hg Hle.
  destruct (create_order_total_is_float_sum _ _ _ _ _ _ H) as [Ht Hsub].
  pose proof (create_order_items_length _ _ _ _ _ _ H) as Hlen.
  split; [exact Ht|]. split; [exact Hsub|].
  rewrite Ht. exact (float_total_accurate _ g Hsub Hq Hlen Hg Hle).
Qed.

(** A cart of 10 bags at 350 and 7 bags at 365.35: the total, 6057.45 as a
    float, is not the exact sum, and is within 0.01 of it. *)
Lemma create_order_total_accurate_witness :
  create_order Sample.by_cod Sample.dealer Sample.world Sample.db_ppc
  = (Return Sample.order_ppc, Sample.db_ppc_after)
  /\ Forall (fun it => Z.abs (OrderItem.quantity it) < 2 ^ 53)
       (Order.items Sample.order_ppc)
  /\ magnitude (Order.items Sample.order_ppc)
     = Some (53281893677373851 # 8796093022208)
  /\ (53281893677373851 # 8796093022208 <= inject_Z (2 ^ 35))%Q
  /\ Order.total_amount Sample.order_ppc
     = float_total (Order.items Sample.order_ppc)
  /\ Forall (fun it =>
               Py.mul_float_int (OrderItem.price it) (OrderItem.quantity it)
               = Some (OrderItem.subtotal it))
       (Order.items Sample.order_ppc)
  /\ exists t t',
       exact_total (Order.items Sample.order_ppc) = Some t
       /\ Py.Q_of_float (Order.total_amount Sample.order_ppc) = Some t'
       /\ (Qabs (t' - t) <= minor_unit)%Q.
Proof.
  assert (H1 : create_order Sample.by_cod Sample.dealer Sample.world
                 Sample.db_ppc
               = (Return Sample.order_ppc, Sample.db_ppc_after))
    by (vm_compute; reflexivity).
  assert (H2 : Forall (fun it => Z.abs (OrderItem.quantity it) < 2 ^ 53)
                 (Order.items Sample.order_ppc))
    by (repeat constructor).
  assert (H3 : magnitude (Order.items Sample.order_ppc)
               = Some (53281893677373851 # 8796093022208))
    by (vm_compute; reflexivity).
  assert (H4 : (53281893677373851 # 8796093022208 <= inject_Z (2 ^ 35))%Q)
    by (vm_compute; discriminate).
  split; [exact H1|]. split; [exact H2|]. split; [exact H3|].
  split; [exact H4|].
  exact (create_order_total_accurate _ _ _ _ _ _ _ H1 H2 H3 H4).
Defined.

(** In that cart the total is rounded: the exact sum and the total differ. *)
Example create_order_total_rounded_ppc :
  exact_total (Order.items Sample.order_ppc)
  = Some (53281893677373851 # 8796093022208)
  /\ Py.Q_of_float (Order.total_amount Sample.order_ppc)
     = Some (1665059177417933 # 274877906944).
Proof. split; vm_compute; reflexivity. Qed.

(** C8: every order that [create_order] places is stored with the requested
    payment method, and its payment status is pending when that method is
    cash on delivery and completed when it is account credit; and orders of
    both kinds are placed: with a non-empty cart whose subtotals can be
    computed, an order is placed whenever the method is cash on delivery, and
    on account whenever the total does not exceed the available credit as the
    code computes it. *)
Theorem create_order_payment_status order_data dealer w db :
  (forall o db',
     create_order order_data dealer w db = (Return o, db') ->
     orders db' = (orders db ++ [o])%list
     /\ Order.payment_method o = OrderCreate.payment_method order_data
     /\ Order.payment_status o
        = match Order.payment_method o with
          | PaymentMethod.COD => PaymentStatus.PENDING
          | PaymentMethod.ACCOUNT => PaymentStatus.COMPLETED
          end)
  /\ (forall items total,
        cart_of dealer db <> [] ->
        create_order_loop (firstn 1000 (cart_of dealer db)) [] 0%float db
          = (Return (items, total), db) ->
        (OrderCreate.payment_method order_data = PaymentMethod.ACCOUNT ->
         Py.gt total
           (Dealer.credit_limit dealer
            - Dealer.outstanding_balance dealer)%float = false) ->
        exists o db',
          create_order order_data dealer w db = (Return o, db')
          /\ Order.payment_method o = OrderCreate.payment_method order_data
          /\ Order.payment_status o
             = match OrderCreate.payment_method order_data with
               | PaymentMethod.COD => PaymentStatus.PENDING
               | PaymentMethod.ACCOUNT => PaymentStatus.COMPLETED
               end).
Proof.
  assert (Hplaced : forall o db',
            create_order order_data dealer w db = (Return o, db') ->
            orders db' = (orders db ++ [o])%list
            /\ Order.payment_method o = OrderCreate.payment_method order_data
            /\ Order.payment_status o
               = match Order.payment_method o with
                 | PaymentMethod.COD => PaymentStatus.PENDING
                 | PaymentMethod.ACCOUNT => PaymentStatus.COMPLETED
                 end).
  { intros o db' H. apply create_order_Return in H.
    destruct H as (items & total & _ & _ & _ & Ho & _ & _ & _ & Hos).
    split; [exact Hos|]. subst o. cbn. split; reflexivity. }
  split; [exact Hplaced|].
  intros items total Hne Hloop Hcredit.
  destruct (create_order_returns order_data dealer w db items total)
    as (o & db' & H); [|exact Hloop|exact Hcredit|].
  { destruct (cart_of dealer db); [congruence | discriminate]. }
  exists o, db'. split; [exact H|].
  destruct (Hplaced o db' H) as (_ & Hm & Hs).
  split; [exact Hm|]. rewrite Hs, Hm. reflexivity.
Qed.

(** Both kinds of order on the spec's cart of 3500: cash on delivery it is
    placed pending, on account (nothing outstanding of 100000) it is placed
    completed. *)
Lemma create_order_payment_status_witness :
  (create_order Sample.by_cod Sample.dealer Sample.world Sample.db_3500
   = (Return Sample.order_3500_cod, Sample.db_3500_after_cod)
   /\ orders Sample.db_3500_after_cod = [Sample.order_3500_cod]
   /\ Order.payment_method Sample.order_3500_cod = PaymentMethod.COD
   /\ Order.payment_status Sample.order_3500_cod = PaymentStatus.PENDING)
  /\ (create_order Sample.by_account Sample.dealer Sample.world Sample.db_3500
      = (Return Sample.order_3500, Sample.db_3500_after)
      /\ orders Sample.db_3500_after = [Sample.order_3500]
      /\ Order.payment_method Sample.order_3500 = PaymentMethod.ACCOUNT
      /\ Order.payment_status Sample.order_3500 = PaymentStatus.COMPLETED)
  /\ (cart_of Sample.dealer Sample.db_3500 <> []
      /\ create_order_loop (firstn 1000 (cart_of Sample.dealer Sample.db_3500))
           [] 0%float Sample.db_3500
         = (Return ([Sample.item_opc43], 3500%float), Sample.db_3500)
      /\ Py.gt 3500 (Dealer.credit_limit Sample.dealer
                     - Dealer.outstanding_balance Sample.dealer)%float = false
      /\ exists o db',
           create_order Sample.by_account Sample.dealer Sample.world
             Sample.db_3500 = (Return o, db')
           /\ Order.payment_method o = PaymentMethod.ACCOUNT
           /\ Order.payment_status o = PaymentStatus.COMPLETED).
Proof.
  assert (H1 : create_order Sample.by_cod Sample.dealer Sample.world
                 Sample.db_3500
               = (Return Sample.order_3500_cod, Sample.db_3500_after_cod))
    by (vm_compute; reflexivity).
  assert (H2 : create_order Sample.by_account Sample.dealer Sample.world
                 Sample.db_3500
               = (Return Sample.order_3500, Sample.db_3500_after))
    by (vm_compute; reflexivity).
  assert (H3 : cart_of Sample.dealer Sample.db_3500 <> [])
    by (vm_compute; discriminate).
  assert (H4 : create_order_loop
                 (firstn 1000 (cart_of Sample.dealer Sample.db_3500))
                 [] 0%float Sample.db_3500
               = (Return ([Sample.item_opc43], 3500%float), Sample.db_3500))
    by (vm_compute; reflexivity).
  assert (H5 : Py.gt 3500 (Dealer.credit_limit Sample.dealer
                 - Dealer.outstanding_balance Sample.dealer)%float = false)
    by (vm_compute; reflexivity).
  split.
  { split; [exact H1|].
    exact (proj1 (create_order_payment_status Sample.by_cod Sample.dealer
                    Sample.world Sample.db_3500) _ _ H1). }
  split.
  { split; [exact H2|].
    exact (proj1 (create_order_payment_status Sample.by_account Sample.dealer
                    Sample.world Sample.db_3500) _ _ H2). }
  split; [exact H3|]. split; [exact H4|]. split; [exact H5|].
  exact (proj2 (create_order_payment_status Sample.by_account Sample.dealer
                  Sample.world Sample.db_3500) _ _ H3 H4 (fun _ => H5)).
Defined.

(** ** Cart *)

Lemma filter_nil_find_none {A} (q : A -> bool) (l : list A) :
  filter q l = [] -> List.find q l = None.
Proof.
  induction l as [|x r IH]; cbn; [reflexivity|].
  destruct (q x); [discriminate | exact IH].
Qed.

Lemma find_some_other {A} (q q' : A -> bool) (l : list A) (x : A) :
  List.find q l = Some x -> q' x = true -> exists y, List.find q' l = Some y.
Proof.
  intros Hf Hq'. apply find_some in Hf. destruct Hf as [Hin _].
  destruct (List.find q' l) as [y|] eqn:E; [now exists y|].
  rewrite (find_none _ _ E x Hin) in Hq'. discriminate.
Qed.

Lemma encode_int_fits (n : Z) (db : DB) :
  fits_int64 n = true -> encode_int n db = (Return tt, db).
Proof. intros H. unfold encode_int. now rewrite H. Qed.

Lemma encode_int_overflow (n : Z) (db : DB) :
  fits_int64 n = false -> encode_int n db = (Raise OverflowError, db).
Proof. intros H. unfold encode_int. now rewrite H. Qed.

(** C5, as stated, fails: with [q1 = q2 = 2^62] the first add stores a row of
    quantity [2^62]; the second computes [2^63], which the driver cannot
    encode, raises [OverflowError] and leaves the row at [2^62]. *)
Lemma add_to_cart_twice_overflows :
  add_to_cart (CartItemCreate.mk "p-opc43" (2 ^ 62)) Sample.dealer Sample.world
    Sample.db_empty_cart
  = (Return Fixture.row_2p62, Fixture.db_2p62)
  /\ add_to_cart (CartItemCreate.mk "p-opc43" (2 ^ 62)) Sample.dealer
       Sample.world2 Fixture.db_2p62
     = (Raise OverflowError, Fixture.db_2p62)
  /\ rows_for Sample.dealer "p-opc43" Fixture.db_2p62 = [Fixture.row_2p62]
  /\ CartItem.quantity Fixture.row_2p62 <> (2 ^ 62 + 2 ^ 62)%Z.
Proof.
  split; [vm_compute; reflexivity|].
  split; [vm_compute; reflexivity|].
  split; [reflexivity|]. vm_compute. discriminate.
Qed.

(** C5, amended: starting from a cart with no row for the product, with a
    fresh id drawn for the new row, and with [q1] and [q1 + q2] both within
    the eight bytes the driver can store, [add(p, q1)] then [add(p, q2)] both
    succeed and leave exactly one row for the dealer and the product, of
    quantity [q1 + q2]; no second row is created. *)
Theorem add_to_cart_twice dealer product_id q1 q2 w1 w2 db :
  catalog product_id db <> None ->
  rows_for dealer product_id db = [] ->
  row_with_id (uuid4 w1) db = None ->
  fits_int64 q1 = true ->
  fits_int64 (q1 + q2) = true ->
  exists r1 r2 db1 db2,
    add_to_cart (CartItemCreate.mk product_id q1) dealer w1 db = (Return r1, db1)
    /\ add_to_cart (CartItemCreate.mk product_id q2) dealer w2 db1
       = (Return r2, db2)
    /\ rows_for dealer product_id db2 = [r2]
    /\ CartItem.quantity r2 = (q1 + q2)%Z
    /\ cart_items db2 = (cart_items db ++ [r2])%list.
Proof.
  intros Hprod Hrows Hfresh Hq1 Hq12.
  unfold catalog in Hprod.
  destruct (List.find _ (products db)) as [p|] eqn:Hp; [clear Hprod|congruence].
  pose proof (filter_nil_find_none _ _ Hrows) as Hnone.
  set (new := CartItem.mk (uuid4 w1) (Dealer.id dealer) product_id q1 (now w1)).
  set (db1 := put db_cart_items (cart_items db ++ [new]) db).
  set (r2 := set_quantity (q1 + q2) new).
  set (db2 := put db_cart_items (cart_items db ++ [r2]) db1).
  exists new, r2, db1, db2.
  assert (Hq : (String.eqb (CartItem.dealer_id new) (Dealer.id dealer)
                && String.eqb (CartItem.product_id new) product_id) = true).
  { cbn. now rewrite !String.eqb_refl. }
  split.
  { unfold add_to_cart, bind, find_one. cbn [docs db_products db_cart_items
      CartItemCreate.product_id CartItemCreate.quantity CartItem.quantity].
    rewrite Hp, Hnone, (encode_int_fits _ _ Hq1). reflexivity. }
  split.
  { unfold add_to_cart, bind, find_one.
    cbn [docs db_products db_cart_items db1 put products cart_items
         CartItemCreate.product_id CartItemCreate.quantity].
    rewrite Hp. cbn [cart_items].
    rewrite (find_none_app _ _ new Hnone), Hq.
    change (CartItem.quantity new) with q1.
    rewrite (encode_int_fits _ _ Hq12).
    cbn [update_one docs put db_cart_items cart_items ret].
    unfold row_with_id in Hfresh.
    rewrite (update_first_none_app _ _ _ _ Hfresh).
    cbn [update_first CartItem.id new]. rewrite String.eqb_refl.
    reflexivity. }
  split.
  { unfold rows_for in Hrows |- *. cbn [db2 db1 put db_cart_items cart_items].
    rewrite filter_app, Hrows. cbn [filter app].
    change (CartItem.dealer_id r2) with (CartItem.dealer_id new).
    change (CartItem.product_id r2) with (CartItem.product_id new).
    now rewrite Hq. }
  split; reflexivity.
Qed.

Lemma add_to_cart_twice_witness :
  catalog "p-opc43" Sample.db_empty_cart <> None
  /\ rows_for Sample.dealer "p-opc43" Sample.db_empty_cart = []
  /\ row_with_id (uuid4 Sample.world) Sample.db_empty_cart = None
  /\ fits_int64 10 = true
  /\ fits_int64 (10 + 5) = true
  /\ exists r1 r2 db1 db2,
       add_to_cart (CartItemCreate.mk "p-opc43" 10) Sample.dealer Sample.world
         Sample.db_empty_cart = (Return r1, db1)
       /\ add_to_cart (CartItemCreate.mk "p-opc43" 5) Sample.dealer Sample.world2
            db1 = (Return r2, db2)
       /\ rows_for Sample.dealer "p-opc43" db2 = [r2]
       /\ CartItem.quantity r2 = (10 + 5)%Z
       /\ cart_items db2 = (cart_items Sample.db_empty_cart ++ [r2])%list.
Proof.
  assert (H1 : catalog "p-opc43" Sample.db_empty_cart <> None)
    by (vm_compute; discriminate).
  assert (H2 : rows_for Sample.dealer "p-opc43" Sample.db_empty_cart = [])
    by reflexivity.
  assert (H3 : row_with_id (uuid4 Sample.world) Sample.db_empty_cart = None)
    by reflexivity.
  assert (H4 : fits_int64 10 = true) by reflexivity.
  assert (H5 : fits_int64 (10 + 5) = true) by reflexivity.
  split; [exact H1|]. split; [exact H2|]. split; [exact H3|].
  split; [exact H4|]. split; [exact H5|].
  exact (add_to_cart_twice Sample.dealer "p-opc43" 10 5 Sample.world
           Sample.world2 Sample.db_empty_cart H1 H2 H3 H4 H5).
Defined.

(** C10, as stated, fails: the negative quantity [-2^63 - 1] for a product of
    the catalog is not accepted; the driver cannot encode it, [add_to_cart]
    raises [OverflowError] and no row is created. *)
Lemma add_to_cart_overflows :
  catalog "p-opc43" Sample.db_empty_cart = Some Sample.opc43
  /\ (- 2 ^ 63 - 1 <= 0)%Z
  /\ add_to_cart (CartItemCreate.mk "p-opc43" (- 2 ^ 63 - 1)) Sample.dealer
       Sample.world Sample.db_empty_cart
     = (Raise OverflowError, Sample.db_empty_cart).
Proof.
  split; [reflexivity|]. split; [vm_compute; discriminate|].
  vm_compute. reflexivity.
Qed.

(** C10, amended: [add_to_cart] never looks at the sign of the quantity.  For
    a product of the catalog it returns for every quantity, zero and negative
    included, as long as the quantity it has to store (the one given, or its
    sum with the quantity of the row found) fits the eight bytes of the
    driver: without a row for the product it appends a row carrying the
    quantity as given, otherwise it adds the quantity to the one found; so a
    cart row of quantity below 1 is one request away. *)
Theorem add_to_cart_accepts_any_quantity item_data dealer w db :
  catalog (CartItemCreate.product_id item_data) db <> None ->
  fits_int64 (quantity_to_store item_data dealer db) = true ->
  exists r db',
    add_to_cart item_data dealer w db = (Return r, db')
    /\ (rows_for dealer (CartItemCreate.product_id item_data) db = [] ->
        r = CartItem.mk (uuid4 w) (Dealer.id dealer)
              (CartItemCreate.product_id item_data)
              (CartItemCreate.quantity item_data) (now w)
        /\ cart_items db' = (cart_items db ++ [r])%list
        /\ In r (cart_of dealer db'))
    /\ (forall existing rest,
          rows_for dealer (CartItemCreate.product_id item_data) db
          = existing :: rest ->
          r = set_quantity
                (CartItem.quantity existing + CartItemCreate.quantity item_data)
                existing
          /\ exists stored,
               row_with_id (CartItem.id existing) db' = Some stored
               /\ CartItem.quantity stored
                  = (CartItem.quantity existing
                     + CartItemCreate.quantity item_data)%Z).
Proof.
  intros Hprod Hfits. unfold catalog in Hprod.
  destruct (List.find _ (products db)) as [p|] eqn:Hp; [clear Hprod|congruence].
  unfold add_to_cart, bind, find_one. cbn [docs db_products]. rewrite Hp.
  cbn [docs db_cart_items]. unfold quantity_to_store, rows_for in *.
  destruct (List.find _ (cart_items db)) as [existing|] eqn:He.
  - assert (Hhead : exists rest,
              filter (fun c => String.eqb (CartItem.dealer_id c) (Dealer.id dealer)
                               && String.eqb (CartItem.product_id c)
                                    (CartItemCreate.product_id item_data))
                (cart_items db) = existing :: rest).
    { clear -He. induction (cart_items db) as [|x l IH]; [discriminate|].
      cbn in He |- *. destruct (_ && _); [|auto].
      inversion He; subst. now eexists. }
    destruct Hhead as [rest0 Hhead]. rewrite Hhead in Hfits.
    rewrite (encode_int_fits _ _ Hfits).
    do 2 eexists. split; [reflexivity|]. split.
    + intros Hnil. congruence.
    + intros e rest Hrows. cbn [put docs db_cart_items cart_items].
      assert (e = existing) as -> by congruence.
      split; [reflexivity|].
      unfold row_with_id. cbn [cart_items docs db_cart_items].
      rewrite find_update_first.
      * destruct (find_some_other _
                    (fun c => String.eqb (CartItem.id c) (CartItem.id existing))
                    _ _ He (String.eqb_refl _)) as [y Hy].
        rewrite Hy. now exists (set_quantity
          (CartItem.quantity existing + CartItemCreate.quantity item_data) y).
      * intros x Hx. exact Hx.
  - rewrite (find_none_filter _ _ He) in Hfits.
    cbn [CartItem.quantity]. rewrite (encode_int_fits _ _ Hfits).
    do 2 eexists. split; [reflexivity|]. split.
    + intros _. split; [reflexivity|]. split; [reflexivity|].
      unfold cart_of. cbn [put db_cart_items cart_items].
      apply filter_In. split; [apply in_or_app; right; now left|].
      cbn. apply String.eqb_refl.
    + intros e rest Hrows.
      rewrite (find_none_filter _ _ He) in Hrows. discriminate.
Qed.

Lemma add_to_cart_accepts_any_quantity_witness :
  catalog (CartItemCreate.product_id (CartItemCreate.mk "p-opc43" (-3)))
    Sample.db_empty_cart <> None
  /\ fits_int64
       (quantity_to_store (CartItemCreate.mk "p-opc43" (-3)) Sample.dealer
          Sample.db_empty_cart) = true
  /\ exists r db',
       add_to_cart (CartItemCreate.mk "p-opc43" (-3)) Sample.dealer Sample.world
         Sample.db_empty_cart = (Return r, db')
       /\ (rows_for Sample.dealer "p-opc43" Sample.db_empty_cart = [] ->
           r = CartItem.mk "u1" "d1" "p-opc43" (-3) 1000
           /\ cart_items db' = (cart_items Sample.db_empty_cart ++ [r])%list
           /\ In r (cart_of Sample.dealer db'))
       /\ (forall existing rest,
             rows_for Sample.dealer "p-opc43" Sample.db_empty_cart
             = existing :: rest ->
             r = set_quantity (CartItem.quantity existing + (-3)) existing
             /\ exists stored,
                  row_with_id (CartItem.id existing) db' = Some stored
                  /\ CartItem.quantity stored
                     = (CartItem.quantity existing + (-3))%Z).
Proof.
  assert (H1 : catalog
                 (CartItemCreate.product_id (CartItemCreate.mk "p-opc43" (-3)))
                 Sample.db_empty_cart <> None)
    by (vm_compute; discriminate).
  assert (H2 : fits_int64
                 (quantity_to_store (CartItemCreate.mk "p-opc43" (-3))
                    Sample.dealer Sample.db_empty_cart) = true)
    by reflexivity.
  split; [exact H1|]. split; [exact H2|].
  exact (add_to_cart_accepts_any_quantity (CartItemCreate.mk "p-opc43" (-3))
           Sample.dealer Sample.world Sample.db_empty_cart H1 H2).
Defined.

(** A row of quantity -3 in a cart that was empty. *)
Example add_to_cart_negative_quantity :
  add_to_cart (CartItemCreate.mk "p-opc43" (-3)) Sample.dealer Sample.world
    Sample.db_empty_cart
  = (Return (CartItem.mk "u1" "d1" "p-opc43" (-3) 1000),
     mkDB [Sample.dealer] [Sample.opc43; Sample.opc43_25kg]
       [CartItem.mk "u1" "d1" "p-opc43" (-3) 1000] []).
Proof. reflexivity. Qed.

(** The sibling route refuses what [add_to_cart] lets through. *)
Example update_cart_item_rejects_nonpositive item_id quantity dealer db :
  (quantity <= 0)%Z ->
  update_cart_item item_id quantity dealer db
  = (Raise (HTTPException 400 (Msg "Quantity must be greater than 0")), db).
Proof.
  intros H. unfold update_cart_item.
  destruct (Z.leb_spec quantity 0); [reflexivity | lia].
Qed.

(** ** One-time codes *)

(** C7: once [verify_otp] has succeeded, the dealer found under that phone
    number has no code and no expiry left (and holds the token just issued),
    so verifying the same code again, at any time, is refused with the 400
    [Invalid OTP] and changes nothing. *)
Theorem verify_otp_single_use request w db resp db' :
  verify_otp request w db = (Return resp, db') ->
  (exists d,
     dealer_by_phone (VerifyOTPRequest.phone request) db' = Some d
     /\ Dealer.otp d = None
     /\ Dealer.otp_expires_at d = None
     /\ Dealer.auth_token d = Some (AuthResponse.token resp))
  /\ forall w',
       verify_otp request w' db'
       = (Raise (HTTPException 400 (Msg "Invalid OTP")), db').
Proof.
  unfold verify_otp at 1. unfold bind at 1. cbn [find_one docs db_dealers].
  destruct (List.find _ (dealers db)) as [d|] eqn:Hd; [|discriminate].
  destruct (negb _); [discriminate|].
  destruct (Dealer.otp_expires_at d) as [e|]; [|discriminate].
  destruct (now w >? e)%Z; [discriminate|].
  unfold bind, update_one, ret. cbn [docs put db_dealers].
  intros H. inversion H; subst; clear H.
  assert (Hfound :
    dealer_by_phone (VerifyOTPRequest.phone request)
      (mkDB (update_first
               (fun d0 => String.eqb (Dealer.phone d0)
                            (VerifyOTPRequest.phone request))
               (fun d0 => set_otp None None
                            (set_auth_token (Some (generate_token w)) d0))
               (dealers db))
         (products db) (cart_items db) (orders db))
    = Some (set_otp None None (set_auth_token (Some (generate_token w)) d))).
  { unfold dealer_by_phone. cbn [dealers]. rewrite find_update_first.
    - now rewrite Hd.
    - intros x Hx. exact Hx. }
  split.
  - eexists. split; [exact Hfound|]. cbn. repeat split.
  - intros w'. unfold verify_otp, bind. cbn [find_one docs db_dealers].
    unfold dealer_by_phone in Hfound. rewrite Hfound. reflexivity.
Qed.

Lemma verify_otp_single_use_witness :
  verify_otp Sample.otp_request Sample.world Sample.db_otp
  = (Return (AuthResponse.mk "tok2"
               (set_auth_token (Some "tok2") Sample.dealer_otp)),
     mkDB [set_auth_token (Some "tok2") Sample.dealer]
       [Sample.opc43; Sample.opc43_25kg] [] [])
  /\ (exists d,
        dealer_by_phone (VerifyOTPRequest.phone Sample.otp_request)
          (mkDB [set_auth_token (Some "tok2") Sample.dealer]
             [Sample.opc43; Sample.opc43_25kg] [] []) = Some d
        /\ Dealer.otp d = None
        /\ Dealer.otp_expires_at d = None
        /\ Dealer.auth_token d
           = Some (AuthResponse.token
                     (AuthResponse.mk "tok2"
                        (set_auth_token (Some "tok2") Sample.dealer_otp))))
  /\ forall w',
       verify_otp Sample.otp_request w'
         (mkDB [set_auth_token (Some "tok2") Sample.dealer]
            [Sample.opc43; Sample.opc43_25kg] [] [])
       = (Raise (HTTPException 400 (Msg "Invalid OTP")),
          mkDB [set_auth_token (Some "tok2") Sample.dealer]
            [Sample.opc43; Sample.opc43_25kg] [] []).
Proof.
  assert (H1 : verify_otp Sample.otp_request Sample.world Sample.db_otp
               = (Return (AuthResponse.mk "tok2"
                            (set_auth_token (Some "tok2") Sample.dealer_otp)),
                  mkDB [set_auth_token (Some "tok2") Sample.dealer]
                    [Sample.opc43; Sample.opc43_25kg] [] []))
    by (vm_compute; reflexivity).
  split; [exact H1|].
  exact (verify_otp_single_use _ _ _ _ _ H1).
Defined.

(** A code issued by [send_otp] verifies once and only once. *)
Example send_then_verify_twice :
  exists otp db1 resp db2,
    send_otp (SendOTPRequest.mk "9000000001") Sample.world Sample.db_empty_cart
    = (Return otp, db1)
    /\ otp = "123456"
    /\ verify_otp (VerifyOTPRequest.mk "9000000001" otp) Sample.world2 db1
       = (Return resp, db2)
    /\ verify_otp (VerifyOTPRequest.mk "9000000001" otp) Sample.world2 db2
       = (Raise (HTTPException 400 (Msg "Invalid OTP")), db2).
Proof. do 4 eexists. repeat split; vm_compute; reflexivity. Qed.

(** ** Dashboard *)

(** C9, at the failing input: the dealer has 1001 orders; the route, whose
    own comment says that it gets all orders, reads the first 1000 and
    reports 1000 as the total number of orders. *)
Lemma get_dashboard_stats_stops_at_1000 :
  Z.of_nat (List.length (orders_of Sample.dealer Sample.db_1001_orders)) = 1001%Z
  /\ exists s,
       get_dashboard_stats Py.Py312 Sample.dealer Sample.db_1001_orders
       = (Return s, Sample.db_1001_orders)
       /\ DashboardStats.total_orders s = 1000%Z
       /\ DashboardStats.total_orders s
          <> Z.of_nat (List.length
                         (orders_of Sample.dealer Sample.db_1001_orders)).
Proof.
  split; [vm_compute; reflexivity|].
  eexists. split; [reflexivity|].
  split; [vm_compute; reflexivity|].
  vm_compute. discriminate.
Qed.

(** What the dashboard computes: it never fails and writes nothing; its
    figures are taken over the first 1000 of the dealer's orders: their
    number, how many are pending, how many are delivered, and the built-in
    [sum] of their totals whatever their status; the available credit is the
    credit limit minus the outstanding balance.  For a dealer with at most
    1000 orders these are the figures over all the dealer's orders. *)
Lemma get_dashboard_stats_figures v dealer db :
  exists s,
    get_dashboard_stats v dealer db = (Return s, db)
    /\ DashboardStats.total_orders s
       = Z.of_nat (List.length (dashboard_orders dealer db))
    /\ DashboardStats.pending_orders s
       = count_status OrderStatus.PENDING (dashboard_orders dealer db)
    /\ DashboardStats.delivered_orders s
       = count_status OrderStatus.DELIVERED (dashboard_orders dealer db)
    /\ DashboardStats.total_spent s
       = Py.sum v (map Order.total_amount (dashboard_orders dealer db))
    /\ DashboardStats.credit_available s
       = (Dealer.credit_limit dealer - Dealer.outstanding_balance dealer)%float
    /\ DashboardStats.outstanding_balance s = Dealer.outstanding_balance dealer
    /\ ((List.length (orders_of dealer db) <= 1000)%nat ->
        dashboard_orders dealer db = orders_of dealer db).
Proof.
  eexists. split; [reflexivity|]. cbn [DashboardStats.total_orders
    DashboardStats.pending_orders DashboardStats.delivered_orders
    DashboardStats.total_spent DashboardStats.credit_available
    DashboardStats.outstanding_balance].
  change (firstn 1000 (filter _ (docs db_orders db)))
    with (dashboard_orders dealer db).
  rewrite !count_status_filter.
  repeat (split; [reflexivity|]).
  intros Hlen. apply firstn_all_le, Hlen.
Qed.

(** The spec's scenario: three orders, one pending, one delivered, one
    cancelled, 5000 in all. *)
Example get_dashboard_stats_three_orders v :
  get_dashboard_stats v Sample.dealer Sample.db_three_orders
  = (Return (DashboardStats.mk 3 1 1 5000 100000 0), Sample.db_three_orders).
Proof. destruct v; vm_compute; reflexivity. Qed.

(** * Further properties of the routes *)

(** ** More list facts *)

Section MoreListFacts.
Context {A : Type}.
Implicit Types (q : A -> bool) (f : A -> A) (l : list A).

Lemma find_all_false q l :
  (forall x, In x l -> q x = false) -> List.find q l = None.
Proof.
  induction l as [|x r IH]; intros H; cbn; [reflexivity|].
  rewrite (H x (or_introl eq_refl)). apply IH. intros y Hy. apply H. now right.
Qed.

Lemma update_first_no_match q f l :
  List.find q l = None -> update_first q f l = l.
Proof.
  induction l as [|x r IH]; cbn; [reflexivity|].
  destruct (q x); [discriminate|]. intros H. now rewrite IH.
Qed.

Lemma delete_first_no_match q l :
  List.find q l = None -> delete_first q l = l.
Proof.
  induction l as [|x r IH]; cbn; [reflexivity|].
  destruct (q x); [discriminate|]. intros H. now rewrite IH.
Qed.

Lemma existsb_find_none q l : List.find q l = None -> existsb q l = false.
Proof.
  induction l as [|x r IH]; cbn; [reflexivity|].
  destruct (q x); [discriminate | exact IH].
Qed.

Lemma existsb_find_some q l x : List.find q l = Some x -> existsb q l = true.
Proof.
  induction l as [|y r IH]; cbn; [discriminate|].
  destruct (q y); [reflexivity | exact IH].
Qed.

Lemma update_first_length q f l :
  List.length (update_first q f l) = List.length l.
Proof.
  induction l as [|x r IH]; cbn; [reflexivity|].
  destruct (q x); cbn; [reflexivity | now rewrite IH].
Qed.

Lemma update_first_In q f l y :
  In y (update_first q f l) -> In y l \/ exists x, In x l /\ q x = true /\ y = f x.
Proof.
  induction l as [|x r IH]; cbn; [tauto|].
  destruct (q x) eqn:E; cbn.
  - intros [<-|H]; [right; exists x; auto | left; now right].
  - intros [<-|H]; [left; now left|].
    destruct (IH H) as [H'|(z & Hz & Hq & ->)]; [left; now right|].
    right. exists z. auto.
Qed.

(** Updating the first match of [q] when nothing satisfied [q'] before:
    the first match of [q'] afterwards is the updated document. *)
Lemma find_other_after_update q q' f l x :
  List.find q l = Some x ->
  (forall y, In y l -> q' y = false) ->
  q' (f x) = true ->
  List.find q' (update_first q f l) = Some (f x).
Proof.
  induction l as [|y r IH]; cbn; [discriminate|].
  intros Hf Hnone Hq'. destruct (q y) eqn:E.
  - inversion Hf; subst. cbn. now rewrite Hq'.
  - cbn. rewrite (Hnone y (or_introl eq_refl)).
    apply IH; auto.
Qed.
End MoreListFacts.

(** ** The Authorization header *)

Lemma prefix_app (p t : string) : String.prefix p (p ++ t)%string = true.
Proof.
  induction p as [|a p IH]; cbn; [now destruct t|].
  destruct (Ascii.ascii_dec a a); [exact IH | congruence].
Qed.

(** A string without a space does not start with [Bearer ]. *)
Lemma no_space_no_bearer (s : string) :
  Str.no_space s = true -> String.prefix "Bearer " s = false.
Proof.
  intros Hs. destruct (String.prefix "Bearer " s) eqn:E; [|reflexivity].
  exfalso. revert Hs E.
  do 7 (destruct s as [|? s]; [discriminate|];
        cbn [String.prefix];
        match goal with
        | |- context [Ascii.ascii_dec ?a ?b] =>
            destruct (Ascii.ascii_dec a b); [subst|discriminate]
        end).
  cbn. discriminate.
Qed.

Lemma replace_from_no_space (t : string) :
  Str.no_space t = true -> Str.replace_from "Bearer " "" 0 t = t.
Proof.
  induction t as [|c r IH]; [reflexivity|].
  intros Hs. cbn [Str.replace_from].
  rewrite (no_space_no_bearer _ Hs).
  cbn [Str.no_space] in Hs. apply andb_true_iff in Hs. destruct Hs as [_ Hr].
  now rewrite (IH Hr).
Qed.

(** Stripping [Bearer ] from a header made of the prefix and a space-free
    token gives the token back. *)
Lemma replace_bearer (t : string) :
  Str.no_space t = true ->
  Str.replace ("Bearer " ++ t) "Bearer " "" = t.
Proof.
  intros Hs. unfold Str.replace.
  change ("Bearer " ++ t)%string
    with (String "B" (String "e" (String "a" (String "r" (String "e"
           (String "r" (String " " t))))))).
  cbn [Str.replace_from].
  change (String "B" (String "e" (String "a" (String "r" (String "e"
           (String "r" (String " " t)))))))
    with ("Bearer " ++ t)%string.
  rewrite prefix_app. cbn [String.length Nat.sub append].
  now apply replace_from_no_space.
Qed.

Lemma bearer_header_accepted (t : string) :
  String.eqb ("Bearer " ++ t) "" || negb (Str.startswith ("Bearer " ++ t) "Bearer ")
  = false.
Proof.
  unfold Str.startswith. rewrite prefix_app. reflexivity.
Qed.

(** What [get_current_dealer] does with a well-formed header. *)
Lemma get_current_dealer_bearer (t : string) (db : DB) :
  Str.no_space t = true ->
  get_current_dealer (Some ("Bearer " ++ t)%string) db
  = match dealer_by_token t db with
    | Some d => (Return d, db)
    | None => (Raise (HTTPException 401 (Msg "Invalid token")), db)
    end.
Proof.
  intros Hs. unfold get_current_dealer.
  rewrite bearer_header_accepted, (replace_bearer _ Hs).
  unfold bind, find_one, dealer_by_token. cbn [docs db_dealers].
  now destruct (List.find _ (dealers db)).
Qed.

(** ** Registration and login *)

Lemma find_app_last {A} (q : A -> bool) (l : list A) (x : A) :
  q x = true -> exists y, List.find q (l ++ [x]) = Some y.
Proof.
  intros Hq. induction l as [|z r IH]; cbn.
  - rewrite Hq. now exists x.
  - destruct (q z); [now exists z | exact IH].
Qed.

(** X1: once a phone number has been registered, every later registration
    with that number is refused with the 400 [Phone number already
    registered], whatever the other fields, and writes nothing. *)
Theorem register_dealer_once dealer_data w db dealer db1 :
  register_dealer dealer_data w db = (Return dealer, db1) ->
  forall dealer_data' w',
    DealerCreate.phone dealer_data' = DealerCreate.phone dealer_data ->
    register_dealer dealer_data' w' db1
    = (Raise (HTTPException 400 (Msg "Phone number already registered")), db1).
Proof.
  unfold register_dealer at 1. unfold bind at 1. cbn [find_one docs db_dealers].
  destruct (List.find _ (dealers db)) eqn:Hd; [discriminate|].
  unfold bind, insert_one, ret. cbn [docs put db_dealers]. intros H.
  inversion H; subst; clear H. intros data' w' Hphone.
  unfold register_dealer, bind. cbn [find_one docs db_dealers dealers].
  rewrite Hphone.
  destruct (find_app_last
              (fun d => String.eqb (Dealer.phone d) (DealerCreate.phone dealer_data))
              (dealers db)
              (Dealer.mk (uuid4 w) (DealerCreate.name dealer_data)
                 (DealerCreate.phone dealer_data) (DealerCreate.email dealer_data)
                 (DealerCreate.business_name dealer_data)
                 (DealerCreate.address dealer_data)
                 (DealerCreate.gst_number dealer_data) 100000 0 None None None
                 (now w))) as [y Hy].
  { cbn. apply String.eqb_refl. }
  rewrite Hy. reflexivity.
Qed.

Lemma register_dealer_once_witness :
  register_dealer Fixture.asha Sample.world Fixture.db_blank
  = (Return (Dealer.mk "u1" "Asha" "9000000001" "asha@example.com"
               "Asha Traders" "Pune" None 100000 0 None None None 1000),
     mkDB [Dealer.mk "u1" "Asha" "9000000001" "asha@example.com"
             "Asha Traders" "Pune" None 100000 0 None None None 1000]
       [] [] [])
  /\ forall dealer_data' w',
       DealerCreate.phone dealer_data' = DealerCreate.phone Fixture.asha ->
       register_dealer dealer_data' w'
         (mkDB [Dealer.mk "u1" "Asha" "9000000001" "asha@example.com"
                  "Asha Traders" "Pune" None 100000 0 None None None 1000]
            [] [] [])
       = (Raise (HTTPException 400 (Msg "Phone number already registered")),
          mkDB [Dealer.mk "u1" "Asha" "9000000001" "asha@example.com"
                  "Asha Traders" "Pune" None 100000 0 None None None 1000]
            [] [] []).
Proof.
  assert (H1 : register_dealer Fixture.asha Sample.world Fixture.db_blank
               = (Return (Dealer.mk "u1" "Asha" "9000000001" "asha@example.com"
                            "Asha Traders" "Pune" None 100000 0 None None None
                            1000),
                  mkDB [Dealer.mk "u1" "Asha" "9000000001" "asha@example.com"
                          "Asha Traders" "Pune" None 100000 0 None None None
                          1000] [] [] []))
    by reflexivity.
  split; [exact H1|].
  exact (register_dealer_once _ _ _ _ _ H1).
Defined.

(** What a successful [send_otp] did. *)
Lemma send_otp_Return request w db otp db1 :
  send_otp request w db = (Return otp, db1) ->
  exists d,
    dealer_by_phone (SendOTPRequest.phone request) db = Some d
    /\ otp = generate_otp w
    /\ dealer_by_phone (SendOTPRequest.phone request) db1
       = Some (set_otp (Some otp) (Some (now w + otp_window)%Z) d)
    /\ products db1 = products db
    /\ cart_items db1 = cart_items db
    /\ orders db1 = orders db.
Proof.
  unfold send_otp, bind. cbn [find_one docs db_dealers]. unfold dealer_by_phone.
  destruct (List.find _ (dealers db)) as [d|] eqn:Hd; [|discriminate].
  unfold update_one, ret. cbn [docs put db_dealers]. intros H.
  inversion H; subst; clear H. exists d.
  split; [reflexivity|]. split; [reflexivity|]. cbn [dealers products cart_items orders].
  split; [|repeat split].
  rewrite find_update_first.
  - now rewrite Hd.
  - intros x Hx. exact Hx.
Qed.

(** X2: a code issued by [send_otp] is accepted by [verify_otp] at any time up
    to and including five minutes after it was issued; the response carries
    the freshly drawn token, which is stored on the dealer. *)
Theorem send_then_verify_within_window phone w db otp db1 w' :
  send_otp (SendOTPRequest.mk phone) w db = (Return otp, db1) ->
  (now w' <= now w + otp_window)%Z ->
  exists resp db2 d,
    verify_otp (VerifyOTPRequest.mk phone otp) w' db1 = (Return resp, db2)
    /\ AuthResponse.token resp = generate_token w'
    /\ dealer_by_phone phone db2 = Some d
    /\ Dealer.auth_token d = Some (generate_token w').
Proof.
  intros Hsend Hnow.
  apply send_otp_Return in Hsend.
  destruct Hsend as (d & _ & _ & Hfound & _).
  cbn [SendOTPRequest.phone] in Hfound.
  unfold verify_otp, bind. cbn [find_one docs db_dealers VerifyOTPRequest.phone
                                 VerifyOTPRequest.otp].
  unfold dealer_by_phone in Hfound. rewrite Hfound.
  cbn [set_otp Dealer.otp Dealer.otp_expires_at option_eqb].
  rewrite String.eqb_refl. cbn [negb].
  destruct (Z.gtb_spec (now w') (now w + otp_window)) as [Hgt|_]; [lia|].
  unfold update_one, ret. cbn [docs put db_dealers].
  do 3 eexists. split; [reflexivity|]. split; [reflexivity|].
  unfold dealer_by_phone. cbn [dealers]. rewrite find_update_first.
  - rewrite Hfound. cbn. split; reflexivity.
  - intros x Hx. exact Hx.
Qed.

Lemma send_then_verify_within_window_witness :
  send_otp (SendOTPRequest.mk "9000000001") Sample.world Sample.db_empty_cart
  = (Return "123456",
     mkDB [set_otp (Some "123456") (Some 300001000%Z) Sample.dealer]
       [Sample.opc43; Sample.opc43_25kg] [] [])
  /\ (now Sample.world2 <= now Sample.world + otp_window)%Z
  /\ exists resp db2 d,
       verify_otp (VerifyOTPRequest.mk "9000000001" "123456") Sample.world2
         (mkDB [set_otp (Some "123456") (Some 300001000%Z) Sample.dealer]
            [Sample.opc43; Sample.opc43_25kg] [] [])
       = (Return resp, db2)
       /\ AuthResponse.token resp = generate_token Sample.world2
       /\ dealer_by_phone "9000000001" db2 = Some d
       /\ Dealer.auth_token d = Some (generate_token Sample.world2).
Proof.
  assert (H1 : send_otp (SendOTPRequest.mk "9000000001") Sample.world
                 Sample.db_empty_cart
               = (Return "123456",
                  mkDB [set_otp (Some "123456") (Some 300001000%Z) Sample.dealer]
                    [Sample.opc43; Sample.opc43_25kg] [] []))
    by reflexivity.
  assert (H2 : (now Sample.world2 <= now Sample.world + otp_window)%Z)
    by (vm_compute; discriminate).
  split; [exact H1|]. split; [exact H2|].
  exact (send_then_verify_within_window _ _ _ _ _ _ H1 H2).
Defined.

(** X3: after the five minutes the same code is refused with the 400
    [OTP expired]; nothing is written, the code stays stored. *)
Theorem send_then_verify_after_window phone w db otp db1 w' :
  send_otp (SendOTPRequest.mk phone) w db = (Return otp, db1) ->
  (now w + otp_window < now w')%Z ->
  verify_otp (VerifyOTPRequest.mk phone otp) w' db1
  = (Raise (HTTPException 400 (Msg "OTP expired")), db1).
Proof.
  intros Hsend Hnow.
  apply send_otp_Return in Hsend.
  destruct Hsend as (d & _ & _ & Hfound & _).
  cbn [SendOTPRequest.phone] in Hfound.
  unfold verify_otp, bind. cbn [find_one docs db_dealers VerifyOTPRequest.phone
                                 VerifyOTPRequest.otp].
  unfold dealer_by_phone in Hfound. rewrite Hfound.
  cbn [set_otp Dealer.otp Dealer.otp_expires_at option_eqb].
  rewrite String.eqb_refl. cbn [negb].
  destruct (Z.gtb_spec (now w') (now w + otp_window)) as [_|Hle]; [|lia].
  reflexivity.
Qed.

Lemma send_then_verify_after_window_witness :
  send_otp (SendOTPRequest.mk "9000000001") Sample.world Sample.db_empty_cart
  = (Return "123456",
     mkDB [set_otp (Some "123456") (Some 300001000%Z) Sample.dealer]
       [Sample.opc43; Sample.opc43_25kg] [] [])
  /\ (now Sample.world + otp_window
      < now (mkWorld "u" 300001001 300001002 "" "" "tok9" []))%Z
  /\ verify_otp (VerifyOTPRequest.mk "9000000001" "123456")
       (mkWorld "u" 300001001 300001002 "" "" "tok9" [])
       (mkDB [set_otp (Some "123456") (Some 300001000%Z) Sample.dealer]
          [Sample.opc43; Sample.opc43_25kg] [] [])
     = (Raise (HTTPException 400 (Msg "OTP expired")),
        mkDB [set_otp (Some "123456") (Some 300001000%Z) Sample.dealer]
          [Sample.opc43; Sample.opc43_25kg] [] []).
Proof.
  assert (H1 : send_otp (SendOTPRequest.mk "9000000001") Sample.world
                 Sample.db_empty_cart
               = (Return "123456",
                  mkDB [set_otp (Some "123456") (Some 300001000%Z) Sample.dealer]
                    [Sample.opc43; Sample.opc43_25kg] [] []))
    by reflexivity.
  assert (H2 : (now Sample.world + otp_window
                < now (mkWorld "u" 300001001 300001002 "" "" "tok9" []))%Z)
    by (vm_compute; reflexivity).
  split; [exact H1|]. split; [exact H2|].
  exact (send_then_verify_after_window _ _ _ _ _ _ H1 H2).
Defined.

(** X4: any code other than the one just issued is refused with the 400
    [Invalid OTP], at any time, and writes nothing. *)
Theorem send_then_verify_wrong_code phone w db otp db1 code w' :
  send_otp (SendOTPRequest.mk phone) w db = (Return otp, db1) ->
  code <> otp ->
  verify_otp (VerifyOTPRequest.mk phone code) w' db1
  = (Raise (HTTPException 400 (Msg "Invalid OTP")), db1).
Proof.
  intros Hsend Hcode.
  apply send_otp_Return in Hsend.
  destruct Hsend as (d & _ & _ & Hfound & _).
  cbn [SendOTPRequest.phone] in Hfound.
  unfold verify_otp, bind. cbn [find_one docs db_dealers VerifyOTPRequest.phone
                                 VerifyOTPRequest.otp].
  unfold dealer_by_phone in Hfound. rewrite Hfound.
  cbn [set_otp Dealer.otp Dealer.otp_expires_at option_eqb].
  destruct (String.eqb_spec otp code) as [->|_]; [congruence|]. reflexivity.
Qed.

Lemma send_then_verify_wrong_code_witness :
  send_otp (SendOTPRequest.mk "9000000001") Sample.world Sample.db_empty_cart
  = (Return "123456",
     mkDB [set_otp (Some "123456") (Some 300001000%Z) Sample.dealer]
       [Sample.opc43; Sample.opc43_25kg] [] [])
  /\ "654321" <> "123456"
  /\ verify_otp (VerifyOTPRequest.mk "9000000001" "654321") Sample.world2
       (mkDB [set_otp (Some "123456") (Some 300001000%Z) Sample.dealer]
          [Sample.opc43; Sample.opc43_25kg] [] [])
     = (Raise (HTTPException 400 (Msg "Invalid OTP")),
        mkDB [set_otp (Some "123456") (Some 300001000%Z) Sample.dealer]
          [Sample.opc43; Sample.opc43_25kg] [] []).
Proof.
  assert (H1 : send_otp (SendOTPRequest.mk "9000000001") Sample.world
                 Sample.db_empty_cart
               = (Return "123456",
                  mkDB [set_otp (Some "123456") (Some 300001000%Z) Sample.dealer]
                    [Sample.opc43; Sample.opc43_25kg] [] []))
    by reflexivity.
  assert (H2 : "654321" <> "123456") by discriminate.
  split; [exact H1|]. split; [exact H2|].
  exact (send_then_verify_wrong_code _ _ _ _ _ _ Sample.world2 H1 H2).
Defined.

(** What a successful [verify_otp] did. *)
Lemma verify_otp_Return request w db resp db' :
  verify_otp request w db = (Return resp, db') ->
  exists d e,
    dealer_by_phone (VerifyOTPRequest.phone request) db = Some d
    /\ Dealer.otp d = Some (VerifyOTPRequest.otp request)
    /\ Dealer.otp_expires_at d = Some e
    /\ (now w <= e)%Z
    /\ resp = AuthResponse.mk (generate_token w)
                (set_auth_token (Some (generate_token w)) d)
    /\ dealers db'
       = update_first
           (fun d0 => String.eqb (Dealer.phone d0) (VerifyOTPRequest.phone request))
           (fun d0 => set_otp None None
                        (set_auth_token (Some (generate_token w)) d0))
           (dealers db)
    /\ products db' = products db
    /\ cart_items db' = cart_items db
    /\ orders db' = orders db.
Proof.
  unfold verify_otp, bind. cbn [find_one docs db_dealers]. unfold dealer_by_phone.
  destruct (List.find _ (dealers db)) as [d|] eqn:Hd; [|discriminate].
  destruct (option_eqb String.eqb (Dealer.otp d) _) eqn:Hotp; [|discriminate].
  cbn [negb].
  destruct (Dealer.otp_expires_at d) as [e|] eqn:He; [|discriminate].
  destruct (Z.gtb_spec (now w) e) as [|Hle]; [discriminate|].
  unfold update_one, ret. cbn [docs put db_dealers]. intros H.
  inversion H; subst; clear H. exists d, e.
  split; [reflexivity|]. split.
  { destruct (Dealer.otp d) as [o|]; [|discriminate]. cbn in Hotp.
    apply String.eqb_eq in Hotp. now subst. }
  repeat (split; [reflexivity || assumption|]). reflexivity.
Qed.

(** X5: the token handed out by [verify_otp] opens the protected routes: if
    it holds no space and no dealer held it before, [get_current_dealer] on
    the header [Bearer <token>] returns the dealer stored under the phone
    number that logged in, and writes nothing. *)
Theorem login_token_authenticates request w db resp db' :
  verify_otp request w db = (Return resp, db') ->
  Str.no_space (AuthResponse.token resp) = true ->
  dealer_by_token (AuthResponse.token resp) db = None ->
  exists d,
    get_current_dealer (Some ("Bearer " ++ AuthResponse.token resp)%string) db'
    = (Return d, db')
    /\ dealer_by_phone (VerifyOTPRequest.phone request) db' = Some d
    /\ Dealer.auth_token d = Some (AuthResponse.token resp).
Proof.
  intros Hv Hs Hfresh.
  apply verify_otp_Return in Hv.
  destruct Hv as (d & e & Hd & _ & _ & _ & -> & Hdealers & _).
  cbn [AuthResponse.token] in *.
  rewrite (get_current_dealer_bearer _ _ Hs).
  exists (set_otp None None (set_auth_token (Some (generate_token w)) d)).
  unfold dealer_by_token, dealer_by_phone in *. rewrite Hdealers.
  rewrite (find_other_after_update _ _ _ _ d Hd).
  - split; [reflexivity|]. split; [|reflexivity].
    rewrite find_update_first; [now rewrite Hd | intros x Hx; exact Hx].
  - intros y Hy. exact (find_none _ _ Hfresh y Hy).
  - cbn. apply String.eqb_refl.
Qed.

Lemma login_token_authenticates_witness :
  verify_otp Sample.otp_request Sample.world Sample.db_otp
  = (Return (AuthResponse.mk "tok2"
               (set_auth_token (Some "tok2") Sample.dealer_otp)),
     mkDB [set_auth_token (Some "tok2") Sample.dealer]
       [Sample.opc43; Sample.opc43_25kg] [] [])
  /\ Str.no_space "tok2" = true
  /\ dealer_by_token "tok2" Sample.db_otp = None
  /\ exists d,
       get_current_dealer (Some "Bearer tok2")
         (mkDB [set_auth_token (Some "tok2") Sample.dealer]
            [Sample.opc43; Sample.opc43_25kg] [] [])
       = (Return d,
          mkDB [set_auth_token (Some "tok2") Sample.dealer]
            [Sample.opc43; Sample.opc43_25kg] [] [])
       /\ dealer_by_phone "9000000001"
            (mkDB [set_auth_token (Some "tok2") Sample.dealer]
               [Sample.opc43; Sample.opc43_25kg] [] []) = Some d
       /\ Dealer.auth_token d = Some "tok2".
Proof.
  assert (H1 : verify_otp Sample.otp_request Sample.world Sample.db_otp
               = (Return (AuthResponse.mk "tok2"
                            (set_auth_token (Some "tok2") Sample.dealer_otp)),
                  mkDB [set_auth_token (Some "tok2") Sample.dealer]
                    [Sample.opc43; Sample.opc43_25kg] [] []))
    by (vm_compute; reflexivity).
  assert (H2 : Str.no_space "tok2" = true) by reflexivity.
  assert (H3 : dealer_by_token "tok2" Sample.db_otp = None) by reflexivity.
  split; [exact H1|]. split; [exact H2|]. split; [exact H3|].
  exact (login_token_authenticates _ _ _ _ _ H1 H2 H3).
Defined.

(** After the first phone match has been given a new token, nobody holds the
    old one, provided phones are unique and only that phone held it. *)
Lemma old_token_gone (phone old new : string) (l : list Dealer.t) :
  NoDup (map Dealer.phone l) ->
  (forall d, In d l -> Dealer.auth_token d = Some old -> Dealer.phone d = phone) ->
  old <> new ->
  forall y,
    In y (update_first (fun d => String.eqb (Dealer.phone d) phone)
            (fun d => set_otp None None (set_auth_token (Some new) d)) l) ->
    Dealer.auth_token y <> Some old.
Proof.
  intros Hnd Hold Hneq. induction l as [|x r IH]; cbn; [tauto|].
  inversion Hnd as [|? ? Hx Hr]; subst.
  destruct (String.eqb_spec (Dealer.phone x) phone) as [Hp|Hp].
  - intros y [<-|Hy].
    + cbn. congruence.
    + intros Ht. apply Hx. rewrite Hp.
      rewrite <- (Hold y (or_intror Hy) Ht). now apply in_map.
  - intros y [<-|Hy].
    + intros Ht. apply Hp. apply Hold; [now left | exact Ht].
    + apply IH; [exact Hr | | exact Hy].
      intros d Hd. apply Hold. now right.
Qed.

(** X6: one live token per dealer.  With unique phone numbers, if the token
    [old] was held only under the phone that now logs in again, then after the
    new login the header [Bearer <old>] is refused with the 401 [Invalid
    token]. *)
Theorem relogin_invalidates_old_token request w db resp db' old :
  verify_otp request w db = (Return resp, db') ->
  phones_unique db ->
  (forall d, In d (dealers db) -> Dealer.auth_token d = Some old ->
             Dealer.phone d = VerifyOTPRequest.phone request) ->
  old <> AuthResponse.token resp ->
  Str.no_space old = true ->
  get_current_dealer (Some ("Bearer " ++ old)%string) db'
  = (Raise (HTTPException 401 (Msg "Invalid token")), db').
Proof.
  intros Hv Hnd Hold Hneq Hs.
  apply verify_otp_Return in Hv.
  destruct Hv as (d & e & _ & _ & _ & _ & -> & Hdealers & _).
  cbn [AuthResponse.token] in Hneq.
  rewrite (get_current_dealer_bearer _ _ Hs).
  unfold dealer_by_token. rewrite Hdealers, find_all_false; [reflexivity|].
  intros y Hy.
  pose proof (old_token_gone _ _ _ _ Hnd Hold Hneq y Hy) as Hne.
  destruct (Dealer.auth_token y) as [t|]; [|reflexivity]. cbn.
  destruct (String.eqb_spec t old); [congruence | reflexivity].
Qed.

Lemma relogin_invalidates_old_token_witness :
  verify_otp Sample.otp_request Sample.world Sample.db_otp
  = (Return (AuthResponse.mk "tok2"
               (set_auth_token (Some "tok2") Sample.dealer_otp)),
     mkDB [set_auth_token (Some "tok2") Sample.dealer]
       [Sample.opc43; Sample.opc43_25kg] [] [])
  /\ phones_unique Sample.db_otp
  /\ (forall d, In d (dealers Sample.db_otp) ->
                Dealer.auth_token d = Some "tok" ->
                Dealer.phone d = VerifyOTPRequest.phone Sample.otp_request)
  /\ "tok" <> "tok2"
  /\ Str.no_space "tok" = true
  /\ get_current_dealer (Some "Bearer tok")
       (mkDB [set_auth_token (Some "tok2") Sample.dealer]
          [Sample.opc43; Sample.opc43_25kg] [] [])
     = (Raise (HTTPException 401 (Msg "Invalid token")),
        mkDB [set_auth_token (Some "tok2") Sample.dealer]
          [Sample.opc43; Sample.opc43_25kg] [] []).
Proof.
  assert (H1 : verify_otp Sample.otp_request Sample.world Sample.db_otp
               = (Return (AuthResponse.mk "tok2"
                            (set_auth_token (Some "tok2") Sample.dealer_otp)),
                  mkDB [set_auth_token (Some "tok2") Sample.dealer]
                    [Sample.opc43; Sample.opc43_25kg] [] []))
    by (vm_compute; reflexivity).
  assert (H2 : phones_unique Sample.db_otp).
  { unfold phones_unique. cbn. constructor; [intros []|constructor]. }
  assert (H3 : forall d, In d (dealers Sample.db_otp) ->
                 Dealer.auth_token d = Some "tok" ->
                 Dealer.phone d = VerifyOTPRequest.phone Sample.otp_request).
  { intros d [<-|[]] _. reflexivity. }
  assert (H4 : "tok" <> "tok2") by discriminate.
  assert (H5 : Str.no_space "tok" = true) by reflexivity.
  split; [exact H1|]. split; [exact H2|]. split; [exact H3|].
  split; [exact H4|]. split; [exact H5|].
  exact (relogin_invalidates_old_token _ _ _ _ _ "tok" H1 H2 H3 H4 H5).
Defined.

Lemma replace_from_strip (s : string) :
  Str.replace_from "Bearer " "" 0 ("Bearer " ++ s)
  = Str.replace_from "Bearer " "" 0 s.
Proof.
  change ("Bearer " ++ s)%string
    with (String "B" (String "e" (String "a" (String "r" (String "e"
           (String "r" (String " " s))))))).
  cbn [Str.replace_from].
  change (String "B" (String "e" (String "a" (String "r" (String "e"
           (String "r" (String " " s)))))))
    with ("Bearer " ++ s)%string.
  rewrite prefix_app. reflexivity.
Qed.

(** X7: the header is stripped of every [Bearer ] it contains, not only of
    the leading one: repeating the prefix changes nothing, for any rest of the
    header. *)
Theorem get_current_dealer_repeated_prefix (rest : string) (db : DB) :
  get_current_dealer (Some ("Bearer " ++ "Bearer " ++ rest)%string) db
  = get_current_dealer (Some ("Bearer " ++ rest)%string) db.
Proof.
  unfold get_current_dealer.
  rewrite !bearer_header_accepted. unfold Str.replace.
  now rewrite !replace_from_strip.
Qed.

(** ** Cart routes *)

Lemma delete_first_none_app {A} (q : A -> bool) (l r : list A) :
  List.find q l = None ->
  delete_first q (l ++ r) = (l ++ delete_first q r)%list.
Proof.
  induction l as [|y l' IH]; cbn; [reflexivity|].
  destruct (q y); [discriminate|]. intros H. now rewrite IH.
Qed.

Lemma existsb_app_last {A} (q : A -> bool) (l : list A) (x : A) :
  q x = true -> existsb q (l ++ [x]) = true.
Proof.
  intros Hq. rewrite existsb_app. cbn. rewrite Hq. now rewrite orb_true_r.
Qed.

Lemma DB_eta (db : DB) :
  mkDB (dealers db) (products db) (cart_items db) (orders db) = db.
Proof. now destruct db. Qed.

(** X8: [add_to_cart] fails in two cases only, and writes nothing in either:
    a product id that is not in the catalog gives the 404 [Product not
    found]; a catalog product whose quantity to store does not fit the eight
    bytes of the driver gives [OverflowError]. *)
Theorem add_to_cart_failures item_data dealer w db :
  (catalog (CartItemCreate.product_id item_data) db = None ->
   add_to_cart item_data dealer w db
   = (Raise (HTTPException 404 (Msg "Product not found")), db))
  /\ (catalog (CartItemCreate.product_id item_data) db <> None ->
      fits_int64 (quantity_to_store item_data dealer db) = false ->
      add_to_cart item_data dealer w db = (Raise OverflowError, db))
  /\ (forall e db',
        add_to_cart item_data dealer w db = (Raise e, db') ->
        catalog (CartItemCreate.product_id item_data) db = None
        \/ fits_int64 (quantity_to_store item_data dealer db) = false).
Proof.
  unfold add_to_cart, bind, find_one, catalog, quantity_to_store, rows_for.
  cbn [docs db_products].
  destruct (List.find _ (products db)) as [p|].
  - cbn [docs db_cart_items].
    destruct (List.find _ (cart_items db)) as [existing|] eqn:He.
    + assert (Hhead : exists rest,
                filter (fun c => String.eqb (CartItem.dealer_id c) (Dealer.id dealer)
                                 && String.eqb (CartItem.product_id c)
                                      (CartItemCreate.product_id item_data))
                  (cart_items db) = existing :: rest).
      { clear -He. induction (cart_items db) as [|x l IH]; [discriminate|].
        cbn in He |- *. destruct (_ && _); [|auto].
        inversion He; subst. now eexists. }
      destruct Hhead as [rest Hhead]. rewrite Hhead.
      unfold encode_int.
      destruct (fits_int64 _) eqn:Hf.
      * split; [discriminate|]. split; [discriminate|]. discriminate.
      * split; [discriminate|]. split; [reflexivity|]. intros e db' _. now right.
    + rewrite (find_none_filter _ _ He). cbn [CartItem.quantity].
      unfold encode_int.
      destruct (fits_int64 _) eqn:Hf.
      * split; [discriminate|]. split; [discriminate|]. discriminate.
      * split; [discriminate|]. split; [reflexivity|]. intros e db' _. now right.
  - split; [reflexivity|]. split; [congruence|]. intros e db' _. now left.
Qed.

(** Both failures on an empty cart: a product that is not in the catalog, and
    a quantity of 2^63 of one that is. *)
Lemma add_to_cart_failures_witness :
  (catalog (CartItemCreate.product_id (CartItemCreate.mk "p-gone" 1))
     Sample.db_empty_cart = None
   /\ add_to_cart (CartItemCreate.mk "p-gone" 1) Sample.dealer Sample.world
        Sample.db_empty_cart
      = (Raise (HTTPException 404 (Msg "Product not found")),
         Sample.db_empty_cart))
  /\ (catalog (CartItemCreate.product_id (CartItemCreate.mk "p-opc43" (2 ^ 63)))
        Sample.db_empty_cart <> None
      /\ fits_int64
           (quantity_to_store (CartItemCreate.mk "p-opc43" (2 ^ 63))
              Sample.dealer Sample.db_empty_cart) = false
      /\ add_to_cart (CartItemCreate.mk "p-opc43" (2 ^ 63)) Sample.dealer
           Sample.world Sample.db_empty_cart
         = (Raise OverflowError, Sample.db_empty_cart)).
Proof.
  assert (H1 : catalog (CartItemCreate.product_id (CartItemCreate.mk "p-gone" 1))
                 Sample.db_empty_cart = None) by reflexivity.
  assert (H2 : catalog
                 (CartItemCreate.product_id (CartItemCreate.mk "p-opc43" (2 ^ 63)))
                 Sample.db_empty_cart <> None)
    by (vm_compute; discriminate).
  assert (H3 : fits_int64
                 (quantity_to_store (CartItemCreate.mk "p-opc43" (2 ^ 63))
                    Sample.dealer Sample.db_empty_cart) = false)
    by (vm_compute; reflexivity).
  split.
  - split; [exact H1|].
    exact (proj1 (add_to_cart_failures (CartItemCreate.mk "p-gone" 1)
                    Sample.dealer Sample.world Sample.db_empty_cart) H1).
  - split; [exact H2|]. split; [exact H3|].
    exact (proj1 (proj2 (add_to_cart_failures
                           (CartItemCreate.mk "p-opc43" (2 ^ 63))
                           Sample.dealer Sample.world Sample.db_empty_cart))
             H2 H3).
Defined.

(** X9: adding a product that was not in the cart, in a quantity the driver
    can store, and then removing the row that was returned puts the store back
    exactly as it was (the id drawn for the row being unused before). *)
Theorem add_then_remove_restores item_data dealer w db :
  catalog (CartItemCreate.product_id item_data) db <> None ->
  rows_for dealer (CartItemCreate.product_id item_data) db = [] ->
  row_with_id (uuid4 w) db = None ->
  fits_int64 (CartItemCreate.quantity item_data) = true ->
  exists r db1,
    add_to_cart item_data dealer w db = (Return r, db1)
    /\ In r (cart_of dealer db1)
    /\ remove_from_cart (CartItem.id r) dealer db1 = (Return tt, db).
Proof.
  intros Hprod Hrows Hfresh Hfits. unfold catalog in Hprod.
  destruct (List.find _ (products db)) as [p|] eqn:Hp; [clear Hprod|congruence].
  pose proof (filter_nil_find_none _ _ Hrows) as Hnone.
  do 2 eexists. split.
  { unfold add_to_cart, bind, find_one.
    cbn [docs db_products db_cart_items CartItem.quantity].
    rewrite Hp, Hnone, (encode_int_fits _ _ Hfits). reflexivity. }
  cbn [put db_cart_items docs]. split.
  { unfold cart_of. cbn [cart_items]. apply filter_In.
    split; [apply in_or_app; right; now left|]. cbn. apply String.eqb_refl. }
  unfold remove_from_cart, bind, delete_one, matched_count.
  cbn [docs put db_cart_items cart_items dealers products orders CartItem.id].
  assert (Hq : List.find
                 (fun c => String.eqb (CartItem.id c) (uuid4 w)
                           && String.eqb (CartItem.dealer_id c) (Dealer.id dealer))
                 (cart_items db) = None).
  { apply find_all_false. intros c Hc. unfold row_with_id in Hfresh.
    now rewrite (find_none _ _ Hfresh c Hc). }
  rewrite existsb_app_last; [|cbn; now rewrite !String.eqb_refl].
  rewrite (delete_first_none_app _ _ _ Hq).
  cbn [delete_first CartItem.id CartItem.dealer_id].
  rewrite !String.eqb_refl. cbn [andb Z.eqb]. rewrite app_nil_r.
  unfold ret. now rewrite DB_eta.
Qed.

Lemma add_then_remove_restores_witness :
  catalog (CartItemCreate.product_id (CartItemCreate.mk "p-opc43-25" 2))
    Fixture.db_two_dealers <> None
  /\ rows_for Sample.dealer
       (CartItemCreate.product_id (CartItemCreate.mk "p-opc43-25" 2))
       Fixture.db_two_dealers = []
  /\ row_with_id (uuid4 Sample.world) Fixture.db_two_dealers = None
  /\ fits_int64 (CartItemCreate.quantity (CartItemCreate.mk "p-opc43-25" 2))
     = true
  /\ exists r db1,
       add_to_cart (CartItemCreate.mk "p-opc43-25" 2) Sample.dealer Sample.world
         Fixture.db_two_dealers = (Return r, db1)
       /\ In r (cart_of Sample.dealer db1)
       /\ remove_from_cart (CartItem.id r) Sample.dealer db1
          = (Return tt, Fixture.db_two_dealers).
Proof.
  assert (H1 : catalog
                 (CartItemCreate.product_id (CartItemCreate.mk "p-opc43-25" 2))
                 Fixture.db_two_dealers <> None)
    by (vm_compute; discriminate).
  assert (H2 : rows_for Sample.dealer
                 (CartItemCreate.product_id (CartItemCreate.mk "p-opc43-25" 2))
                 Fixture.db_two_dealers = []) by reflexivity.
  assert (H3 : row_with_id (uuid4 Sample.world) Fixture.db_two_dealers = None)
    by reflexivity.
  assert (H4 : fits_int64
                 (CartItemCreate.quantity (CartItemCreate.mk "p-opc43-25" 2))
               = true) by reflexivity.
  split; [exact H1|]. split; [exact H2|]. split; [exact H3|].
  split; [exact H4|].
  exact (add_then_remove_restores _ Sample.dealer _ _ H1 H2 H3 H4).
Defined.

(** X10: a row that is not the caller's is out of reach.  When no cart row
    with the given id belongs to the dealer (there is none, or it is another
    dealer's), [update_cart_item] with a positive quantity that the driver can
    encode and [remove_from_cart] both raise the 404 [Cart item not found]
    and write nothing; with a positive quantity that it cannot encode,
    [update_cart_item] raises [OverflowError] and writes nothing either. *)
Theorem foreign_cart_row_out_of_reach item_id quantity dealer db :
  own_row item_id dealer db = None ->
  (0 < quantity)%Z ->
  update_cart_item item_id quantity dealer db
  = (Raise (if fits_int64 quantity
            then HTTPException 404 (Msg "Cart item not found")
            else OverflowError), db)
  /\ remove_from_cart item_id dealer db
     = (Raise (HTTPException 404 (Msg "Cart item not found")), db).
Proof.
  unfold own_row. intros Hnone Hq. split.
  - unfold update_cart_item.
    destruct (Z.leb_spec quantity 0) as [|_]; [lia|].
    unfold bind at 1. unfold encode_int.
    destruct (fits_int64 quantity); [|reflexivity].
    unfold bind, update_one, matched_count, ret. cbn [docs put db_cart_items].
    rewrite (existsb_find_none _ _ Hnone), (update_first_no_match _ _ _ Hnone).
    cbn. unfold raise. now rewrite DB_eta.
  - unfold remove_from_cart, bind, delete_one, matched_count.
    cbn [docs put db_cart_items].
    rewrite (existsb_find_none _ _ Hnone), (delete_first_no_match _ _ Hnone).
    cbn. unfold raise. now rewrite DB_eta.
Qed.

Lemma foreign_cart_row_out_of_reach_witness :
  (own_row "c9" Sample.dealer Fixture.db_two_dealers = None
   /\ (0 < 7)%Z
   /\ update_cart_item "c9" 7 Sample.dealer Fixture.db_two_dealers
      = (Raise (if fits_int64 7
                then HTTPException 404 (Msg "Cart item not found")
                else OverflowError), Fixture.db_two_dealers)
   /\ remove_from_cart "c9" Sample.dealer Fixture.db_two_dealers
      = (Raise (HTTPException 404 (Msg "Cart item not found")),
         Fixture.db_two_dealers))
  /\ (own_row "c9" Sample.dealer Fixture.db_two_dealers = None
      /\ (0 < 2 ^ 63)%Z
      /\ update_cart_item "c9" (2 ^ 63) Sample.dealer Fixture.db_two_dealers
         = (Raise (if fits_int64 (2 ^ 63)
                   then HTTPException 404 (Msg "Cart item not found")
                   else OverflowError), Fixture.db_two_dealers)
      /\ remove_from_cart "c9" Sample.dealer Fixture.db_two_dealers
         = (Raise (HTTPException 404 (Msg "Cart item not found")),
            Fixture.db_two_dealers)).
Proof.
  assert (H1 : own_row "c9" Sample.dealer Fixture.db_two_dealers = None)
    by reflexivity.
  assert (H2 : (0 < 7)%Z) by reflexivity.
  assert (H3 : (0 < 2 ^ 63)%Z) by reflexivity.
  split.
  - split; [exact H1|]. split; [exact H2|].
    exact (foreign_cart_row_out_of_reach _ _ _ _ H1 H2).
  - split; [exact H1|]. split; [exact H3|].
    exact (foreign_cart_row_out_of_reach _ _ _ _ H1 H3).
Defined.

(** Both outcomes on a row of another dealer: 404 for 7, [OverflowError] for
    2^63. *)
Example update_foreign_row :
  update_cart_item "c9" 7 Sample.dealer Fixture.db_two_dealers
  = (Raise (HTTPException 404 (Msg "Cart item not found")),
     Fixture.db_two_dealers)
  /\ update_cart_item "c9" (2 ^ 63) Sample.dealer Fixture.db_two_dealers
     = (Raise OverflowError, Fixture.db_two_dealers).
Proof. split; vm_compute; reflexivity. Qed.

Lemma update_first_split {A} (q : A -> bool) (f : A -> A) (l : list A) (x : A) :
  List.find q l = Some x ->
  exists pre post,
    l = (pre ++ x :: post)%list
    /\ Forall (fun y => q y = false) pre
    /\ update_first q f l = (pre ++ f x :: post)%list.
Proof.
  induction l as [|y r IH]; cbn; [discriminate|].
  destruct (q y) eqn:E.
  - inversion 1; subst. exists [], r. repeat split. constructor.
  - intros H. destruct (IH H) as (pre & post & -> & Hpre & Hu).
    exists (y :: pre), post. cbn. rewrite Hu. repeat split.
    now constructor.
Qed.

(** X11: a successful [update_cart_item] changes one row and only its
    quantity.  For a positive quantity that the driver can encode and a row of
    the caller with the given id, it returns, and the cart afterwards is the
    cart before with that row, the first with that id and owner, replaced by
    the same row carrying the new quantity; every other row, the dealers, the
    catalog and the orders are as they were. *)
Theorem update_cart_item_sets_quantity item_id quantity dealer db row :
  (0 < quantity)%Z ->
  fits_int64 quantity = true ->
  own_row item_id dealer db = Some row ->
  exists db' before after,
    update_cart_item item_id quantity dealer db = (Return tt, db')
    /\ cart_items db = (before ++ row :: after)%list
    /\ Forall (fun c => String.eqb (CartItem.id c) item_id
                        && String.eqb (CartItem.dealer_id c) (Dealer.id dealer)
                        = false) before
    /\ cart_items db' = (before ++ set_quantity quantity row :: after)%list
    /\ own_row item_id dealer db' = Some (set_quantity quantity row)
    /\ dealers db' = dealers db
    /\ products db' = products db
    /\ orders db' = orders db.
Proof.
  unfold own_row. intros Hq Hfits Hrow.
  destruct (update_first_split _ (set_quantity quantity) _ _ Hrow)
    as (before & after & Hsplit & Hbefore & Hupd).
  eexists. exists before, after. split.
  { unfold update_cart_item.
    destruct (Z.leb_spec quantity 0) as [|_]; [lia|].
    unfold bind at 1. rewrite (encode_int_fits _ _ Hfits).
    unfold bind, update_one, matched_count. cbn [docs put db_cart_items].
    rewrite (existsb_find_some _ _ _ Hrow). reflexivity. }
  cbn [cart_items dealers products orders].
  split; [exact Hsplit|]. split; [exact Hbefore|]. split; [exact Hupd|].
  split; [|repeat split].
  rewrite find_update_first; [now rewrite Hrow | intros x Hx; exact Hx].
Qed.

Lemma update_cart_item_sets_quantity_witness :
  (0 < 7)%Z
  /\ fits_int64 7 = true
  /\ own_row "c9" Fixture.ravi Fixture.db_two_dealers = Some Fixture.row_ravi
  /\ exists db' before after,
       update_cart_item "c9" 7 Fixture.ravi Fixture.db_two_dealers
       = (Return tt, db')
       /\ cart_items Fixture.db_two_dealers
          = (before ++ Fixture.row_ravi :: after)%list
       /\ Forall (fun c => String.eqb (CartItem.id c) "c9"
                           && String.eqb (CartItem.dealer_id c)
                                (Dealer.id Fixture.ravi) = false) before
       /\ cart_items db'
          = (before ++ set_quantity 7 Fixture.row_ravi :: after)%list
       /\ own_row "c9" Fixture.ravi db' = Some (set_quantity 7 Fixture.row_ravi)
       /\ dealers db' = dealers Fixture.db_two_dealers
       /\ products db' = products Fixture.db_two_dealers
       /\ orders db' = orders Fixture.db_two_dealers.
Proof.
  assert (H1 : (0 < 7)%Z) by reflexivity.
  assert (H2 : fits_int64 7 = true) by reflexivity.
  assert (H3 : own_row "c9" Fixture.ravi Fixture.db_two_dealers
               = Some Fixture.row_ravi) by reflexivity.
  split; [exact H1|]. split; [exact H2|]. split; [exact H3|].
  exact (update_cart_item_sets_quantity _ _ _ _ _ H1 H2 H3).
Defined.

(** ** Carts do not interfere *)

Section FilterFrames.
Context {A : Type}.
Implicit Types (q p : A -> bool) (f : A -> A) (l : list A).

Lemma filter_update_first_frame q p f l :
  (forall x, q x = true -> p x = false /\ p (f x) = false) ->
  filter p (update_first q f l) = filter p l.
Proof.
  intros H. induction l as [|x r IH]; cbn; [reflexivity|].
  destruct (q x) eqn:E; cbn.
  - destruct (H x E) as [-> ->]. reflexivity.
  - now rewrite IH.
Qed.

Lemma filter_delete_first_frame q p l :
  (forall x, q x = true -> p x = false) ->
  filter p (delete_first q l) = filter p l.
Proof.
  intros H. induction l as [|x r IH]; cbn; [reflexivity|].
  destruct (q x) eqn:E; cbn.
  - now rewrite (H x E).
  - now rewrite IH.
Qed.

Lemma filter_delete_many_frame q p l :
  (forall x, q x = true -> p x = false) ->
  filter p (filter (fun x => negb (q x)) l) = filter p l.
Proof.
  intros H. induction l as [|x r IH]; cbn; [reflexivity|].
  destruct (q x) eqn:E; cbn.
  - now rewrite (H x E).
  - now rewrite IH.
Qed.

Lemma filter_delete_many_idem q l :
  filter (fun x => negb (q x)) (filter (fun x => negb (q x)) l)
  = filter (fun x => negb (q x)) l.
Proof.
  induction l as [|x r IH]; cbn; [reflexivity|].
  destruct (q x) eqn:E; cbn; [exact IH|]. now rewrite E, IH.
Qed.

Lemma Forall_update_first (P : A -> Prop) q f l :
  (forall x, P (f x)) -> Forall P l -> Forall P (update_first q f l).
Proof.
  intros Hf. induction 1 as [|x r Hx Hr IH]; cbn; [constructor|].
  destruct (q x); constructor; auto.
Qed.

Lemma Forall_delete_first (P : A -> Prop) q l :
  Forall P l -> Forall P (delete_first q l).
Proof.
  induction 1 as [|x r Hx Hr IH]; cbn; [constructor|].
  destruct (q x); [exact Hr | now constructor].
Qed.

Lemma Forall_filter (P : A -> Prop) q l : Forall P l -> Forall P (filter q l).
Proof.
  induction 1 as [|x r Hx Hr IH]; cbn; [constructor|].
  destruct (q x); [now constructor | exact IH].
Qed.
End FilterFrames.

Lemma other_dealer_row (dealer other : Dealer.t) (c : CartItem.t) :
  Dealer.id other <> Dealer.id dealer ->
  String.eqb (CartItem.dealer_id c) (Dealer.id dealer) = true ->
  String.eqb (CartItem.dealer_id c) (Dealer.id other) = false.
Proof.
  intros Hne Hc. apply String.eqb_eq in Hc.
  destruct (String.eqb_spec (CartItem.dealer_id c) (Dealer.id other));
    [congruence | reflexivity].
Qed.

(** [create_order] writes only after its last check: whenever it raises, the
    store is as it was. *)
Lemma create_order_Raise order_data dealer w db e db' :
  create_order order_data dealer w db = (Raise e, db') -> db' = db.
Proof.
  read_cart dealer db.
  destruct (firstn 1000 (cart_of dealer db)) as [|c rest].
  - cbv [raise]. now inversion 1.
  - unfold bind at 1.
    destruct (create_order_loop (c :: rest) [] 0%float db) as [[built|e1] db1]
      eqn:Hloop.
    + pose proof (create_order_loop_reads _ _ _ _ _ _ Hloop) as ->.
      destruct (OrderCreate.payment_method order_data);
        unfold bind; cbn -[Py.gt].
      * discriminate.
      * destruct (Py.gt _ _); cbn; [now inversion 1 | discriminate].
    + apply create_order_loop_reads in Hloop. intros H. inversion H. congruence.
Qed.

(** X12: the cart routes of one dealer never touch the cart of another:
    whatever [update_cart_item], [remove_from_cart], [clear_cart] and
    [create_order] do for a dealer, and whether they return or raise, the
    cart of every dealer with a different id is the same afterwards. *)
Theorem other_carts_untouched dealer other db :
  Dealer.id other <> Dealer.id dealer ->
  (forall item_id quantity,
     cart_of other (snd (update_cart_item item_id quantity dealer db))
     = cart_of other db)
  /\ (forall item_id,
        cart_of other (snd (remove_from_cart item_id dealer db))
        = cart_of other db)
  /\ cart_of other (snd (clear_cart dealer db)) = cart_of other db
  /\ (forall order_data w,
        cart_of other (snd (create_order order_data dealer w db))
        = cart_of other db).
Proof.
  intros Hne. unfold cart_of. repeat split.
  - intros item_id quantity. unfold update_cart_item.
    destruct (quantity <=? 0)%Z; [reflexivity|].
    unfold bind at 1. unfold encode_int.
    destruct (fits_int64 quantity); [|reflexivity].
    unfold bind, update_one, ret at 1. cbn [docs put db_cart_items].
    destruct (matched_count _ _ =? 0)%Z; cbn [snd raise ret cart_items];
      apply filter_update_first_frame; intros x Hx;
      apply andb_true_iff in Hx; destruct Hx as [_ Hx];
      split; apply (other_dealer_row dealer); assumption.
  - intros item_id. unfold remove_from_cart, bind, delete_one.
    cbn [docs put db_cart_items].
    destruct (matched_count _ _ =? 0)%Z; cbn [snd raise ret cart_items];
      apply filter_delete_first_frame; intros x Hx;
      apply andb_true_iff in Hx; destruct Hx as [_ Hx];
      apply (other_dealer_row dealer); assumption.
  - unfold clear_cart, delete_many. cbn [snd docs put db_cart_items cart_items].
    apply filter_delete_many_frame. intros x Hx.
    apply (other_dealer_row dealer); assumption.
  - intros order_data w.
    destruct (create_order order_data dealer w db) as [[o|e] db'] eqn:H;
      cbn [snd].
    + apply create_order_Return in H.
      destruct H as (_ & _ & _ & _ & _ & _ & _ & _ & Hc & _). rewrite Hc.
      apply filter_delete_many_frame. intros x Hx.
      apply (other_dealer_row dealer); assumption.
    + now rewrite (create_order_Raise _ _ _ _ _ _ H).
Qed.

Lemma other_carts_untouched_witness :
  Dealer.id Fixture.ravi <> Dealer.id Sample.dealer
  /\ (forall item_id quantity,
        cart_of Fixture.ravi
          (snd (update_cart_item item_id quantity Sample.dealer
                  Fixture.db_two_dealers))
        = cart_of Fixture.ravi Fixture.db_two_dealers)
  /\ (forall item_id,
        cart_of Fixture.ravi
          (snd (remove_from_cart item_id Sample.dealer Fixture.db_two_dealers))
        = cart_of Fixture.ravi Fixture.db_two_dealers)
  /\ cart_of Fixture.ravi (snd (clear_cart Sample.dealer Fixture.db_two_dealers))
     = cart_of Fixture.ravi Fixture.db_two_dealers
  /\ (forall order_data w,
        cart_of Fixture.ravi
          (snd (create_order order_data Sample.dealer w Fixture.db_two_dealers))
        = cart_of Fixture.ravi Fixture.db_two_dealers).
Proof.
  assert (H1 : Dealer.id Fixture.ravi <> Dealer.id Sample.dealer)
    by discriminate.
  split; [exact H1|].
  exact (other_carts_untouched Sample.dealer Fixture.ravi
           Fixture.db_two_dealers H1).
Defined.

(** X13: once every cart row has a quantity of at least one,
    [update_cart_item], [remove_from_cart], [clear_cart] and [create_order]
    keep it so, whatever their arguments and outcome. *)
Theorem quantities_stay_positive dealer db :
  quantities_positive db ->
  (forall item_id quantity,
     quantities_positive (snd (update_cart_item item_id quantity dealer db)))
  /\ (forall item_id,
        quantities_positive (snd (remove_from_cart item_id dealer db)))
  /\ quantities_positive (snd (clear_cart dealer db))
  /\ (forall order_data w,
        quantities_positive (snd (create_order order_data dealer w db))).
Proof.
  unfold quantities_positive. intros Hpos. repeat split.
  - intros item_id quantity. unfold update_cart_item.
    destruct (Z.leb_spec quantity 0) as [|Hq]; [exact Hpos|].
    unfold bind at 1. unfold encode_int.
    destruct (fits_int64 quantity); [|exact Hpos].
    unfold bind, update_one, ret at 1. cbn [docs put db_cart_items].
    destruct (matched_count _ _ =? 0)%Z; cbn [snd raise ret cart_items];
      (apply Forall_update_first; [intros x; cbn; lia | exact Hpos]).
  - intros item_id. unfold remove_from_cart, bind, delete_one.
    cbn [docs put db_cart_items].
    destruct (matched_count _ _ =? 0)%Z; cbn [snd raise ret cart_items];
      apply Forall_delete_first; exact Hpos.
  - unfold clear_cart, delete_many. cbn [snd docs put db_cart_items cart_items].
    apply Forall_filter. exact Hpos.
  - intros order_data w.
    destruct (create_order order_data dealer w db) as [[o|e] db'] eqn:H;
      cbn [snd].
    + apply create_order_Return in H.
      destruct H as (_ & _ & _ & _ & _ & _ & _ & _ & Hc & _). rewrite Hc.
      apply Forall_filter. exact Hpos.
    + now rewrite (create_order_Raise _ _ _ _ _ _ H).
Qed.

Lemma quantities_stay_positive_witness :
  quantities_positive Fixture.db_two_dealers
  /\ (forall item_id quantity,
        quantities_positive
          (snd (update_cart_item item_id quantity Sample.dealer
                  Fixture.db_two_dealers)))
  /\ (forall item_id,
        quantities_positive
          (snd (remove_from_cart item_id Sample.dealer Fixture.db_two_dealers)))
  /\ quantities_positive (snd (clear_cart Sample.dealer Fixture.db_two_dealers))
  /\ (forall order_data w,
        quantities_positive
          (snd (create_order order_data Sample.dealer w Fixture.db_two_dealers))).
Proof.
  assert (H1 : quantities_positive Fixture.db_two_dealers).
  { unfold quantities_positive. cbn. repeat constructor; discriminate. }
  split; [exact H1|].
  exact (quantities_stay_positive Sample.dealer Fixture.db_two_dealers H1).
Defined.

(** ** The cart view and checkout *)

Lemma get_cart_loop_reads cart :
  forall acc db r db', get_cart_loop cart acc db = (r, db') -> db' = db.
Proof.
  induction cart as [|item rest IH]; intros acc db r db' H.
  - cbv [get_cart_loop ret] in H. now inversion H.
  - cbn [get_cart_loop] in H. unfold bind at 1 in H. cbn [find_one] in H.
    destruct (List.find _ (docs db_products db)) as [p|].
    + destruct (Py.mul_float_int _ _).
      * now apply IH in H.
      * cbv [raise] in H. now inversion H.
    + now apply IH in H.
Qed.

Lemma get_cart_loop_returns cart :
  forall acc db view db',
    get_cart_loop cart acc db = (Return view, db') ->
    exists new,
      view = (acc ++ new)%list /\
      Forall2 (line_of db) (filter (resolves db) cart) new.
Proof.
  induction cart as [|item rest IH]; intros acc db view db' H.
  - cbv [get_cart_loop ret] in H. inversion H; subst.
    exists []. rewrite app_nil_r. split; [reflexivity | constructor].
  - cbn [get_cart_loop] in H. unfold bind at 1 in H. cbn [find_one] in H.
    cbn [filter]. unfold resolves at 1, catalog.
    change (docs db_products db) with (products db) in H.
    destruct (List.find _ (products db)) as [p|] eqn:Hp.
    + destruct (Py.mul_float_int _ _) as [sub|] eqn:Hs.
      * apply IH in H. destruct H as (new & Hi & Hf).
        eexists (_ :: new). rewrite <- app_assoc in Hi. split; [exact Hi|].
        constructor; [|exact Hf].
        unfold line_of, catalog. cbn. rewrite Hp. repeat split. exact Hs.
      * cbv [raise] in H. discriminate.
    + apply IH in H. exact H.
Qed.

Lemma Forall2_join {A B C} (R : A -> B -> Prop) (S : A -> C -> Prop)
    (T : B -> C -> Prop) (l : list A) (bs : list B) (cs : list C) :
  (forall a b c, R a b -> S a c -> T b c) ->
  Forall2 R l bs -> Forall2 S l cs -> Forall2 T bs cs.
Proof.
  intros H HR. revert cs. induction HR as [|a b l bs Hab _ IH]; intros cs HS.
  - inversion HS. constructor.
  - inversion HS as [|? c ? cs' Hac HS']; subst. constructor; eauto.
Qed.

(** X14: what the cart view shows is what checkout orders.  On the same
    store, if [get_cart] returns [view] and [create_order] returns an order,
    the order has one item per line of the view, in the same order, with the
    same product, name, quantity, unit price and subtotal, and the order total
    is the float sum of the view's subtotals; [get_cart] itself writes
    nothing. *)
Theorem cart_view_is_what_is_ordered order_data dealer w db view db1 o db' :
  get_cart dealer db = (Return view, db1) ->
  create_order order_data dealer w db = (Return o, db') ->
  db1 = db
  /\ Forall2 same_line view (Order.items o)
  /\ Order.total_amount o
     = fold_left add (map CartItemWithProduct.subtotal view) 0%float.
Proof.
  intros Hview Horder.
  unfold get_cart, bind in Hview. cbn [find_to_list] in Hview.
  change (filter _ (docs db_cart_items db)) with (cart_of dealer db) in Hview.
  pose proof (get_cart_loop_reads _ _ _ _ _ Hview) as ->.
  apply get_cart_loop_returns in Hview.
  destruct Hview as (lines & Hv & Hlines). cbn [app] in Hv. subst lines.
  apply create_order_Return in Horder.
  destruct Horder as (items & total & _ & Hloop & _ & Ho & _).
  apply create_order_loop_returns in Hloop.
  destruct Hloop as (new & Hi & Hsnap & Ht). cbn [app] in Hi. subst new.
  replace (Order.items o) with items by now rewrite Ho.
  replace (Order.total_amount o) with total by now rewrite Ho.
  assert (Hsame : Forall2 same_line view items).
  { apply (Forall2_join (line_of db) (snapshot_of db) same_line
             (filter (resolves db) (firstn 1000 (cart_of dealer db))));
      [|exact Hlines|exact Hsnap].
    intros row line it (Hc & _ & Hq & Hsub) (p & Hc' & Hid & Hname & Hq' & Hp & Hsub').
    rewrite Hc in Hc'. inversion Hc'; subst p.
    assert (Hpid : Product.id (CartItemWithProduct.product line)
                   = CartItem.product_id row).
    { unfold catalog in Hc. apply find_some in Hc. destruct Hc as [_ Hc].
      now apply String.eqb_eq in Hc. }
    unfold same_line. rewrite Hid, Hpid, Hname, Hq', Hq, Hp.
    repeat split. congruence. }
  split; [reflexivity|]. split; [exact Hsame|].
  rewrite Ht. f_equal.
  clear -Hsame. induction Hsame as [|line it ls its Hl _ IH]; [reflexivity|].
  cbn [map]. destruct Hl as (_ & _ & _ & _ & ->). now rewrite IH.
Qed.

Lemma cart_view_is_what_is_ordered_witness :
  get_cart Sample.dealer Sample.db_one_gone
  = (Return [CartItemWithProduct.mk "c1" Sample.opc43 10 3500],
     Sample.db_one_gone)
  /\ create_order Sample.by_account Sample.dealer Sample.world Sample.db_one_gone
     = (Return Sample.order_3500, Sample.db_one_gone_after)
  /\ Sample.db_one_gone = Sample.db_one_gone
  /\ Forall2 same_line [CartItemWithProduct.mk "c1" Sample.opc43 10 3500]
       (Order.items Sample.order_3500)
  /\ Order.total_amount Sample.order_3500
     = fold_left add
         (map CartItemWithProduct.subtotal
            [CartItemWithProduct.mk "c1" Sample.opc43 10 3500]) 0%float.
Proof.
  assert (H1 : get_cart Sample.dealer Sample.db_one_gone
               = (Return [CartItemWithProduct.mk "c1" Sample.opc43 10 3500],
                  Sample.db_one_gone)) by (vm_compute; reflexivity).
  assert (H2 : create_order Sample.by_account Sample.dealer Sample.world
                 Sample.db_one_gone
               = (Return Sample.order_3500, Sample.db_one_gone_after))
    by (vm_compute; reflexivity).
  split; [exact H1|]. split; [exact H2|].
  exact (cart_view_is_what_is_ordered _ _ _ _ _ _ _ _ H1 H2).
Defined.

(** ** More on checkout *)

Lemma create_order_nothing_read order_data dealer w db :
  firstn 1000 (cart_of dealer db) = [] ->
  create_order order_data dealer w db
  = (Raise (HTTPException 400 (Msg "Cart is empty")), db).
Proof. intros H. read_cart dealer db. now rewrite H. Qed.

(** X15: [clear_cart] never fails and is idempotent: it empties the dealer's
    cart, a second call changes nothing more, and a checkout that follows is
    refused with [Cart is empty]. *)
Theorem clear_cart_idempotent dealer db :
  exists db1,
    clear_cart dealer db = (Return tt, db1)
    /\ cart_of dealer db1 = []
    /\ clear_cart dealer db1 = (Return tt, db1)
    /\ forall order_data w,
         create_order order_data dealer w db1
         = (Raise (HTTPException 400 (Msg "Cart is empty")), db1).
Proof.
  eexists. split; [reflexivity|].
  assert (Hempty :
    cart_of dealer
      (put db_cart_items
         (filter (fun x => negb (String.eqb (CartItem.dealer_id x) (Dealer.id dealer)))
            (docs db_cart_items db)) db) = []).
  { unfold cart_of. cbn [put docs db_cart_items cart_items].
    apply filter_after_delete_many. }
  split; [exact Hempty|]. split.
  - unfold clear_cart, delete_many.
    cbn [put docs db_cart_items cart_items dealers products orders].
    now rewrite (filter_delete_many_idem
                   (fun c => String.eqb (CartItem.dealer_id c) (Dealer.id dealer))).
  - intros order_data w. apply create_order_nothing_read. now rewrite Hempty.
Qed.

(** X16: [create_order] is all or nothing.  It can fail in three ways only,
    [Cart is empty], a quantity too large to multiply, and, on account,
    insufficient credit; and whenever it fails it has written nothing. *)
Theorem create_order_all_or_nothing order_data dealer w db e db' :
  create_order order_data dealer w db = (Raise e, db') ->
  db' = db
  /\ (e = HTTPException 400 (Msg "Cart is empty")
      \/ e = OverflowError
      \/ (OrderCreate.payment_method order_data = PaymentMethod.ACCOUNT
          /\ exists total,
               e = HTTPException 400
                     (InsufficientCredit
                        (Dealer.credit_limit dealer
                         - Dealer.outstanding_balance dealer)%float total))).
Proof.
  intros H. split; [exact (create_order_Raise _ _ _ _ _ _ H)|].
  revert H. read_cart dealer db.
  destruct (firstn 1000 (cart_of dealer db)) as [|c rest].
  - cbv [raise]. intros H. inversion H. now left.
  - unfold bind at 1.
    destruct (create_order_loop (c :: rest) [] 0%float db) as [[built|e1] db1]
      eqn:Hloop.
    + destruct (OrderCreate.payment_method order_data);
        unfold bind; cbn -[Py.gt].
      * discriminate.
      * destruct (Py.gt _ _); cbn; [|discriminate].
        intros H. inversion H. right. right. split; [reflexivity|].
        now exists (snd built).
    + intros H. inversion H; subst. right. left.
      clear -Hloop. revert Hloop. generalize (@nil OrderItem.t) 0%float.
      induction (c :: rest) as [|item l IH]; intros acc t.
      * cbv [create_order_loop ret]. discriminate.
      * cbn [create_order_loop]. unfold bind at 1. cbn [find_one].
        destruct (List.find _ (docs db_products db)) as [p|].
        -- destruct (Py.mul_float_int _ _); [apply IH|].
           cbv [raise]. now inversion 1.
        -- apply IH.
Qed.

Lemma create_order_all_or_nothing_witness :
  create_order Sample.by_account Sample.dealer_99000 Sample.world Sample.db_99000
  = (Raise (HTTPException 400 (InsufficientCredit 1000 3500)), Sample.db_99000)
  /\ Sample.db_99000 = Sample.db_99000
  /\ (HTTPException 400 (InsufficientCredit 1000 3500)
      = HTTPException 400 (Msg "Cart is empty")
      \/ HTTPException 400 (InsufficientCredit 1000 3500) = OverflowError
      \/ (OrderCreate.payment_method Sample.by_account = PaymentMethod.ACCOUNT
          /\ exists total,
               HTTPException 400 (InsufficientCredit 1000 3500)
               = HTTPException 400
                   (InsufficientCredit
                      (Dealer.credit_limit Sample.dealer_99000
                       - Dealer.outstanding_balance Sample.dealer_99000)%float
                      total))).
Proof.
  assert (H1 : create_order Sample.by_account Sample.dealer_99000 Sample.world
                 Sample.db_99000
               = (Raise (HTTPException 400 (InsufficientCredit 1000 3500)),
                  Sample.db_99000)) by (vm_compute; reflexivity).
  split; [exact H1|].
  exact (create_order_all_or_nothing _ _ _ _ _ _ H1).
Defined.

(** X17: an order cannot be placed twice.  After a successful checkout every
    further [create_order] of the same dealer, whatever the payment method, is
    refused with [Cart is empty] and writes nothing. *)
Theorem create_order_twice order_data dealer w db o db' :
  create_order order_data dealer w db = (Return o, db') ->
  forall order_data' w',
    create_order order_data' dealer w' db'
    = (Raise (HTTPException 400 (Msg "Cart is empty")), db').
Proof.
  intros H order_data' w'. apply create_order_Return in H.
  destruct H as (_ & _ & _ & _ & _ & _ & _ & _ & Hc & _).
  apply create_order_nothing_read. unfold cart_of. rewrite Hc.
  now rewrite filter_after_delete_many.
Qed.

Lemma create_order_twice_witness :
  create_order Sample.by_account Sample.dealer Sample.world Sample.db_3500
  = (Return Sample.order_3500, Sample.db_3500_after)
  /\ forall order_data' w',
       create_order order_data' Sample.dealer w' Sample.db_3500_after
       = (Raise (HTTPException 400 (Msg "Cart is empty")), Sample.db_3500_after).
Proof.
  assert (H1 : create_order Sample.by_account Sample.dealer Sample.world
                 Sample.db_3500
               = (Return Sample.order_3500, Sample.db_3500_after))
    by (vm_compute; reflexivity).
  split; [exact H1|].
  exact (create_order_twice _ _ _ _ _ _ H1).
Defined.

Lemma filter_update_first_same {A} (q p : A -> bool) (f : A -> A) (l : list A) :
  (forall x, q x = true -> p x = false) ->
  (forall x, p (f x) = p x) ->
  filter p (update_first q f l) = filter p l.
Proof.
  intros H1 H2. apply filter_update_first_frame. intros x Hx.
  split; [auto|]. rewrite H2. auto.
Qed.

(** X18: what checkout leaves alone.  Whatever its outcome, [create_order]
    never changes the catalog (no stock is taken), never changes a dealer
    document with another id, and changes no dealer document at all when the
    payment is cash on delivery. *)
Theorem create_order_frame order_data dealer w db :
  products (snd (create_order order_data dealer w db)) = products db
  /\ filter (fun d => negb (String.eqb (Dealer.id d) (Dealer.id dealer)))
       (dealers (snd (create_order order_data dealer w db)))
     = filter (fun d => negb (String.eqb (Dealer.id d) (Dealer.id dealer)))
         (dealers db)
  /\ (OrderCreate.payment_method order_data = PaymentMethod.COD ->
      dealers (snd (create_order order_data dealer w db)) = dealers db).
Proof.
  destruct (create_order order_data dealer w db) as [[o|e] db'] eqn:H; cbn [snd].
  - apply create_order_Return in H.
    destruct H as (items & total & _ & _ & _ & _ & Hd & Hp & _).
    split; [exact Hp|]. rewrite Hd.
    destruct (OrderCreate.payment_method order_data).
    + split; [reflexivity|]. reflexivity.
    + split; [|discriminate].
      apply filter_update_first_same.
      * intros x Hx. now rewrite Hx.
      * intros x. reflexivity.
  - rewrite (create_order_Raise _ _ _ _ _ _ H). repeat split.
Qed.

(** ** Reading orders *)

(** X19: [get_order] only ever hands out the caller's own order: what it
    returns is a stored order with the requested id whose [dealer_id] is the
    caller's id, and the store is not written. *)
Theorem get_order_own_only order_id dealer db o db' :
  get_order order_id dealer db = (Return o, db') ->
  db' = db
  /\ In o (orders db)
  /\ Order.id o = order_id
  /\ Order.dealer_id o = Dealer.id dealer.
Proof.
  unfold get_order, bind, find_one. cbn [docs db_orders].
  destruct (List.find _ (orders db)) as [x|] eqn:Hx; [|discriminate].
  intros H. inversion H; subst; clear H.
  apply find_some in Hx. destruct Hx as [Hin Hq].
  apply andb_true_iff in Hq. destruct Hq as [Hid Hd].
  apply String.eqb_eq in Hid, Hd. auto.
Qed.

Lemma get_order_own_only_witness :
  get_order "u1" Sample.dealer Sample.db_3500_after
  = (Return Sample.order_3500, Sample.db_3500_after)
  /\ Sample.db_3500_after = Sample.db_3500_after
  /\ In Sample.order_3500 (orders Sample.db_3500_after)
  /\ Order.id Sample.order_3500 = "u1"
  /\ Order.dealer_id Sample.order_3500 = Dealer.id Sample.dealer.
Proof.
  assert (H1 : get_order "u1" Sample.dealer Sample.db_3500_after
               = (Return Sample.order_3500, Sample.db_3500_after))
    by reflexivity.
  split; [exact H1|].
  exact (get_order_own_only _ _ _ _ _ H1).
Defined.

(** X20: an order that was just placed can be read back by the dealer who
    placed it, under the id it was given, provided that dealer had no order
    with that id before; a dealer with another id gets the 404 [Order not
    found] unless an order with that id was already stored for them. *)
Theorem create_then_get_order order_data dealer w db o db' :
  create_order order_data dealer w db = (Return o, db') ->
  order_of (uuid4 w) dealer db = None ->
  get_order (Order.id o) dealer db' = (Return o, db')
  /\ forall other,
       Dealer.id other <> Dealer.id dealer ->
       order_of (uuid4 w) other db = None ->
       get_order (Order.id o) other db'
       = (Raise (HTTPException 404 (Msg "Order not found")), db').
Proof.
  intros H Hfresh. apply create_order_Return in H.
  destruct H as (items & total & _ & _ & _ & Ho & _ & _ & _ & Hos).
  assert (Hid : Order.id o = uuid4 w) by now rewrite Ho.
  assert (Hdid : Order.dealer_id o = Dealer.id dealer) by now rewrite Ho.
  unfold get_order, bind, find_one, order_of in *. cbn [docs db_orders].
  rewrite Hos, Hid. split.
  - rewrite (find_none_app _ _ o Hfresh), Hid, Hdid, !String.eqb_refl.
    reflexivity.
  - intros other Hne Hfresh'.
    rewrite (find_none_app _ _ o Hfresh'), Hid, Hdid, String.eqb_refl.
    destruct (String.eqb_spec (Dealer.id dealer) (Dealer.id other));
      [congruence | reflexivity].
Qed.

Lemma create_then_get_order_witness :
  create_order Sample.by_account Sample.dealer Sample.world Sample.db_3500
  = (Return Sample.order_3500, Sample.db_3500_after)
  /\ order_of (uuid4 Sample.world) Sample.dealer Sample.db_3500 = None
  /\ get_order (Order.id Sample.order_3500) Sample.dealer Sample.db_3500_after
     = (Return Sample.order_3500, Sample.db_3500_after)
  /\ forall other,
       Dealer.id other <> Dealer.id Sample.dealer ->
       order_of (uuid4 Sample.world) other Sample.db_3500 = None ->
       get_order (Order.id Sample.order_3500) other Sample.db_3500_after
       = (Raise (HTTPException 404 (Msg "Order not found")),
          Sample.db_3500_after).
Proof.
  assert (H1 : create_order Sample.by_account Sample.dealer Sample.world
                 Sample.db_3500
               = (Return Sample.order_3500, Sample.db_3500_after))
    by (vm_compute; reflexivity).
  assert (H2 : order_of (uuid4 Sample.world) Sample.dealer Sample.db_3500 = None)
    by reflexivity.
  split; [exact H1|]. split; [exact H2|].
  exact (create_then_get_order _ _ _ _ _ _ H1 H2).
Defined.

(** ** From the cart to the balance *)

Lemma filter_nil_and {A} (a b : A -> bool) (l : list A) :
  filter a l = [] -> filter (fun x => a x && b x) l = [].
Proof.
  induction l as [|x r IH]; cbn; [reflexivity|].
  destruct (a x); [discriminate|]. exact IH.
Qed.

(** X21: one line, one charge.  For a stored dealer with an empty cart,
    adding a quantity of a catalog product and checking out on account
    succeeds whenever the charge [0.0 + price * float(quantity)] does not
    exceed the available credit; the order total is that charge, it is added
    to the stored balance, and the cart is empty again.  The quantity may be
    any integer that the driver can store: a negative one gives a negative
    charge and lowers the balance. *)
Theorem add_then_checkout_charges dealer product_id quantity address notes
    w1 w2 db p fq :
  stored_dealer (Dealer.id dealer) db = Some dealer ->
  cart_of dealer db = [] ->
  catalog product_id db = Some p ->
  fits_int64 quantity = true ->
  Py.float_of_int quantity = Some fq ->
  Py.gt (0 + Product.price p * fq)%float
    (Dealer.credit_limit dealer - Dealer.outstanding_balance dealer)%float
  = false ->
  exists r db1 o db2,
    add_to_cart (CartItemCreate.mk product_id quantity) dealer w1 db
    = (Return r, db1)
    /\ create_order (OrderCreate.mk PaymentMethod.ACCOUNT address notes)
         dealer w2 db1 = (Return o, db2)
    /\ Order.total_amount o = (0 + Product.price p * fq)%float
    /\ stored_dealer (Dealer.id dealer) db2
       = Some (set_outstanding_balance
                 (Dealer.outstanding_balance dealer
                  + (0 + Product.price p * fq))%float dealer)
    /\ cart_of dealer db2 = [].
Proof.
  intros Hstored Hcart Hp Hfits Hfq Hgt.
  set (new := CartItem.mk (uuid4 w1) (Dealer.id dealer) product_id quantity
                (now w1)).
  set (db1 := put db_cart_items (cart_items db ++ [new]) db).
  assert (Hadd : add_to_cart (CartItemCreate.mk product_id quantity) dealer w1 db
                 = (Return new, db1)).
  { unfold add_to_cart, bind, find_one.
    cbn [docs db_products db_cart_items CartItemCreate.product_id
         CartItemCreate.quantity CartItem.quantity].
    unfold catalog in Hp. rewrite Hp.
    unfold cart_of in Hcart.
    rewrite (filter_nil_find_none _ _ (filter_nil_and _ _ _ Hcart)).
    rewrite (encode_int_fits _ _ Hfits). reflexivity. }
  assert (Hcart1 : cart_of dealer db1 = [new]).
  { unfold cart_of in *. cbn [db1 put db_cart_items cart_items].
    rewrite filter_app, Hcart. cbn. now rewrite String.eqb_refl. }
  assert (Hloop : create_order_loop (firstn 1000 (cart_of dealer db1)) [] 0%float db1
                  = (Return ([OrderItem.mk (Product.id p) (Product.name p)
                                quantity (Product.price p)
                                (Product.price p * fq)%float],
                             (0 + Product.price p * fq)%float), db1)).
  { rewrite Hcart1. cbn [firstn create_order_loop]. unfold bind, find_one.
    cbn [docs db_products db1 put db_cart_items products new
         CartItem.product_id CartItem.quantity].
    unfold catalog in Hp. rewrite Hp. unfold Py.mul_float_int. rewrite Hfq.
    reflexivity. }
  destruct (create_order_returns
              (OrderCreate.mk PaymentMethod.ACCOUNT address notes) dealer w2 db1
              _ _ ltac:(rewrite Hcart1; discriminate) Hloop (fun _ => Hgt))
    as (o & db2 & Horder).
  exists new, db1, o, db2. split; [exact Hadd|]. split; [exact Horder|].
  apply create_order_Return in Horder.
  destruct Horder as (items & total & _ & Hloop' & _ & Ho & Hd & _ & Hc & _).
  rewrite Hloop in Hloop'. inversion Hloop'; subst items total; clear Hloop'.
  cbn [OrderCreate.payment_method] in Hd.
  split; [now rewrite Ho|]. split.
  - unfold stored_dealer in *. rewrite Hd.
    cbn [db1 put db_cart_items dealers].
    rewrite find_update_first; [now rewrite Hstored | intros x Hx; exact Hx].
  - unfold cart_of. rewrite Hc. apply filter_after_delete_many.
Qed.

Lemma add_then_checkout_charges_witness :
  stored_dealer (Dealer.id (set_outstanding_balance 3500 Sample.dealer))
    Sample.db_3500_after = Some (set_outstanding_balance 3500 Sample.dealer)
  /\ cart_of (set_outstanding_balance 3500 Sample.dealer) Sample.db_3500_after
     = []
  /\ catalog "p-opc43" Sample.db_3500_after = Some Sample.opc43
  /\ fits_int64 (-10) = true
  /\ Py.float_of_int (-10) = Some (-10)%float
  /\ Py.gt (0 + Product.price Sample.opc43 * (-10))%float
       (Dealer.credit_limit (set_outstanding_balance 3500 Sample.dealer)
        - Dealer.outstanding_balance
            (set_outstanding_balance 3500 Sample.dealer))%float = false
  /\ exists r db1 o db2,
       add_to_cart (CartItemCreate.mk "p-opc43" (-10))
         (set_outstanding_balance 3500 Sample.dealer) Sample.world2
         Sample.db_3500_after = (Return r, db1)
       /\ create_order (OrderCreate.mk PaymentMethod.ACCOUNT "Pune" None)
            (set_outstanding_balance 3500 Sample.dealer) Fixture.world3 db1
          = (Return o, db2)
       /\ Order.total_amount o
          = (0 + Product.price Sample.opc43 * (-10))%float
       /\ stored_dealer (Dealer.id (set_outstanding_balance 3500 Sample.dealer))
            db2
          = Some (set_outstanding_balance
                    (Dealer.outstanding_balance
                       (set_outstanding_balance 3500 Sample.dealer)
                     + (0 + Product.price Sample.opc43 * (-10)))%float
                    (set_outstanding_balance 3500 Sample.dealer))
       /\ cart_of (set_outstanding_balance 3500 Sample.dealer) db2 = [].
Proof.
  assert (H1 : stored_dealer
                 (Dealer.id (set_outstanding_balance 3500 Sample.dealer))
                 Sample.db_3500_after
               = Some (set_outstanding_balance 3500 Sample.dealer))
    by reflexivity.
  assert (H2 : cart_of (set_outstanding_balance 3500 Sample.dealer)
                 Sample.db_3500_after = []) by reflexivity.
  assert (H3 : catalog "p-opc43" Sample.db_3500_after = Some Sample.opc43)
    by reflexivity.
  assert (H3' : fits_int64 (-10) = true) by reflexivity.
  assert (H4 : Py.float_of_int (-10) = Some (-10)%float)
    by (vm_compute; reflexivity).
  assert (H5 : Py.gt (0 + Product.price Sample.opc43 * (-10))%float
                 (Dealer.credit_limit (set_outstanding_balance 3500 Sample.dealer)
                  - Dealer.outstanding_balance
                      (set_outstanding_balance 3500 Sample.dealer))%float
               = false) by (vm_compute; reflexivity).
  split; [exact H1|]. split; [exact H2|]. split; [exact H3|].
  split; [exact H3'|]. split; [exact H4|]. split; [exact H5|].
  exact (add_then_checkout_charges _ "p-opc43" (-10) "Pune" None Sample.world2
           Fixture.world3 _ _ _ H1 H2 H3 H3' H4 H5).
Defined.

(** With 3500 outstanding, ordering -10 bags at 350 brings the balance to 0. *)
Example negative_order_lowers_balance :
  (Dealer.outstanding_balance (set_outstanding_balance 3500 Sample.dealer)
   + (0 + Product.price Sample.opc43 * (-10)))%float = 0%float.
Proof. vm_compute. reflexivity. Qed.

(** ** More on the dashboard *)

Lemma firstn_app_fits {A} (n : nat) (l r : list A) :
  (List.length l + List.length r <= n)%nat -> firstn n (l ++ r) = (l ++ r)%list.
Proof. intros H. apply firstn_all2. rewrite length_app. exact H. Qed.

Lemma two_statuses_at_most_all (os : list Order.t) :
  (0 <= count_status OrderStatus.PENDING os
   /\ 0 <= count_status OrderStatus.DELIVERED os
   /\ count_status OrderStatus.PENDING os
      + count_status OrderStatus.DELIVERED os
      <= Z.of_nat (List.length os))%Z.
Proof.
  induction os as [|o r IH]; [cbn; lia|].
  cbn [count_status List.length]. rewrite Nat2Z.inj_succ.
  destruct (Order.order_status o); cbn [OrderStatus.eqb]; lia.
Qed.

(** X22: the dashboard's counts are coherent: pending and delivered orders are
    counted apart, together they never exceed [total_orders], and
    [total_orders] never exceeds 1000. *)
Theorem get_dashboard_stats_bounds v dealer db :
  exists s,
    get_dashboard_stats v dealer db = (Return s, db)
    /\ (0 <= DashboardStats.pending_orders s)%Z
    /\ (0 <= DashboardStats.delivered_orders s)%Z
    /\ (DashboardStats.pending_orders s + DashboardStats.delivered_orders s
        <= DashboardStats.total_orders s)%Z
    /\ (DashboardStats.total_orders s <= 1000)%Z.
Proof.
  eexists. split; [reflexivity|].
  cbn [DashboardStats.total_orders DashboardStats.pending_orders
       DashboardStats.delivered_orders].
  rewrite <- !count_status_filter.
  pose proof (two_statuses_at_most_all
                (firstn 1000
                   (filter (fun o => String.eqb (Order.dealer_id o) (Dealer.id dealer))
                      (docs db_orders db)))) as (H1 & H2 & H3).
  repeat (split; [assumption|]).
  pose proof (firstn_le_length 1000
                (filter (fun o => String.eqb (Order.dealer_id o) (Dealer.id dealer))
                   (docs db_orders db))) as Hle.
  apply Nat2Z.inj_le in Hle. exact Hle.
Qed.

(** X23: the dashboard sees a new order at once.  For a dealer with fewer
    than 1000 orders, a successful checkout raises [total_orders] and
    [pending_orders] by one each and leaves [delivered_orders] as it was. *)
Theorem get_dashboard_stats_after_order v order_data dealer w db o db' :
  create_order order_data dealer w db = (Return o, db') ->
  (List.length (orders_of dealer db) < 1000)%nat ->
  exists s s',
    get_dashboard_stats v dealer db = (Return s, db)
    /\ get_dashboard_stats v dealer db' = (Return s', db')
    /\ DashboardStats.total_orders s' = (DashboardStats.total_orders s + 1)%Z
    /\ DashboardStats.pending_orders s' = (DashboardStats.pending_orders s + 1)%Z
    /\ DashboardStats.delivered_orders s' = DashboardStats.delivered_orders s.
Proof.
  intros H Hlen. apply create_order_Return in H.
  destruct H as (items & total & _ & _ & _ & Ho & _ & _ & _ & Hos).
  assert (Hdid : Order.dealer_id o = Dealer.id dealer) by now rewrite Ho.
  assert (Hst : Order.order_status o = OrderStatus.PENDING) by now rewrite Ho.
  do 2 eexists. split; [reflexivity|]. split; [reflexivity|].
  cbn [DashboardStats.total_orders DashboardStats.pending_orders
       DashboardStats.delivered_orders docs db_orders].
  change (filter _ (orders db)) with (orders_of dealer db).
  change (filter _ (orders db')) with (orders_of dealer db').
  assert (Hof : orders_of dealer db' = (orders_of dealer db ++ [o])%list).
  { unfold orders_of. rewrite Hos, filter_app. cbn [filter].
    now rewrite Hdid, String.eqb_refl. }
  rewrite Hof.
  rewrite (firstn_app_fits 1000) by (cbn [List.length]; lia).
  rewrite (firstn_all_le 1000 (orders_of dealer db)) by lia.
  rewrite !filter_app, !length_app. cbn [filter]. rewrite Hst.
  cbn [OrderStatus.eqb List.length]. repeat split; lia.
Qed.

Lemma get_dashboard_stats_after_order_witness :
  create_order Sample.by_account Sample.dealer Sample.world Sample.db_3500
  = (Return Sample.order_3500, Sample.db_3500_after)
  /\ (List.length (orders_of Sample.dealer Sample.db_3500) < 1000)%nat
  /\ exists s s',
       get_dashboard_stats Py.Py312 Sample.dealer Sample.db_3500
       = (Return s, Sample.db_3500)
       /\ get_dashboard_stats Py.Py312 Sample.dealer Sample.db_3500_after
          = (Return s', Sample.db_3500_after)
       /\ DashboardStats.total_orders s' = (DashboardStats.total_orders s + 1)%Z
       /\ DashboardStats.pending_orders s'
          = (DashboardStats.pending_orders s + 1)%Z
       /\ DashboardStats.delivered_orders s' = DashboardStats.delivered_orders s.
Proof.
  assert (H1 : create_order Sample.by_account Sample.dealer Sample.world
                 Sample.db_3500
               = (Return Sample.order_3500, Sample.db_3500_after))
    by (vm_compute; reflexivity).
  assert (H2 : (List.length (orders_of Sample.dealer Sample.db_3500) < 1000)%nat)
    by (cbn; lia).
  split; [exact H1|]. split; [exact H2|].
  exact (get_dashboard_stats_after_order Py.Py312 _ _ _ _ _ _ H1 H2).
Defined.

(** ** Seeding the catalog *)

(** X24: [seed_data] only ever fills an empty catalog.  On a store with
    products it answers [Products already exist] and writes nothing; on an
    empty catalog it inserts its six products and touches nothing else; so
    seeding again after any seeding is a no-op. *)
Theorem seed_data_once w1 w2 w3 w4 w5 w6 db :
  (products db <> [] ->
   seed_data w1 w2 w3 w4 w5 w6 db = (Return "Products already exist", db))
  /\ (products db = [] ->
      seed_data w1 w2 w3 w4 w5 w6 db
      = (Return "6 products added successfully",
         mkDB (dealers db) (seed_products w1 w2 w3 w4 w5 w6) (cart_items db)
           (orders db)))
  /\ forall v1 v2 v3 v4 v5 v6,
       seed_data v1 v2 v3 v4 v5 v6 (snd (seed_data w1 w2 w3 w4 w5 w6 db))
       = (Return "Products already exist",
          snd (seed_data w1 w2 w3 w4 w5 w6 db)).
Proof.
  assert (Hfull : forall u1 u2 u3 u4 u5 u6 d,
            products d <> [] ->
            seed_data u1 u2 u3 u4 u5 u6 d = (Return "Products already exist", d)).
  { intros u1 u2 u3 u4 u5 u6 d Hne. unfold seed_data.
    destruct (products d) as [|p r]; [congruence|]. reflexivity. }
  split; [apply Hfull|]. split.
  - intros Hnil. unfold seed_data, insert_many_products, bind, ret.
    cbn [put db_products]. rewrite Hnil. reflexivity.
  - intros v1 v2 v3 v4 v5 v6. apply Hfull.
    destruct (products db) as [|p r] eqn:Hp.
    + unfold seed_data, insert_many_products, bind, ret. rewrite Hp.
      cbn [List.length Z.of_nat Z.gtb Z.compare snd put db_products products
           app].
      unfold seed_products. discriminate.
    + rewrite (Hfull w1 w2 w3 w4 w5 w6 db) by (rewrite Hp; discriminate).
      cbn [snd]. rewrite Hp. discriminate.
Qed.

(** ** Invariants of the API *)

Lemma writes_one db db' : write db db' -> writes db db'.
Proof. intros H. eapply writes_more; [exact H | apply writes_none]. Qed.

Lemma writes_trans db db1 db2 :
  writes db db1 -> writes db1 db2 -> writes db db2.
Proof.
  induction 1 as [|a b c Hab _ IH]; [auto|].
  intros H. eapply writes_more; [exact Hab | auto].
Qed.

(** [get_current_dealer] reads only, and what it returns is a stored dealer. *)
Lemma get_current_dealer_result authorization db r db' :
  get_current_dealer authorization db = (r, db') ->
  db' = db /\ forall d, r = Return d -> In d (dealers db).
Proof.
  unfold get_current_dealer.
  destruct authorization as [a|]; [|cbv [raise]; inversion 1; split; [auto|discriminate]].
  destruct (_ || _); [cbv [raise]; inversion 1; split; [auto|discriminate]|].
  unfold bind, find_one. cbn [docs db_dealers].
  destruct (List.find _ (dealers db)) as [d|] eqn:Hd.
  - cbv [ret]. inversion 1; subst. split; [reflexivity|].
    intros d' E. inversion E; subst. now apply find_some in Hd.
  - cbv [raise]. inversion 1. split; [auto|discriminate].
Qed.

(** A protected route writes what the route writes for a stored dealer, or
    nothing. *)
Lemma protected_writes {A} authorization (route : Dealer.t -> Handler A) db :
  (forall d, In d (dealers db) -> writes db (snd (route d db))) ->
  writes db (snd (protected authorization route db)).
Proof.
  intros H. unfold protected, bind.
  destruct (get_current_dealer authorization db) as [[d|e] db0] eqn:E;
    destruct (get_current_dealer_result _ _ _ _ E) as [-> Hin].
  - apply H, Hin. reflexivity.
  - apply writes_none.
Qed.

Lemma registration_set_otp o e d : registration (set_otp o e d) = registration d.
Proof. reflexivity. Qed.

Lemma registration_set_auth_token t d :
  registration (set_auth_token t d) = registration d.
Proof. reflexivity. Qed.

Lemma registration_set_outstanding_balance b d :
  registration (set_outstanding_balance b d) = registration d.
Proof. reflexivity. Qed.

Lemma stored_dealer_id db d : In d (dealers db) -> In (Dealer.id d) (dealer_ids db).
Proof. intros H. unfold dealer_ids. now apply in_map. Qed.

Lemma create_order_writes order_data d w db :
  In d (dealers db) -> writes db (snd (create_order order_data d w db)).
Proof.
  intros Hin.
  destruct (create_order order_data d w db) as [[o|e] db'] eqn:H; cbn [snd].
  - apply create_order_Return in H.
    destruct H as (items & total & _ & _ & _ & Ho & Hd & Hp & Hc & Hos).
    assert (Hdid : Order.dealer_id o = Dealer.id d) by now rewrite Ho.
    set (db1 := put db_orders (orders db ++ [o]) db).
    set (db2 := put db_dealers (dealers db') db1).
    set (db3 := put db_cart_items (cart_items db') db2).
    assert (E : db' = db3).
    { destruct db' as [ds ps cs os]. cbn in Hd, Hp, Hc, Hos |- *.
      unfold db3, db2, db1. cbn. now rewrite Hp, Hos. }
    rewrite E. eapply writes_more.
    { apply (write_new_order db o). rewrite Hdid. now apply stored_dealer_id. }
    fold db1. eapply writes_trans with (db1 := db2).
    { unfold db2. rewrite Hd. destruct (OrderCreate.payment_method order_data).
      - replace (put db_dealers (dealers db) db1) with db1
          by (unfold db1; cbn; reflexivity).
        apply writes_none.
      - apply writes_one.
        apply (write_dealer db1
                 (fun x => String.eqb (Dealer.id x) (Dealer.id d))
                 (set_outstanding_balance
                    (Dealer.outstanding_balance d + total)%float)).
        intros x. reflexivity. }
    apply writes_one. unfold db3. rewrite Hc.
    apply (write_delete_rows db2
             (fun c => negb (String.eqb (CartItem.dealer_id c) (Dealer.id d)))).
  - rewrite (create_order_Raise _ _ _ _ _ _ H). apply writes_none.
Qed.

Lemma add_to_cart_writes item_data d w db :
  In d (dealers db) -> writes db (snd (add_to_cart item_data d w db)).
Proof.
  intros Hin. unfold add_to_cart, bind, find_one. cbn [docs db_products].
  destruct (List.find _ (products db)); [|apply writes_none].
  cbn [docs db_cart_items].
  destruct (List.find _ (cart_items db)) as [existing|];
    unfold encode_int; destruct (fits_int64 _); cbn [snd ret raise];
    try apply writes_none.
  - apply writes_one. apply write_quantity.
  - apply writes_one. apply write_new_row. cbn. now apply stored_dealer_id.
Qed.

(** Every request is served by a sequence of such writes. *)
Lemma serve_writes v r db : writes db (serve v r db).
Proof.
  destruct r; cbn [serve].
  - unfold register_dealer, bind, find_one. cbn [docs db_dealers].
    destruct (List.find _ (dealers db)) eqn:E; [apply writes_none|].
    cbn [snd]. apply writes_one. apply write_new_dealer. exact E.
  - unfold send_otp, bind, find_one. cbn [docs db_dealers].
    destruct (List.find _ (dealers db)); [|apply writes_none].
    cbn [snd]. apply writes_one. apply write_dealer. intros x. reflexivity.
  - unfold verify_otp, bind, find_one. cbn [docs db_dealers].
    destruct (List.find _ (dealers db)) as [d|]; [|apply writes_none].
    destruct (negb _); [apply writes_none|].
    destruct (Dealer.otp_expires_at d); [|apply writes_none].
    destruct (_ >? _)%Z; [apply writes_none|].
    cbn [snd]. apply writes_one. apply write_dealer. intros x. reflexivity.
  - apply protected_writes. intros d _. apply writes_none.
  - apply writes_none.
  - unfold get_product, bind, find_one.
    destruct (List.find _ _); apply writes_none.
  - apply protected_writes. intros d _. unfold get_cart, bind.
    cbn [find_to_list].
    destruct (get_cart_loop _ [] db) as [r db1] eqn:E.
    rewrite (get_cart_loop_reads _ _ _ _ _ E). apply writes_none.
  - apply protected_writes. intros d Hd. now apply add_to_cart_writes.
  - apply protected_writes. intros d _. unfold update_cart_item.
    destruct (quantity <=? 0)%Z; [apply writes_none|].
    unfold bind at 1. unfold encode_int.
    destruct (fits_int64 quantity); [|apply writes_none].
    unfold bind, update_one, ret at 1. cbn [docs put db_cart_items].
    destruct (matched_count _ _ =? 0)%Z; cbn [snd raise ret];
      apply writes_one; apply (write_quantity db).
  - apply protected_writes. intros d _.
    unfold remove_from_cart, bind, delete_one. cbn [docs put db_cart_items].
    destruct (matched_count _ _ =? 0)%Z; cbn [snd raise ret];
      apply writes_one; apply (write_delete_row db).
  - apply protected_writes. intros d _. unfold clear_cart, delete_many.
    cbn [snd docs]. apply writes_one.
    apply (write_delete_rows db
             (fun c => negb (String.eqb (CartItem.dealer_id c) (Dealer.id d)))).
  - apply protected_writes. intros d Hd. now apply create_order_writes.
  - apply protected_writes. intros d _. unfold get_order, bind, find_one.
    destruct (List.find _ _); apply writes_none.
  - apply protected_writes. intros d _. apply writes_none.
  - unfold seed_data.
    destruct (products db) as [|p ps] eqn:E; cbn [List.length Z.of_nat Z.gtb
                                                    Z.compare].
    + unfold insert_many_products, bind, ret. cbn [snd]. apply writes_one.
      rewrite E. apply (write_catalog db). exact E.
    + apply writes_none.
Qed.

Lemma run_writes v rs : forall db, writes db (run v rs db).
Proof.
  unfold run. induction rs as [|r rs IH]; intros db; cbn [fold_left].
  - apply writes_none.
  - eapply writes_trans; [apply serve_writes | apply IH].
Qed.

Lemma map_update_first {A B} (g : A -> B) (q : A -> bool) (f : A -> A)
    (l : list A) :
  (forall x, g (f x) = g x) -> map g (update_first q f l) = map g l.
Proof.
  intros H. induction l as [|x r IH]; cbn; [reflexivity|].
  destruct (q x); cbn; [now rewrite H | now rewrite IH].
Qed.

Lemma registration_phone f :
  (forall x, registration (f x) = registration x) ->
  forall x, Dealer.phone (f x) = Dealer.phone x.
Proof. intros H x. specialize (H x). unfold registration in H. congruence. Qed.

Lemma registration_id f :
  (forall x, registration (f x) = registration x) ->
  forall x, Dealer.id (f x) = Dealer.id x.
Proof. intros H x. specialize (H x). unfold registration in H. congruence. Qed.

(** What one write does to the registered dealers: it keeps their
    registration data in place, and may add one dealer at the end. *)
Lemma write_registrations db db' :
  write db db' ->
  exists new,
    map registration (dealers db') = (map registration (dealers db) ++ new)%list.
Proof.
  destruct 1; cbn [put db_dealers db_cart_items db_orders db_products dealers];
    try (exists []; now rewrite app_nil_r).
  - exists [registration d]. now rewrite map_app.
  - exists []. rewrite app_nil_r. now apply map_update_first.
Qed.

Lemma write_dealer_ids db db' :
  write db db' -> forall i, In i (dealer_ids db) -> In i (dealer_ids db').
Proof.
  unfold dealer_ids.
  destruct 1; cbn [put db_dealers db_cart_items db_orders db_products dealers];
    intros i Hi; try exact Hi.
  - rewrite map_app. apply in_or_app. now left.
  - rewrite map_update_first; [exact Hi | now apply registration_id].
Qed.

Lemma NoDup_snoc {A} (l : list A) (a : A) :
  NoDup l -> ~ In a l -> NoDup (l ++ [a]).
Proof.
  induction 1 as [|x r Hx Hr IH]; intros Ha; cbn.
  - constructor; [intros []|constructor].
  - constructor.
    + intros Hin. apply in_app_or in Hin. destruct Hin as [Hin|[<-|[]]].
      * contradiction.
      * apply Ha. now left.
    + apply IH. intros Hin. apply Ha. now right.
Qed.

Lemma write_phones_unique db db' :
  write db db' -> phones_unique db -> phones_unique db'.
Proof.
  unfold phones_unique.
  destruct 1 as [d Hd|q f Hf| | | | | | ];
    cbn [put db_dealers db_cart_items db_orders db_products dealers];
    intros Hnd; try exact Hnd.
  - rewrite map_app. cbn [map]. apply NoDup_snoc; [exact Hnd|].
    intros Hin. apply in_map_iff in Hin. destruct Hin as (x & Hx & Hin).
    unfold dealer_by_phone in Hd.
    pose proof (find_none _ _ Hd x Hin) as Hq. cbn in Hq.
    rewrite Hx, String.eqb_refl in Hq. discriminate.
  - rewrite map_update_first; [exact Hnd | now apply registration_phone].
Qed.

Lemma Forall_update_first_kept {A} (P : A -> Prop) (q : A -> bool) (f : A -> A)
    (l : list A) :
  (forall x, P x -> P (f x)) -> Forall P l -> Forall P (update_first q f l).
Proof.
  intros Hf. induction 1 as [|x r Hx Hr IH]; cbn; [constructor|].
  destruct (q x); constructor; auto.
Qed.

Lemma Forall_snoc {A} (P : A -> Prop) (l : list A) (a : A) :
  Forall P l -> P a -> Forall P (l ++ [a]).
Proof. intros Hl Ha. apply Forall_app. split; [exact Hl | now constructor]. Qed.

Lemma write_owned db db' : write db db' -> owned db -> owned db'.
Proof.
  intros Hw [Hc Ho].
  pose proof (write_dealer_ids _ _ Hw) as Hids.
  assert (Hc' : Forall (fun c => In (CartItem.dealer_id c) (dealer_ids db'))
                  (cart_items db)).
  { eapply Forall_impl; [|exact Hc]. intros c. apply Hids. }
  assert (Ho' : Forall (fun o => In (Order.dealer_id o) (dealer_ids db'))
                  (orders db)).
  { eapply Forall_impl; [|exact Ho]. intros o. apply Hids. }
  clear Hc Ho. unfold owned.
  destruct Hw;
    cbn [put db_dealers db_cart_items db_orders db_products cart_items orders]
      in *;
    split; try assumption.
  - apply Forall_snoc; [exact Hc'|]. now apply Hids.
  - apply Forall_update_first_kept; [|exact Hc']. intros x Hx. exact Hx.
  - now apply Forall_delete_first.
  - now apply Forall_filter.
  - apply Forall_snoc; [exact Ho'|]. now apply Hids.
Qed.

Lemma write_orders db db' :
  write db db' -> exists new, orders db' = (orders db ++ new)%list.
Proof.
  destruct 1; cbn [put db_dealers db_cart_items db_orders db_products orders];
    try (exists []; now rewrite app_nil_r).
  now exists [o].
Qed.

Lemma write_catalog_kept db db' :
  write db db' -> products db <> [] -> products db' = products db.
Proof.
  destruct 1; cbn [put db_dealers db_cart_items db_orders db_products products];
    intros Hne; try reflexivity.
  contradiction.
Qed.

(** X25: no sequence of requests ever gives two dealers the same phone
    number, if no two had the same to begin with. *)
Theorem phones_stay_unique v rs db :
  phones_unique db -> phones_unique (run v rs db).
Proof.
  intros H. pose proof (run_writes v rs db) as Hw.
  induction Hw as [|a b c Hab _ IH]; [exact H|].
  apply IH. exact (write_phones_unique _ _ Hab H).
Qed.

Lemma phones_stay_unique_witness :
  phones_unique Fixture.db_two_dealers
  /\ phones_unique
       (run Py.Py312
          [POST_auth_register Fixture.asha Sample.world;
           POST_auth_send_otp (SendOTPRequest.mk "9000000002") Sample.world2;
           POST_auth_verify_otp (VerifyOTPRequest.mk "9000000002" "654321")
             Fixture.world3;
           POST_orders (Some "Bearer tok4") Sample.by_account Sample.world]
          Fixture.db_two_dealers).
Proof.
  assert (H1 : phones_unique Fixture.db_two_dealers).
  { unfold phones_unique. cbn. constructor.
    - intros [E|[]]. discriminate E.
    - constructor; [intros []|constructor]. }
  split; [exact H1|].
  exact (phones_stay_unique _ _ _ H1).
Defined.

(** X26: orders are append-only.  Whatever requests are served, the orders
    stored before are all still there afterwards, unchanged and in the same
    order; new orders come after them. *)
Theorem orders_append_only v rs db :
  exists new, orders (run v rs db) = (orders db ++ new)%list.
Proof.
  pose proof (run_writes v rs db) as Hw.
  induction Hw as [db0|a b c Hab _ IH].
  - exists []. now rewrite app_nil_r.
  - destruct (write_orders _ _ Hab) as [n1 H1]. destruct IH as [n2 H2].
    exists (n1 ++ n2)%list. now rewrite H2, H1, app_assoc.
Qed.

(** X27: once the catalog holds a product, no request changes it: no route
    edits a price or takes stock, and seeding does nothing. *)
Theorem catalog_frozen v rs db :
  products db <> [] -> products (run v rs db) = products db.
Proof.
  intros H. pose proof (run_writes v rs db) as Hw.
  induction Hw as [|a b c Hab _ IH]; [reflexivity|].
  pose proof (write_catalog_kept _ _ Hab H) as E.
  rewrite IH; [exact E | now rewrite E].
Qed.

Lemma catalog_frozen_witness :
  products Fixture.db_two_dealers <> []
  /\ products
       (run Py.Py312
          [POST_seed_data Sample.world Sample.world Sample.world Sample.world
             Sample.world Sample.world;
           POST_cart (Some "Bearer tok") (CartItemCreate.mk "p-opc43" 3)
             Sample.world2;
           POST_orders (Some "Bearer tok") Sample.by_cod Fixture.world3]
          Fixture.db_two_dealers)
     = products Fixture.db_two_dealers.
Proof.
  assert (H1 : products Fixture.db_two_dealers <> []) by discriminate.
  split; [exact H1|].
  exact (catalog_frozen _ _ _ H1).
Defined.

(** X28: dealers stay who they are.  Whatever requests are served, every
    registered dealer is still registered, at the same place, with the same
    id, name, phone, e-mail, business name, address, tax id, credit limit and
    creation time; new dealers are added after them. *)
Theorem registrations_kept v rs db :
  exists new,
    map registration (dealers (run v rs db))
    = (map registration (dealers db) ++ new)%list.
Proof.
  pose proof (run_writes v rs db) as Hw.
  induction Hw as [db0|a b c Hab _ IH].
  - exists []. now rewrite app_nil_r.
  - destruct (write_registrations _ _ Hab) as [n1 H1]. destruct IH as [n2 H2].
    exists (n1 ++ n2)%list. now rewrite H2, H1, app_assoc.
Qed.

(** X29: carts and orders always belong to somebody.  If every cart row and
    every order carries the id of a registered dealer, this is still so after
    any sequence of requests. *)
Theorem ownership_kept v rs db : owned db -> owned (run v rs db).
Proof.
  intros H. pose proof (run_writes v rs db) as Hw.
  induction Hw as [|a b c Hab _ IH]; [exact H|].
  apply IH. exact (write_owned _ _ Hab H).
Qed.

Lemma ownership_kept_witness :
  owned Fixture.db_two_dealers
  /\ owned
       (run Py.Py312
          [POST_cart (Some "Bearer tok-ravi") (CartItemCreate.mk "p-opc43-25" 2)
             Sample.world2;
           POST_orders (Some "Bearer tok-ravi") Sample.by_account Fixture.world3;
           DELETE_cart (Some "Bearer tok")]
          Fixture.db_two_dealers).
Proof.
  assert (H1 : owned Fixture.db_two_dealers).
  { unfold owned, dealer_ids. cbn. split; [|constructor].
    constructor; [now left|]. constructor; [right; now left | constructor]. }
  split; [exact H1|].
  exact (ownership_kept _ _ _ H1).
Defined.

(** The requests of the last witness do what they say: Ravi's order is
    placed, Asha's cart is cleared. *)
Example run_two_dealers :
  List.length
    (orders
       (run Py.Py312
          [POST_cart (Some "Bearer tok-ravi") (CartItemCreate.mk "p-opc43-25" 2)
             Sample.world2;
           POST_orders (Some "Bearer tok-ravi") Sample.by_account Fixture.world3;
           DELETE_cart (Some "Bearer tok")]
          Fixture.db_two_dealers)) = 1%nat
  /\ cart_items
       (run Py.Py312
          [POST_cart (Some "Bearer tok-ravi") (CartItemCreate.mk "p-opc43-25" 2)
             Sample.world2;
           POST_orders (Some "Bearer tok-ravi") Sample.by_account Fixture.world3;
           DELETE_cart (Some "Bearer tok")]
          Fixture.db_two_dealers) = [].
Proof. split; vm_compute; reflexivity. Qed.
